(** * Research assistant: the critical-analysis engine and the difficulty assessor

    A shallow embedding of [src/ml/critic.py] ([CriticalAnalyzer]) and of
    [DocumentAnalyzer.assess_difficulty] from [src/ml/analyzer.py].

    Text is a list of 8-bit characters read as the code points U+0000 to
    U+00FF; the character classes of [str] and [re] below are Python's on that
    range.  Operations that can raise in Python (division, indexing, dictionary
    lookup, [max] of an empty iterable) return [option]. *)

From Stdlib Require Import Ascii String.
From Stdlib Require Import List Bool Arith ZArith NArith QArith Lia.
From Stdlib Require DecimalString DecimalNat.
Import ListNotations.

Local Open Scope nat_scope.
Local Open Scope bool_scope.
Local Open Scope list_scope.

(** ** Python strings *)

Definition text := list ascii.

(** A string literal of the source. *)
Definition str (s : string) : text := list_ascii_of_string s.

Module PyStr.

Definition code (c : ascii) : N := N_of_ascii c.

Definition between (lo hi : N) (c : ascii) : bool :=
  (lo <=? code c)%N && (code c <=? hi)%N.

(** [str.isspace], also the class [\s] of [re]. *)
Definition is_space (c : ascii) : bool :=
  between 9 13 c || between 28 32 c || (code c =? 133)%N || (code c =? 160)%N.

(** The class [\d] of [re]. *)
Definition is_digit (c : ascii) : bool := between 48 57 c.

(** The class [\w] of [re]: alphanumeric or underscore. *)
Definition is_word (c : ascii) : bool :=
  between 48 57 c || between 65 90 c || (code c =? 95)%N || between 97 122 c
  || (code c =? 170)%N || between 178 179 c || (code c =? 181)%N
  || between 185 186 c || between 188 190 c
  || between 192 214 c || between 216 246 c || between 248 255 c.

(** [str.lower] on one character. *)
Definition lower_char (c : ascii) : ascii :=
  if between 65 90 c || (between 192 222 c && negb (code c =? 215)%N)
  then ascii_of_N (code c + 32)
  else c.

Definition lower (s : text) : text := map lower_char s.

Fixpoint text_eqb (a b : text) : bool :=
  match a, b with
  | [], [] => true
  | x :: a', y :: b' => Ascii.eqb x y && text_eqb a' b'
  | _, _ => false
  end.

(** [s.startswith(sub)] *)
Fixpoint starts_with (sub s : text) : bool :=
  match sub, s with
  | [], _ => true
  | x :: sub', y :: s' => Ascii.eqb x y && starts_with sub' s'
  | _ :: _, [] => false
  end.

(** [sub in s] *)
Fixpoint contains (sub s : text) : bool :=
  starts_with sub s ||
  match s with
  | [] => false
  | _ :: s' => contains sub s'
  end.

(** [s.count(sub)] for a non-empty [sub]: occurrences that do not overlap,
    scanning from the left; [skip] characters of the last occurrence are
    still to be passed. *)
Fixpoint count_from (sub : text) (skip : nat) (s : text) : nat :=
  match s with
  | [] => 0
  | _ :: s' =>
      match skip with
      | S k => count_from sub k s'
      | O => if starts_with sub s
             then S (count_from sub (length sub - 1) s')
             else count_from sub 0 s'
      end
  end.

Definition count (s sub : text) : nat := count_from sub 0 s.

(** [s.split(sep)] for a one-character separator: never empty. *)
Fixpoint split_on (sep : ascii) (s : text) : list text :=
  match s with
  | [] => [[]]
  | c :: s' =>
      if Ascii.eqb c sep then [] :: split_on sep s'
      else match split_on sep s' with
           | cur :: rest => (c :: cur) :: rest
           | [] => [[c]]
           end
  end.

(** [s.split()]: the maximal runs of characters that are not whitespace;
    [cur] is the run being read, reversed. *)
Fixpoint split_ws_from (cur : text) (s : text) : list text :=
  match s with
  | [] => match cur with [] => [] | _ => [rev cur] end
  | c :: s' =>
      if is_space c
      then match cur with
           | [] => split_ws_from [] s'
           | _ => rev cur :: split_ws_from [] s'
           end
      else split_ws_from (c :: cur) s'
  end.

Definition split_ws (s : text) : list text := split_ws_from [] s.

Fixpoint lstrip (s : text) : text :=
  match s with
  | c :: s' => if is_space c then lstrip s' else s
  | [] => []
  end.

Definition rstrip (s : text) : text := rev (lstrip (rev s)).

(** [s.strip()] *)
Definition strip (s : text) : text := rstrip (lstrip s).

(** [s[a:b]] for [0 <= a] and [0 <= b]. *)
Definition slice (a b : nat) (s : text) : text := firstn (b - a) (skipn a s).

(** [sep.join(parts)] *)
Fixpoint join (sep : text) (parts : list text) : text :=
  match parts with
  | [] => []
  | [p] => p
  | p :: ps => p ++ sep ++ join sep ps
  end.

(** [str(n)] for a length. *)
Definition of_nat (n : nat) : text :=
  str (DecimalString.NilZero.string_of_uint (Nat.to_uint n)).

(** [x in xs] for a list of strings. *)
Definition mem (x : text) (xs : list text) : bool := existsb (text_eqb x) xs.

End PyStr.

(** ** The fragment of [re] the patterns are written in *)

Module Re.

(** A repetition is only ever applied to a one-character class in the
    source's patterns ([\s+], [\w+], [\d+], [.*]), so [Star] takes a class. *)
Inductive regex : Type :=
| Eps
| Chr (p : ascii -> bool)
| Seq (r1 r2 : regex)
| Alt (r1 r2 : regex)
| Star (p : ascii -> bool)
| NotAhead (r : regex).

(** Greedy [p*] followed by the continuation [k]: take a character when
    possible, and give it back when the rest fails. *)
Fixpoint star (p : ascii -> bool) (s : text) (k : text -> option text)
  : option text :=
  match s with
  | c :: s' =>
      if p c
      then match star p s' k with
           | Some rest => Some rest
           | None => k s
           end
      else k s
  | [] => k []
  end.

(** The backtracking matcher: [exec r s k] matches [r] at the head of [s]
    and passes what is left to [k]; alternatives are tried left to right and
    the first success is returned. *)
Fixpoint exec (r : regex) (s : text) (k : text -> option text) : option text :=
  match r with
  | Eps => k s
  | Chr p =>
      match s with
      | c :: s' => if p c then k s' else None
      | [] => None
      end
  | Seq r1 r2 => exec r1 s (fun s' => exec r2 s' k)
  | Alt r1 r2 =>
      match exec r1 s k with
      | Some rest => Some rest
      | None => exec r2 s k
      end
  | Star p => star p s k
  | NotAhead r1 =>
      match exec r1 s Some with
      | Some _ => None
      | None => k s
      end
  end.

(** Length of the match of [r] at the head of [s]. *)
Definition match_here (r : regex) (s : text) : option nat :=
  match exec r s Some with
  | Some rest => Some (length s - length rest)
  | None => None
  end.

(** [re.search]: the leftmost match, as (start, end), counted from [pos]. *)
Fixpoint search_from (r : regex) (pos : nat) (s : text) : option (nat * nat) :=
  match match_here r s with
  | Some n => Some (pos, pos + n)
  | None =>
      match s with
      | [] => None
      | _ :: s' => search_from r (S pos) s'
      end
  end.

Definition search (r : regex) (s : text) : option (nat * nat) :=
  search_from r 0 s.

(** [bool(re.search(...))] *)
Definition found (r : regex) (s : text) : bool :=
  match search r s with Some _ => true | None => false end.

(** [re.finditer]: the matches that do not overlap, left to right, as
    (start, end); [skip] characters of the last match are still to be
    passed.  None of the source's patterns matches the empty string; an
    empty match is recorded and the scan moves on by one character. *)
Fixpoint finditer_from (r : regex) (pos skip : nat) (s : text)
  : list (nat * nat) :=
  match skip with
  | S k =>
      match s with
      | [] => []
      | _ :: s' => finditer_from r (S pos) k s'
      end
  | O =>
      match match_here r s with
      | Some n =>
          (pos, pos + n) ::
          match s with
          | [] => []
          | _ :: s' => finditer_from r (S pos) (n - 1) s'
          end
      | None =>
          match s with
          | [] => []
          | _ :: s' => finditer_from r (S pos) 0 s'
          end
      end
  end.

Definition finditer (r : regex) (s : text) : list (nat * nat) :=
  finditer_from r 0 0 s.

(** [len(re.findall(...))] for a pattern without groups. *)
Definition findall_count (r : regex) (s : text) : nat :=
  length (finditer r s).

(** *** Pattern syntax *)

(** A literal character, exactly. *)
Definition ch (c : ascii) : regex := Chr (Ascii.eqb c).

(** A literal character under [re.IGNORECASE]. *)
Definition chi (c : ascii) : regex :=
  Chr (fun x => Ascii.eqb (PyStr.lower_char x) (PyStr.lower_char c)).

Fixpoint seq_of (f : ascii -> regex) (s : text) : regex :=
  match s with
  | [] => Eps
  | [c] => f c
  | c :: s' => Seq (f c) (seq_of f s')
  end.

(** A literal word, exactly and under [re.IGNORECASE]. *)
Definition lit (s : string) : regex := seq_of ch (str s).
Definition liti (s : string) : regex := seq_of chi (str s).

Definition plus (p : ascii -> bool) : regex := Seq (Chr p) (Star p).
Definition opt (r : regex) : regex := Alt r Eps.

Fixpoint alts (rs : list regex) : regex :=
  match rs with
  | [] => NotAhead Eps
  | [r] => r
  | r :: rs' => Alt r (alts rs')
  end.

Fixpoint seqs (rs : list regex) : regex :=
  match rs with
  | [] => Eps
  | [r] => r
  | r :: rs' => Seq r (seqs rs')
  end.

Fixpoint times (n : nat) (r : regex) : regex :=
  match n with
  | O => Eps
  | 1 => r
  | S n' => Seq r (times n' r)
  end.

(** [\s+], [\w+], [\d+], [.*] *)
Definition spaces : regex := plus PyStr.is_space.
Definition word : regex := plus PyStr.is_word.
Definition digits : regex := plus PyStr.is_digit.
Definition any_char (c : ascii) : bool := negb (N_of_ascii c =? 10)%N.
Definition dot_star : regex := Star any_char.

End Re.

(** ** Operations that can raise *)

Module Py.

Definition bind {A B : Type} (m : option A) (f : A -> option B) : option B :=
  match m with
  | Some a => f a
  | None => None
  end.

Declare Scope py_scope.
Delimit Scope py_scope with py.
Notation "x <- m ;; k" := (bind m (fun x => k))
  (at level 61, m at next level, right associativity) : py_scope.

Local Open Scope py_scope.

(** A [for] loop whose body can raise. *)
Fixpoint for_each {A S : Type} (xs : list A) (body : S -> A -> option S) (st : S)
  : option S :=
  match xs with
  | [] => Some st
  | x :: xs' => st' <- body st x ;; for_each xs' body st'
  end.

(** [a / b] on integers: the quotient, [ZeroDivisionError] when [b] is 0.
    Python rounds the quotient to a double; the code only compares it with
    5, 6, 15 and 25, and the rounded quotient is on the same side of these
    as the exact one for every denominator below 2^49. *)
Definition div (a b : Z) : option Q :=
  if (b =? 0)%Z then None else Some (a # Z.to_pos b).

(** [x > y] on numbers. *)
Definition gt (x y : Q) : bool := negb (Qle_bool x y).

(** [xs[i]]: [IndexError] out of range. *)
Definition index {A : Type} (xs : list A) (i : nat) : option A := nth_error xs i.

(** A [dict] with string keys, in insertion order. *)
Definition dict (V : Type) : Type := list (text * V).

Definition keys {V : Type} (d : dict V) : list text := map fst d.

(** [d.get(k)], and [d[k]] with [None] read as [KeyError]. *)
Fixpoint get {V : Type} (d : dict V) (k : text) : option V :=
  match d with
  | [] => None
  | (k', v) :: d' => if PyStr.text_eqb k k' then Some v else get d' k
  end.

(** [k in d] *)
Definition has_key {V : Type} (d : dict V) (k : text) : bool :=
  match get d k with Some _ => true | None => false end.

(** [d[k] = v] *)
Fixpoint set {V : Type} (d : dict V) (k : text) (v : V) : dict V :=
  match d with
  | [] => [(k, v)]
  | (k', v') :: d' =>
      if PyStr.text_eqb k k' then (k', v) :: d' else (k', v') :: set d' k v
  end.

(** [d[k] += n] *)
Definition add_to (d : dict Z) (k : text) (n : Z) : option (dict Z) :=
  v <- get d k ;; Some (set d k (v + n)%Z).

(** The loop of [max(items, key=key)]: a later item replaces the current
    one only when its key is strictly greater. *)
Fixpoint max_loop (key : text -> option Z) (maxitem : text) (maxval : Z)
  (items : list text) : option text :=
  match items with
  | [] => Some maxitem
  | item :: rest =>
      val <- key item ;;
      if (maxval <? val)%Z then max_loop key item val rest
      else max_loop key maxitem maxval rest
  end.

(** [max(items, key=key)]: [ValueError] on an empty iterable. *)
Definition max_by (key : text -> option Z) (items : list text) : option text :=
  match items with
  | [] => None
  | first :: rest => v <- key first ;; max_loop key first v rest
  end.

Definition nonempty {A : Type} (xs : list A) : bool :=
  match xs with [] => false | _ => true end.

End Py.

(** ** [DocumentAnalyzer] *)

Module DocumentAnalyzer.
Import Py.
Local Open Scope py_scope.

Definition DIFFICULTY_INDICATORS : dict (list text) :=
  [ (str "beginner",
      map str ["simple"; "basic"; "introduction"; "beginner"; "overview";
               "fundamentals"]%string);
    (str "intermediate",
      map str ["analysis"; "explores"; "examines"; "discusses";
               "considers"]%string);
    (str "advanced",
      map str ["comprehensive"; "complex"; "sophisticated"; "advanced";
               "technical"; "in-depth"; "theoretical"; "methodology";
               "paradigm"]%string) ].

Definition sum_len (words : list text) : nat :=
  fold_left (fun acc word => acc + length word) words 0.

(** [sum(len(word) for word in words) / len(words) if words else 0] *)
Definition avg_word_length (words : list text) : option Q :=
  if nonempty words
  then div (Z.of_nat (sum_len words)) (Z.of_nat (length words))
  else Some 0%Q.

(** [len(words) / len(sentences) if sentences else 0] *)
Definition avg_sentence_length (words sentences : list text) : option Q :=
  if nonempty sentences
  then div (Z.of_nat (length words)) (Z.of_nat (length sentences))
  else Some 0%Q.

(** The indicator counting loops. *)
Definition count_indicators (text_lower : text) (scores : dict Z)
  : option (dict Z) :=
  for_each DIFFICULTY_INDICATORS
    (fun scores '(level, indicators) =>
       for_each indicators
         (fun scores indicator =>
            add_to scores level (Z.of_nat (PyStr.count text_lower indicator)))
         scores)
    scores.

Definition assess_difficulty (txt : text) : option text :=
  let text_lower := PyStr.lower txt in
  let scores := map (fun level => (level, 0%Z)) (keys DIFFICULTY_INDICATORS) in
  scores <- count_indicators text_lower scores ;;
  let words := PyStr.split_ws txt in
  avg_word <- avg_word_length words ;;
  let sentences := PyStr.split_on "."%char txt in
  avg_sentence <- avg_sentence_length words sentences ;;
  scores <-
    (if gt avg_word 6 || gt avg_sentence 25
     then add_to scores (str "advanced") 3
     else if gt avg_word 5 || gt avg_sentence 15
     then add_to scores (str "intermediate") 2
     else add_to scores (str "beginner") 2) ;;
  max_by (get scores) (keys scores).

End DocumentAnalyzer.

(** ** [CriticalAnalyzer] *)

Module CriticalAnalyzer.
Import Py Re.
Local Open Scope py_scope.

(** [(?!\s+\()]: not followed by an opening parenthesis after whitespace. *)
Definition no_paren_ahead : regex := NotAhead (Seq spaces (ch "(")).

(** The patterns of unsupported claims, used under [re.IGNORECASE]. *)
Definition CLAIM_PATTERNS : list regex :=
  [ seqs [liti "will"; spaces;
          alts [liti "definitely"; liti "certainly"; liti "surely"];
          spaces; word];
    seqs [alts [liti "always"; liti "never"; liti "all"; liti "every";
                liti "none"];
          spaces; word];
    seqs [liti "studies show"; no_paren_ahead];
    seqs [liti "expert"; opt (chi "s"); chi " ";
          alts [liti "say"; liti "believe"; liti "think"]; no_paren_ahead];
    seqs [liti "it is "; alts [liti "proven"; liti "obvious"; liti "clear"];
          liti " that"];
    seqs [digits; ch "%"; no_paren_ahead];
    liti "everyone knows that";
    seqs [liti "clearly"; spaces; word];
    seqs [liti "without "; opt (liti "a "); liti "doubt"] ].

(** The fallacy patterns by name, in the order of the dictionary, used
    under [re.IGNORECASE]. *)
Definition FALLACY_PATTERNS : dict regex :=
  [ (str "Appeal to Authority",
      seqs [alts [liti "famous"; liti "renowned"; liti "expert"]; spaces;
            word; spaces; alts [liti "says"; liti "believes"]]);
    (str "False Dichotomy",
      seqs [alts [liti "either"; liti "only two"]; spaces;
            alts [Seq (liti "option") (opt (chi "s"));
                  Seq (liti "choice") (opt (chi "s"));
                  Seq (liti "way") (opt (chi "s"))]]);
    (str "Slippery Slope",
      seqs [liti "if"; spaces; word; dot_star; liti "then"; spaces; word;
            dot_star; liti "and"; spaces; liti "then"]);
    (str "Correlation vs Causation",
      seqs [liti "because"; spaces; word; dot_star; liti "therefore"]);
    (str "Hasty Generalization",
      seqs [alts [liti "all"; liti "every"; liti "always"]; spaces; word;
            spaces; alts [liti "are"; liti "do"; liti "have"]]) ].

(** [\(\d{4}\)|\[\d+\]] *)
Definition year_or_reference : regex :=
  Alt (seqs [ch "("; times 4 (Chr PyStr.is_digit); ch ")"])
      (seqs [ch "["; digits; ch "]"]).

(** [\(\d{4}\)|\[\d+\]|et al\.] *)
Definition citation : regex :=
  alts [seqs [ch "("; times 4 (Chr PyStr.is_digit); ch ")"];
        seqs [ch "["; digits; ch "]"];
        lit "et al."].

(** [many|some|few|several], used under [re.IGNORECASE]. *)
Definition vague_quantifier : regex :=
  alts [liti "many"; liti "some"; liti "few"; liti "several"].

(** *** [identify_unsupported_claims] *)

(** [sentence[:150] + '...' if len(sentence) > 150 else sentence] *)
Definition claim_of (sentence : text) : text :=
  if 150 <? length sentence then firstn 150 sentence ++ str "..." else sentence.

(** The loop over the patterns, left by [break] at the first match. *)
Fixpoint scan_patterns (patterns : list regex) (sentence : text)
  (claims : list text) : list text :=
  match patterns with
  | [] => claims
  | pattern :: rest =>
      if found pattern sentence
      then claims ++ [claim_of sentence]
      else scan_patterns rest sentence claims
  end.

(** The loop over the sentences. *)
Definition scan_sentences (sentences : list text) (claims : list text)
  : list text :=
  fold_left
    (fun claims sentence =>
       let sentence := PyStr.strip sentence in
       if length sentence <? 20 then claims
       else scan_patterns CLAIM_PATTERNS sentence claims)
    sentences claims.

Definition identify_unsupported_claims (txt : text) : list text :=
  let sentences := PyStr.split_on "."%char txt in
  let claims := scan_sentences sentences [] in
  firstn 5 claims.

(** *** [identify_logical_gaps] *)

Definition no_citations_msg : text :=
  str "Research mentioned but no citations provided".

Definition vague_msg : text :=
  str "Vague quantifiers used without specific data".

(** The finding of one match, given as (start, end). *)
Definition fallacy_finding (txt fallacy_name : text) (m : nat * nat) : text :=
  let context_start := Z.to_nat (Z.max 0 (Z.of_nat (fst m) - 50)) in
  let context_end := Nat.min (length txt) (snd m + 100) in
  let context := PyStr.strip (PyStr.slice context_start context_end txt) in
  str "Possible " ++ fallacy_name ++ str ": '" ++ context ++ str "...'".

(** The loop over the fallacy patterns, at most two matches of each. *)
Definition scan_fallacies (txt : text) (gaps : list text) : list text :=
  fold_left
    (fun gaps '(fallacy_name, pattern) =>
       fold_left
         (fun gaps m => gaps ++ [fallacy_finding txt fallacy_name m])
         (firstn 2 (finditer pattern txt))
         gaps)
    FALLACY_PATTERNS gaps.

(** The list [gaps] as it stands before the final [gaps[:5]]. *)
Definition collect_gaps (txt : text) : list text :=
  let gaps := scan_fallacies txt [] in
  let gaps :=
    if PyStr.contains (str "research") (PyStr.lower txt)
       || PyStr.contains (str "study") (PyStr.lower txt)
    then if negb (found year_or_reference txt)
         then gaps ++ [no_citations_msg]
         else gaps
    else gaps in
  let gaps :=
    if found vague_quantifier txt then gaps ++ [vague_msg] else gaps in
  gaps.

Definition identify_logical_gaps (txt : text) : list text :=
  firstn 5 (collect_gaps txt).

(** *** [generate_critical_summary] *)

Definition scrutiny_msg : text :=
  str "This article presents several claims that warrant scrutiny.".
Definition well_reasoned_msg : text :=
  str "This article appears well-reasoned with supported arguments.".
Definition claims_msg (n : nat) : text :=
  str "There are " ++ PyStr.of_nat n ++ str " potentially unsupported claims "
  ++ str "that would benefit from additional evidence or citations.".
Definition gaps_msg (n : nat) : text :=
  str "The analysis identified " ++ PyStr.of_nat n
  ++ str " potential logical issues "
  ++ str "or areas requiring more rigorous argumentation.".
Definition balance_msg : text :=
  str "The article may lack counterarguments or alternative perspectives.".
Definition no_academic_msg : text :=
  str "No academic citations were detected in the text.".
Definition limited_msg : text :=
  str "The article contains limited citations.".

(** The list [parts] as it stands before the final join. *)
Definition summary_parts (txt : text) (unsupported_claims logical_gaps : list text)
  : list text :=
  let parts := [] in
  let parts :=
    if nonempty unsupported_claims || nonempty logical_gaps
    then parts ++ [scrutiny_msg]
    else parts ++ [well_reasoned_msg] in
  let parts :=
    if nonempty unsupported_claims
    then parts ++ [claims_msg (length unsupported_claims)]
    else parts in
  let parts :=
    if nonempty logical_gaps
    then parts ++ [gaps_msg (length logical_gaps)]
    else parts in
  let parts :=
    if negb (PyStr.contains (str "however") (PyStr.lower txt))
       && negb (PyStr.contains (str "although") (PyStr.lower txt))
    then parts ++ [balance_msg]
    else parts in
  let citation_count := findall_count citation txt in
  let parts :=
    if citation_count =? 0 then parts ++ [no_academic_msg]
    else if citation_count <? 3 then parts ++ [limited_msg]
    else parts in
  parts.

Definition generate_critical_summary (txt : text)
  (unsupported_claims logical_gaps : list text) : text :=
  PyStr.join (str " ") (summary_parts txt unsupported_claims logical_gaps).

(** *** [generate_follow_up_questions] *)

Definition generic_questions : list text :=
  map str
    [ "What counterarguments or alternative viewpoints exist?";
      "What are the practical implications of implementing these ideas?";
      "What might critics of this perspective say?";
      "What further research would strengthen these conclusions?" ]%string.

(** [[s.strip() for s in text.split('.') if len(s.strip()) > 30]] *)
Definition key_sentences (txt : text) : list text :=
  map PyStr.strip
    (filter (fun s => 30 <? length (PyStr.strip s))
            (PyStr.split_on "."%char txt)).

Definition generate_follow_up_questions (txt : text) (topics : list text)
  : option (list text) :=
  let questions := [] in
  let sentences := key_sentences txt in
  questions <-
    (if nonempty sentences
     then main_claim <- index sentences 0 ;;
          Some (questions
                ++ [str "What evidence supports the assertion that "
                    ++ PyStr.lower main_claim ++ str "?"])
     else Some questions) ;;
  questions <-
    (if nonempty topics
     then topic0 <- index topics 0 ;;
          let questions :=
            questions
            ++ [str "How does this relate to broader issues in "
                ++ PyStr.lower topic0 ++ str "?"] in
          if 1 <? length topics
          then topic0 <- index topics 0 ;;
               topic1 <- index topics 1 ;;
               Some (questions
                     ++ [str "What is the connection between " ++ topic0
                         ++ str " and " ++ topic1 ++ str " in this context?"])
          else Some questions
     else Some questions) ;;
  let questions := questions ++ generic_questions in
  Some (firstn 5 questions).

(** *** [suggest_related_topics] and [analyze] *)

Definition topic_map : dict (list text) :=
  [ (str "Technology",
      map str ["Artificial Intelligence"; "Cybersecurity";
               "Digital Privacy"]%string);
    (str "Science",
      map str ["Research Methodology"; "Scientific Ethics";
               "Peer Review"]%string);
    (str "Healthcare",
      map str ["Medical Ethics"; "Public Health Policy";
               "Healthcare Economics"]%string);
    (str "Politics",
      map str ["Political Philosophy"; "Governance";
               "Policy Analysis"]%string);
    (str "Economics",
      map str ["Behavioral Economics"; "Market Theory";
               "Economic Policy"]%string);
    (str "Environment",
      map str ["Climate Science"; "Sustainability";
               "Environmental Policy"]%string);
    (str "Education",
      map str ["Pedagogy"; "Educational Technology";
               "Learning Theory"]%string) ].

Definition keyword_topics : dict text :=
  [ (str "ai", str "Machine Learning Applications");
    (str "data", str "Data Science and Analytics");
    (str "climate", str "Climate Change");
    (str "policy", str "Public Policy");
    (str "market", str "Market Economics");
    (str "social", str "Social Impact");
    (str "research", str "Research Methodology") ].

Record report : Type := Report {
  unsupported_claims : list text;
  logical_gaps : list text;
  critical_summary : text;
  follow_up_questions : list text;
  related_topics : list text
}.

Section SetOrder.

(** [list(set(xs))]: the elements of [xs] once each, in the order in which
    the interpreter's hash table holds them.  The order depends on the
    hash seed of the process, so it is a parameter; what the theorems
    assume of it is stated where they use it. *)
Variable set_to_list : list text -> list text.

Definition suggest_related_topics (txt : text) (current_topics : list text)
  : option (list text) :=
  related <-
    for_each current_topics
      (fun related topic =>
         if has_key topic_map topic
         then entries <- get topic_map topic ;; Some (related ++ entries)
         else Some related)
      [] ;;
  let words := PyStr.split_ws (PyStr.lower txt) in
  let related :=
    fold_left
      (fun related '(keyword, topic_name) =>
         if PyStr.mem keyword words && negb (PyStr.mem topic_name related)
         then related ++ [topic_name]
         else related)
      keyword_topics related in
  Some (firstn 5 (set_to_list related)).

Definition analyze (txt : text) (topics : list text) : option report :=
  let claims := identify_unsupported_claims txt in
  let gaps := identify_logical_gaps txt in
  let summary := generate_critical_summary txt claims gaps in
  questions <- generate_follow_up_questions txt topics ;;
  related <- suggest_related_topics txt topics ;;
  Some (Report claims gaps summary questions related).

End SetOrder.

End CriticalAnalyzer.

(** ** Slices with a signed bound *)

Module PySeq.

(** [xs[:k]] for an integer [k]: a negative [k] counts from the end. *)
Definition slice_to {A : Type} (xs : list A) (k : Z) : list A :=
  if (0 <=? k)%Z then firstn (Z.to_nat k) xs
  else firstn (Z.to_nat (Z.of_nat (length xs) + k)) xs.

End PySeq.

(** ** [src/utils/text_processing.py] *)

Module TextProcessing.

(** [' '.join(text.split())], the whitespace normalisation that
    [clean_text], [PDFParser.parse] and [URLScraper.scrape] share. *)
Definition normalize_ws (txt : text) : text :=
  PyStr.join (str " ") (PyStr.split_ws txt).

(** What [re.sub] leaves in place: the characters of [\w] and [\s], the
    marks . , ! ? ; : - ( ), the apostrophe (39) and the double quote (34). *)
Definition kept_char (c : ascii) : bool :=
  PyStr.is_word c || PyStr.is_space c
  || existsb (N.eqb (PyStr.code c)) [46; 44; 33; 63; 59; 58; 45; 39; 34; 40; 41]%N.

(** [re.sub] with the negated class and an empty replacement deletes every
    character outside the class. *)
Definition clean_text (txt : text) : text :=
  let txt := normalize_ws txt in
  let txt := filter kept_char txt in
  PyStr.strip txt.

Definition truncate_text (txt : text) (max_length : Z) (suffix : text) : text :=
  if (Z.of_nat (length txt) <=? max_length)%Z then txt
  else PySeq.slice_to txt (max_length - Z.of_nat (length suffix)) ++ suffix.

(** The class [[.!?]]. *)
Definition sentence_end (c : ascii) : bool :=
  existsb (N.eqb (PyStr.code c)) [46; 33; 63]%N.

(** [re.split] on the runs of characters of a class: the pieces between the
    maximal runs; [in_run] tells that the character before was of the class. *)
Fixpoint split_runs_from (delim : ascii -> bool) (in_run : bool) (s : text)
  : list text :=
  match s with
  | [] => [[]]
  | c :: s' =>
      if delim c
      then if in_run then split_runs_from delim true s'
           else [] :: split_runs_from delim true s'
      else match split_runs_from delim false s' with
           | cur :: rest => (c :: cur) :: rest
           | [] => [[c]]
           end
  end.

Definition split_runs (delim : ascii -> bool) (s : text) : list text :=
  split_runs_from delim false s.

(** [max_sentences] is [None] by default; [if max_sentences:] also takes
    0 for absent. *)
Definition extract_sentences (txt : text) (max_sentences : option Z) : list text :=
  let sentences := split_runs sentence_end txt in
  let sentences :=
    map PyStr.strip
        (filter (fun s => Py.nonempty (PyStr.strip s)) sentences) in
  match max_sentences with
  | Some n => if (n =? 0)%Z then sentences else PySeq.slice_to sentences n
  | None => sentences
  end.

Definition count_words (txt : text) : nat := length (PyStr.split_ws txt).

End TextProcessing.

(** ** The model calls of [DocumentAnalyzer] *)

Module DocumentAnalyzerML.
Import Py.
Local Open Scope py_scope.

Record analysis (score : Type) : Type := Analysis {
  summary : text;
  topics : list text;
  sentiment : text * score;
  difficulty : text
}.
Arguments Analysis {score}.
Arguments summary {score}.
Arguments topics {score}.
Arguments sentiment {score}.
Arguments difficulty {score}.

Section Models.

(** The confidence of the sentiment model is a float; it is passed on as it
    is, and [half] stands for the constant 0.5. *)
Variable score : Type.
Variable half : score.

(** [settings.max_text_length] *)
Variable max_text_length : Z.

(** The three pipelines of [model_manager], each with the indexing done on
    its result inside the same [try]: [None] stands for any exception. *)
Variable summarizer : text -> option text.
Variable classifier : text -> option (list text).
Variable sentiment_model : text -> option (text * score).

Definition summarize (txt : text) : text :=
  let txt :=
    if (max_text_length <? Z.of_nat (length txt))%Z
    then PySeq.slice_to txt max_text_length
    else txt in
  match summarizer txt with
  | Some summary_text => summary_text
  | None =>
      let sentences := PySeq.slice_to (PyStr.split_on "."%char txt) 3 in
      PyStr.join (str ".") sentences ++ str "."
  end.

Definition classify_topics (txt : text) (top_k : Z) : list text :=
  let text_sample := PySeq.slice_to txt 1000 in
  match classifier text_sample with
  | Some labels => PySeq.slice_to labels top_k
  | None => [str "General"]
  end.

Definition analyze_sentiment (txt : text) : text * score :=
  let text_sample := PySeq.slice_to txt 2000 in
  match sentiment_model text_sample with
  | Some (label, confidence) => (PyStr.lower label, confidence)
  | None => (str "neutral", half)
  end.

Definition analyze (txt : text) : option (analysis score) :=
  let summary := summarize txt in
  let topics := classify_topics txt 3 in
  let sentiment := analyze_sentiment txt in
  difficulty <- DocumentAnalyzer.assess_difficulty txt ;;
  Some (Analysis summary topics sentiment difficulty).

End Models.

End DocumentAnalyzerML.

(** ** [PDFParser] *)

Module PDFParser.

(** What [pypdf] hands over: for each page the result of [extract_text()],
    [None] when it raises; and the metadata, [None] when there is none. *)
Record reader : Type := Reader {
  pages : list (option text);
  metadata : option (Py.dict text)
}.

Record document : Type := Document {
  title : text;
  full_text : text;
  authors : text;
  page_count : nat;
  source : text
}.

(** The loop over the pages: the texts that were extracted and are not
    empty. *)
Definition text_parts (r : reader) : list text :=
  fold_left
    (fun parts page =>
       match page with
       | Some t => if Py.nonempty t then parts ++ [t] else parts
       | None => parts
       end)
    (pages r) [].

(** [metadata.get(key, default) if metadata else default] *)
Definition metadata_get (r : reader) (key default : text) : text :=
  match metadata r with
  | Some d =>
      if Py.nonempty d
      then match Py.get d key with Some v => v | None => default end
      else default
  | None => default
  end.

(** [parse], with [opened] the outcome of [PdfReader(...)]: the reader, or
    the message of the exception it raised.  The result is the document, or
    the message of the [ValueError] raised. *)
Definition parse (opened : text + reader) (filename : text) : text + document :=
  let failed (message : text) : text + document :=
    inl (str "Failed to parse PDF: " ++ message) in
  match opened with
  | inl message => failed message
  | inr r =>
      if length (pages r) =? 0 then failed (str "PDF has no pages")
      else
        let title := metadata_get r (str "/Title") filename in
        let parts := text_parts r in
        let txt := PyStr.join [ascii_of_nat 10] parts in
        let txt := TextProcessing.normalize_ws txt in
        if length txt <? 100
        then failed (str "Insufficient text content extracted from PDF")
        else inr (Document title txt
                    (metadata_get r (str "/Author") (str "Unknown"))
                    (length (pages r)) filename)
  end.

End PDFParser.

(** ** [ModelManager] *)

Module ModelManager.
Import Py.
Local Open Scope py_scope.

(** The three lazily loaded properties. *)
Inductive property : Type := Summarizer | Classifier | Sentiment.

Section Loader.

(** A loaded pipeline, and [pipeline(task, model=..., device=...)] for each
    property with the model name of the settings: [None] when loading
    raises. *)
Variable Pipeline : Type.
Variable pipeline : property -> option Pipeline.

Record manager : Type := Manager {
  _summarizer : option Pipeline;
  _classifier : option Pipeline;
  _sentiment : option Pipeline
}.

(** [ModelManager()] *)
Definition init : manager := Manager None None None.

Definition slot (which : property) (m : manager) : option Pipeline :=
  match which with
  | Summarizer => _summarizer m
  | Classifier => _classifier m
  | Sentiment => _sentiment m
  end.

Definition store (which : property) (p : Pipeline) (m : manager) : manager :=
  match which with
  | Summarizer => Manager (Some p) (_classifier m) (_sentiment m)
  | Classifier => Manager (_summarizer m) (Some p) (_sentiment m)
  | Sentiment => Manager (_summarizer m) (_classifier m) (Some p)
  end.

(** Reading a property: the pipeline is loaded and kept when the slot is
    [None], and the slot is returned. *)
Definition access (which : property) (m : manager) : option (manager * Pipeline) :=
  match slot which m with
  | None => p <- pipeline which ;; Some (store which p m, p)
  | Some p => Some (m, p)
  end.

(** [x is not None] *)
Definition is_not_none {A : Type} (x : option A) : bool :=
  match x with Some _ => true | None => false end.

Definition is_ready (m : manager) : bool :=
  forallb (fun loaded : bool => loaded)
    [ is_not_none (_summarizer m);
      is_not_none (_classifier m);
      is_not_none (_sentiment m) ].

(** A sequence of reads, stopped by the first load that raises. *)
Fixpoint run (reads : list property) (m : manager) : option manager :=
  match reads with
  | [] => Some m
  | which :: rest => r <- access which m ;; run rest (fst r)
  end.

End Loader.

End ModelManager.

(** ** The properties, in the vocabulary of the specification *)

Module Spec.
Import Py.

(** The three levels in their declared order. *)
Definition beginner : text := str "beginner".
Definition intermediate : text := str "intermediate".
Definition advanced : text := str "advanced".
Definition LEVELS : list text := [beginner; intermediate; advanced].

(** [l] comes before [r] in the declared order. *)
Definition earlier (l r : text) : Prop :=
  exists pre post, LEVELS = pre ++ r :: post /\ In l pre.

(** Occurrences, in the lowercased text, of the indicator words of [level]. *)
Definition indicator_tally (level txt : text) : Z :=
  match get DocumentAnalyzer.DIFFICULTY_INDICATORS level with
  | Some indicators =>
      fold_right
        (fun indicator acc =>
           (Z.of_nat (PyStr.count (PyStr.lower txt) indicator) + acc)%Z)
        0%Z indicators
  | None => 0%Z
  end.

(** Mean length of the whitespace-separated tokens, 0 when there is none. *)
Definition mean_word_length (txt : text) : Q :=
  match PyStr.split_ws txt with
  | [] => 0
  | words => Z.of_nat (list_sum (map (@length ascii) words))
             # Pos.of_nat (length words)
  end.

(** Tokens per segment between dots, 0 when there is no segment. *)
Definition mean_sentence_length (txt : text) : Q :=
  match PyStr.split_on "."%char txt with
  | [] => 0
  | sentences => Z.of_nat (length (PyStr.split_ws txt))
                 # Pos.of_nat (length sentences)
  end.

(** The final tally of [level] when [bonus] went to [bonus_level]. *)
Definition final_tally (txt bonus_level : text) (bonus : Z) (level : text) : Z :=
  (indicator_tally level txt
   + if PyStr.text_eqb level bonus_level then bonus else 0)%Z.

(** *** What a pattern matches *)

(** [matches r s rest]: [r] matches a prefix of [s] that leaves [rest]. *)
Fixpoint matches (r : Re.regex) (s rest : text) : Prop :=
  match r with
  | Re.Eps => rest = s
  | Re.Chr p => exists c, p c = true /\ s = c :: rest
  | Re.Seq r1 r2 => exists mid, matches r1 s mid /\ matches r2 mid rest
  | Re.Alt r1 r2 => matches r1 s rest \/ matches r2 s rest
  | Re.Star p => exists cs, Forall (fun c => p c = true) cs /\ s = cs ++ rest
  | Re.NotAhead r1 => rest = s /\ ~ exists x, matches r1 s x
  end.

(** [m], given as (start, end), is a match of [r] in [txt]. *)
Definition match_at (r : Re.regex) (txt : text) (m : nat * nat) : Prop :=
  fst m <= snd m /\ snd m <= length txt
  /\ matches r (skipn (fst m) txt) (skipn (snd m) txt).

(** Every match of [r] takes at least one character. *)
Fixpoint consumes (r : Re.regex) : bool :=
  match r with
  | Re.Chr _ => true
  | Re.Seq r1 r2 => consumes r1 || consumes r2
  | Re.Alt r1 r2 => consumes r1 && consumes r2
  | Re.Eps | Re.Star _ | Re.NotAhead _ => false
  end.

(** [r] matches somewhere in [txt]. *)
Definition matches_in (r : Re.regex) (txt : text) : Prop :=
  exists pre suf rest, txt = pre ++ suf /\ matches r suf rest.

(** *** The claim detector *)

(** The sentence-like units: the segments between dots, trimmed. *)
Definition units (txt : text) : list text :=
  map PyStr.strip (PyStr.split_on "."%char txt).

(** Some claim pattern is found in [s]. *)
Definition flagged (s : text) : bool :=
  existsb (fun pattern => Re.found pattern s) CriticalAnalyzer.CLAIM_PATTERNS.

(** [s] cut to 150 characters, with an ellipsis when something was cut. *)
Definition snippet (s : text) : text :=
  if length s <=? 150 then s else firstn 150 s ++ str "...".

(** What one unit contributes: nothing when shorter than 20 characters or
    when no pattern is found, else its snippet, once. *)
Definition sentence_claims (s : text) : list text :=
  if (20 <=? length s) && flagged s then [snippet s] else [].

(** *** The fallacy and gap detector *)

(** From 50 characters before the start of the match [m] through 100
    characters after its end, within the text. *)
Definition window (txt : text) (m : nat * nat) : text :=
  PyStr.slice (fst m - 50) (Nat.min (length txt) (snd m + 100)) txt.

Definition finding_of (name context : text) : text :=
  str "Possible " ++ name ++ str ": '" ++ context ++ str "...'".

(** The fallacy findings in the declared order of the names, at most the
    first two matches of each, with [context] giving the quoted text. *)
Definition fallacy_findings (context : text -> nat * nat -> text) (txt : text)
  : list text :=
  flat_map
    (fun entry : text * Re.regex =>
       map (fun m => finding_of (fst entry) (context txt m))
           (firstn 2 (Re.finditer (snd entry) txt)))
    CriticalAnalyzer.FALLACY_PATTERNS.

Definition mentions_research_b (txt : text) : bool :=
  PyStr.contains (str "research") (PyStr.lower txt)
  || PyStr.contains (str "study") (PyStr.lower txt).

Definition structural_findings (txt : text) : list text :=
  (if mentions_research_b txt
      && negb (Re.found CriticalAnalyzer.year_or_reference txt)
   then [CriticalAnalyzer.no_citations_msg] else [])
  ++ (if Re.found CriticalAnalyzer.vague_quantifier txt
      then [CriticalAnalyzer.vague_msg] else []).

(** [x] occurs in [s]. *)
Definition occurs_in (x s : text) : Prop :=
  exists pre post, s = pre ++ x ++ post.

(** [word] occurs in [txt], whatever the case of the letters. *)
Definition mentions (word txt : text) : Prop :=
  exists pre mid post, txt = pre ++ mid ++ post /\ PyStr.lower mid = word.

Definition mentions_research (txt : text) : Prop :=
  mentions (str "research") txt \/ mentions (str "study") txt.

Definition all_digits (ds : text) : Prop :=
  Forall (fun c => PyStr.is_digit c = true) ds.

(** A year in parentheses, four digits, or a number in brackets occurs in
    [txt]. *)
Definition has_citation (txt : text) : Prop :=
  exists pre ds post,
    all_digits ds
    /\ ((length ds = 4 /\ txt = pre ++ str "(" ++ ds ++ str ")" ++ post)
        \/ (ds <> [] /\ txt = pre ++ str "[" ++ ds ++ str "]" ++ post)).

(** The result as the claim words it: the context is the window itself. *)
Definition gaps_as_claimed (txt : text) : list text :=
  firstn 5 (fallacy_findings window txt ++ structural_findings txt).

(** The result with the window trimmed of surrounding whitespace. *)
Definition gaps_trimmed (txt : text) : list text :=
  firstn 5 (fallacy_findings (fun t m => PyStr.strip (window t m)) txt
            ++ structural_findings txt).

(** *** The narrative synthesizer *)

(** The citation sentence for a count of citation-like occurrences. *)
Definition citation_sentences (count : nat) : list text :=
  match count with
  | 0 => [CriticalAnalyzer.no_academic_msg]
  | 1 | 2 => [CriticalAnalyzer.limited_msg]
  | _ => []
  end.

(** The sentences that come before the citation sentence. *)
Definition summary_body (txt : text) (claims gaps : list text) : list text :=
  [if nonempty claims || nonempty gaps
   then CriticalAnalyzer.scrutiny_msg
   else CriticalAnalyzer.well_reasoned_msg]
  ++ (if nonempty claims
      then [CriticalAnalyzer.claims_msg (length claims)] else [])
  ++ (if nonempty gaps
      then [CriticalAnalyzer.gaps_msg (length gaps)] else [])
  ++ (if negb (PyStr.contains (str "however") (PyStr.lower txt))
         && negb (PyStr.contains (str "although") (PyStr.lower txt))
      then [CriticalAnalyzer.balance_msg] else []).

(** A year in parentheses, a number in brackets or "et al." occurs in
    [txt]. *)
Definition cites (txt : text) : Prop :=
  has_citation txt \/ occurs_in (str "et al.") txt.

(** *** Follow-up questions and related topics *)

Definition claim_question (txt : text) : list text :=
  match CriticalAnalyzer.key_sentences txt with
  | main_claim :: _ =>
      [str "What evidence supports the assertion that "
       ++ PyStr.lower main_claim ++ str "?"]
  | [] => []
  end.

Definition topic_questions (topics : list text) : list text :=
  match topics with
  | [] => []
  | [topic0] =>
      [str "How does this relate to broader issues in "
       ++ PyStr.lower topic0 ++ str "?"]
  | topic0 :: topic1 :: _ =>
      [str "How does this relate to broader issues in "
       ++ PyStr.lower topic0 ++ str "?";
       str "What is the connection between " ++ topic0
       ++ str " and " ++ topic1 ++ str " in this context?"]
  end.

(** The entries of the lookup table for [topic], none when it is absent. *)
Definition topic_entries (topic : text) : list text :=
  match get CriticalAnalyzer.topic_map topic with
  | Some entries => entries
  | None => []
  end.

(** The keyword scan over the words of the lowercased text. *)
Definition keyword_scan (txt : text) (related : list text) : list text :=
  let words := PyStr.split_ws (PyStr.lower txt) in
  fold_left
    (fun related (entry : text * text) =>
       if PyStr.mem (fst entry) words && negb (PyStr.mem (snd entry) related)
       then related ++ [snd entry]
       else related)
    CriticalAnalyzer.keyword_topics related.

(** What is asked of the order in which [list(set(xs))] lists a set: each
    element of [xs] once. *)
Definition lists_each_once (set_to_list : list text -> list text) : Prop :=
  forall xs,
    NoDup (set_to_list xs) /\ (forall x, In x (set_to_list xs) <-> In x xs).

(** The order of first occurrence, one order that qualifies. *)
Definition first_occurrence_order : list text -> list text :=
  nodup (list_eq_dec ascii_dec).

End Spec.

(** ** Vocabulary for the properties of the text utilities *)

Module TextSpec.

(** A token: not empty and free of whitespace. *)
Definition is_token (w : text) : Prop :=
  w <> [] /\ Forall (fun c => PyStr.is_space c = false) w.

(** [s] does not begin with whitespace. *)
Definition starts_clean (s : text) : Prop :=
  match s with
  | [] => True
  | c :: _ => PyStr.is_space c = false
  end.

(** [s] neither begins nor ends with whitespace. *)
Definition trimmed (s : text) : Prop :=
  starts_clean s /\ starts_clean (rev s).

(** The only whitespace in [s] is the plain space. *)
Definition plain_spaces (s : text) : Prop :=
  Forall (fun c => PyStr.is_space c = true -> c = " "%char) s.

End TextSpec.

Module SentenceSpec.

(** The sentences of a list of pieces: the trimmed pieces that are not
    empty. *)
Definition sentences_of (pieces : list text) : list text :=
  map PyStr.strip (filter (fun s => Py.nonempty (PyStr.strip s)) pieces).

End SentenceSpec.

Module CriticSpec.

(** [finding] is a fallacy finding that names [fallacy_name]. *)
Definition names_fallacy (fallacy_name finding : text) : bool :=
  PyStr.starts_with (str "Possible " ++ fallacy_name ++ str ": '") finding.

(** Every character test of [r] gives the same answer on [f c] as on [c]. *)
Fixpoint respects (f : ascii -> ascii) (r : Re.regex) : Prop :=
  match r with
  | Re.Eps => True
  | Re.Chr p | Re.Star p => forall c, p (f c) = p c
  | Re.Seq r1 r2 | Re.Alt r1 r2 => respects f r1 /\ respects f r2
  | Re.NotAhead r1 => respects f r1
  end.

(** Where a related topic can come from: the table entry of one of the
    topics, or a keyword that is a word of the lowercased text. *)
Definition suggested_by (txt : text) (topics : list text) (x : text) : Prop :=
  (exists topic, In topic topics /\ In x (Spec.topic_entries topic))
  \/ (exists keyword,
        In (keyword, x) CriticalAnalyzer.keyword_topics
        /\ In keyword (PyStr.split_ws (PyStr.lower txt))).

End CriticSpec.

(** ** Lemmas on the Python primitives *)

Lemma text_eqb_eq (a b : text) : PyStr.text_eqb a b = true <-> a = b.
Proof.
  revert b; induction a as [|x a IH]; intros [|y b]; simpl; split;
    try congruence; try reflexivity.
  - intros H. apply andb_true_iff in H as [Hx Hab].
    apply Ascii.eqb_eq in Hx. apply IH in Hab. congruence.
  - intros H. injection H as -> ->.
    rewrite Ascii.eqb_refl. simpl. now apply IH.
Qed.

Lemma text_eqb_refl (a : text) : PyStr.text_eqb a a = true.
Proof. now apply text_eqb_eq. Qed.

Lemma gt_true (x y : Q) : Py.gt x y = true <-> (y < x)%Q.
Proof.
  unfold Py.gt. rewrite negb_true_iff. split.
  - intros H. apply Qnot_le_lt. intros Hle.
    apply Qle_bool_iff in Hle. congruence.
  - intros H. destruct (Qle_bool x y) eqn:E; [|reflexivity].
    apply Qle_bool_iff in E. exfalso. now apply (Qlt_not_le y x).
Qed.

Lemma gt_false (x y : Q) : Py.gt x y = false <-> ~ (y < x)%Q.
Proof.
  rewrite <- gt_true. destruct (Py.gt x y); split; congruence.
Qed.

Lemma fold_left_add_len (words : list text) (acc : nat) :
  fold_left (fun a (w : text) => a + length w) words acc
  = acc + list_sum (map (@length ascii) words).
Proof.
  revert acc; induction words as [|w ws IH]; intros acc; simpl.
  - lia.
  - rewrite IH. lia.
Qed.

Lemma sum_len_list_sum (words : list text) :
  DocumentAnalyzer.sum_len words = list_sum (map (@length ascii) words).
Proof. unfold DocumentAnalyzer.sum_len. now rewrite fold_left_add_len. Qed.

Lemma split_on_nonempty (sep : ascii) (s : text) : PyStr.split_on sep s <> [].
Proof.
  destruct s as [|c s]; simpl; [discriminate|].
  destruct (Ascii.eqb c sep); [discriminate|].
  destruct (PyStr.split_on sep s); discriminate.
Qed.

Lemma div_pos (a : Z) (n : nat) :
  n <> 0 -> Py.div a (Z.of_nat n) = Some (a # Pos.of_nat n).
Proof.
  intros Hn. unfold Py.div.
  destruct (Z.eqb_spec (Z.of_nat n) 0) as [E|_]; [lia|].
  do 2 f_equal. destruct n as [|n]; [congruence|].
  simpl. now rewrite Pos.of_nat_succ.
Qed.

(** ** The difficulty assessor *)

Lemma avg_word_length_eq (txt : text) :
  DocumentAnalyzer.avg_word_length (PyStr.split_ws txt)
  = Some (Spec.mean_word_length txt).
Proof.
  unfold DocumentAnalyzer.avg_word_length, Spec.mean_word_length.
  destruct (PyStr.split_ws txt) as [|w ws] eqn:E; [reflexivity|].
  cbn [Py.nonempty]. rewrite div_pos by (simpl; lia).
  now rewrite sum_len_list_sum.
Qed.

Lemma avg_sentence_length_eq (txt : text) :
  DocumentAnalyzer.avg_sentence_length
    (PyStr.split_ws txt) (PyStr.split_on "."%char txt)
  = Some (Spec.mean_sentence_length txt).
Proof.
  unfold DocumentAnalyzer.avg_sentence_length, Spec.mean_sentence_length.
  destruct (PyStr.split_on "."%char txt) as [|s ss] eqn:E; [reflexivity|].
  cbn [Py.nonempty]. now rewrite div_pos by (simpl; lia).
Qed.

Lemma count_indicators_eq (txt : text) :
  DocumentAnalyzer.count_indicators (PyStr.lower txt)
    (map (fun level => (level, 0%Z))
         (Py.keys DocumentAnalyzer.DIFFICULTY_INDICATORS))
  = Some [ (Spec.beginner, Spec.indicator_tally Spec.beginner txt);
           (Spec.intermediate, Spec.indicator_tally Spec.intermediate txt);
           (Spec.advanced, Spec.indicator_tally Spec.advanced txt) ].
Proof.
  cbv -[PyStr.count PyStr.lower Z.add Z.of_nat].
  repeat first [lia | f_equal].
Qed.

(** [max] over the three tallies: the first level holding the greatest one. *)
Lemma max_by_three (x y z : Z) :
  let scores := [(Spec.beginner, x); (Spec.intermediate, y); (Spec.advanced, z)] in
  Py.max_by (Py.get scores) (Py.keys scores)
  = Some (if (x <? y)%Z
          then if (y <? z)%Z then Spec.advanced else Spec.intermediate
          else if (x <? z)%Z then Spec.advanced else Spec.beginner).
Proof.
  cbv -[Z.ltb].
  destruct (x <? y)%Z, (y <? z)%Z, (x <? z)%Z; reflexivity.
Qed.

Lemma earlier_inv (l r : text) :
  Spec.earlier l r ->
  (l = Spec.beginner /\ r = Spec.intermediate)
  \/ (l = Spec.beginner /\ r = Spec.advanced)
  \/ (l = Spec.intermediate /\ r = Spec.advanced).
Proof.
  intros (pre & post & E & Hin). unfold Spec.LEVELS in E.
  destruct pre as [|a [|b [|c pre]]]; simpl in *.
  - contradiction.
  - injection E as <- <- _. destruct Hin as [<-|[]]. auto.
  - injection E as <- <- <- _.
    destruct Hin as [<-|[<-|[]]]; auto.
  - injection E as _ _ _ E. destruct pre; discriminate.
Qed.

(** Evaluates the comparisons of level names and splits on the comparisons
    of tallies. *)
Ltac eval_level_eqb :=
  repeat match goal with
  | |- context [PyStr.text_eqb ?a ?b] =>
      let v := eval vm_compute in (PyStr.text_eqb a b) in
      change (PyStr.text_eqb a b) with v
  end.

Ltac split_ltb :=
  repeat match goal with
  | |- context [(?a <? ?b)%Z] => destruct (Z.ltb_spec a b)
  end.

Ltac solve_tally Hl :=
  split_ltb;
  repeat (destruct Hl as [<-|Hl];
          [eval_level_eqb;
           repeat match goal with
             | E : ?v = Spec.indicator_tally _ _ |- _ => rewrite <- E
             end; lia|]);
  destruct Hl.


Ltac solve_earlier Hl :=
  split_ltb;
  apply earlier_inv in Hl;
  destruct Hl as [[-> E]|[[-> E]|[-> E]]];
  (try (exfalso; revert E; vm_compute; discriminate));
  eval_level_eqb;
  repeat match goal with
    | E : ?v = Spec.indicator_tally _ _ |- _ => rewrite <- E
    end;
  lia.

(** C1. The difficulty assessor adds one complexity bonus, chosen in priority
    order from the two averages (+3 to advanced when the mean word length
    exceeds 6 or the mean sentence length exceeds 25, else +2 to intermediate
    when they exceed 5 or 15, else +2 to beginner), and returns the level of
    greatest final tally, the earliest in the declared order among equals. *)
Theorem assess_difficulty_bonus_then_first_max (txt : text) :
  let w := Spec.mean_word_length txt in
  let s := Spec.mean_sentence_length txt in
  exists (bonus_level : text) (bonus : Z) (result : text),
    (((6 < w)%Q \/ (25 < s)%Q) ->
       bonus_level = Spec.advanced /\ bonus = 3%Z)
    /\ (~ ((6 < w)%Q \/ (25 < s)%Q) -> ((5 < w)%Q \/ (15 < s)%Q) ->
       bonus_level = Spec.intermediate /\ bonus = 2%Z)
    /\ (~ ((6 < w)%Q \/ (25 < s)%Q) -> ~ ((5 < w)%Q \/ (15 < s)%Q) ->
       bonus_level = Spec.beginner /\ bonus = 2%Z)
    /\ DocumentAnalyzer.assess_difficulty txt = Some result
    /\ In result Spec.LEVELS
    /\ (forall l, In l Spec.LEVELS ->
          (Spec.final_tally txt bonus_level bonus l
           <= Spec.final_tally txt bonus_level bonus result)%Z)
    /\ (forall l, Spec.earlier l result ->
          (Spec.final_tally txt bonus_level bonus l
           < Spec.final_tally txt bonus_level bonus result)%Z).
Proof.
  intros w s. unfold DocumentAnalyzer.assess_difficulty.
  rewrite count_indicators_eq. cbn [Py.bind].
  rewrite avg_word_length_eq, avg_sentence_length_eq. cbn [Py.bind].
  fold w s.
  assert (Hfin : forall bl b l,
    Spec.final_tally txt bl b l
      = (Spec.indicator_tally l txt
         + if PyStr.text_eqb l bl then b else 0)%Z) by reflexivity.
  remember (Spec.indicator_tally Spec.beginner txt) as x eqn:Hx.
  remember (Spec.indicator_tally Spec.intermediate txt) as y eqn:Hy.
  remember (Spec.indicator_tally Spec.advanced txt) as z eqn:Hz.
  destruct (Py.gt w 6 || Py.gt s 25) eqn:Hhi;
    [|destruct (Py.gt w 5 || Py.gt s 15) eqn:Hmid].
  - (* +3 to advanced *)
    assert (Hc : (6 < w)%Q \/ (25 < s)%Q)
      by (apply orb_true_iff in Hhi as [H|H]; apply gt_true in H; auto).
    change (Py.add_to _ (str "advanced") 3)
      with (Some [(Spec.beginner, x); (Spec.intermediate, y);
                  (Spec.advanced, (z + 3)%Z)]).
    cbn [Py.bind]. rewrite max_by_three.
    exists Spec.advanced, 3%Z. eexists.
    repeat split; try tauto; try reflexivity.
    + destruct (x <? y)%Z, (y <? (z + 3))%Z, (x <? (z + 3))%Z; simpl; auto.
    + intros l Hl. rewrite !Hfin. solve_tally Hl.
    + intros l Hl. rewrite !Hfin. solve_earlier Hl.
  - (* +2 to intermediate *)
    assert (Hc : ~ ((6 < w)%Q \/ (25 < s)%Q)).
    { apply orb_false_iff in Hhi as [H1 H2].
      apply gt_false in H1, H2. tauto. }
    assert (Hd : (5 < w)%Q \/ (15 < s)%Q)
      by (apply orb_true_iff in Hmid as [H|H]; apply gt_true in H; auto).
    change (Py.add_to _ (str "intermediate") 2)
      with (Some [(Spec.beginner, x); (Spec.intermediate, (y + 2)%Z);
                  (Spec.advanced, z)]).
    cbn [Py.bind]. rewrite max_by_three.
    exists Spec.intermediate, 2%Z. eexists.
    repeat split; try tauto; try reflexivity.
    + destruct (x <? y + 2)%Z, (y + 2 <? z)%Z, (x <? z)%Z; simpl; auto.
    + intros l Hl. rewrite !Hfin. solve_tally Hl.
    + intros l Hl. rewrite !Hfin. solve_earlier Hl.
  - (* +2 to beginner *)
    assert (Hc : ~ ((6 < w)%Q \/ (25 < s)%Q)).
    { apply orb_false_iff in Hhi as [H1 H2].
      apply gt_false in H1, H2. tauto. }
    assert (Hd : ~ ((5 < w)%Q \/ (15 < s)%Q)).
    { apply orb_false_iff in Hmid as [H1 H2].
      apply gt_false in H1, H2. tauto. }
    change (Py.add_to _ (str "beginner") 2)
      with (Some [(Spec.beginner, (x + 2)%Z); (Spec.intermediate, y);
                  (Spec.advanced, z)]).
    cbn [Py.bind]. rewrite max_by_three.
    exists Spec.beginner, 2%Z. eexists.
    repeat split; try tauto; try reflexivity.
    + destruct (x + 2 <? y)%Z, (y <? z)%Z, (x + 2 <? z)%Z; simpl; auto.
    + intros l Hl. rewrite !Hfin. solve_tally Hl.
    + intros l Hl. rewrite !Hfin. solve_earlier Hl.
Qed.

(** C2, as stated, fails: the assessor does not return "beginner" for
    "Short.". *)
Lemma short_text_is_not_beginner :
  DocumentAnalyzer.assess_difficulty (str "Short.") <> Some Spec.beginner.
Proof. vm_compute. discriminate. Qed.

(** C2, amended. For "Short." the assessor returns "intermediate": no
    indicator word occurs, the single token "Short." has 6 characters, so the
    mean word length is 6, which does not exceed 6 but exceeds 5, and the
    bonus of 2 goes to intermediate. *)
Theorem short_text_is_intermediate :
  let txt := str "Short." in
  Forall (fun level => Spec.indicator_tally level txt = 0%Z) Spec.LEVELS
  /\ PyStr.split_ws txt = [str "Short."]
  /\ (Spec.mean_word_length txt == 6)%Q
  /\ ~ ((6 < Spec.mean_word_length txt)%Q
        \/ (25 < Spec.mean_sentence_length txt)%Q)
  /\ (5 < Spec.mean_word_length txt)%Q
  /\ DocumentAnalyzer.assess_difficulty txt = Some Spec.intermediate.
Proof.
  cbv zeta. repeat split.
  - repeat constructor.
  - intros [H|H]; vm_compute in H; discriminate.
Qed.

(** ** The claim detector *)

Lemma claim_of_snippet (s : text) : CriticalAnalyzer.claim_of s = Spec.snippet s.
Proof.
  unfold CriticalAnalyzer.claim_of, Spec.snippet.
  destruct (Nat.ltb_spec 150 (length s)), (Nat.leb_spec (length s) 150);
    try reflexivity; lia.
Qed.

Lemma scan_patterns_eq (patterns : list Re.regex) (s : text) (claims : list text) :
  CriticalAnalyzer.scan_patterns patterns s claims
  = claims ++ (if existsb (fun pattern => Re.found pattern s) patterns
               then [CriticalAnalyzer.claim_of s] else []).
Proof.
  induction patterns as [|p ps IH]; simpl.
  - now rewrite app_nil_r.
  - destruct (Re.found p s); simpl; [reflexivity|apply IH].
Qed.

Lemma scan_sentences_eq (sentences : list text) (claims : list text) :
  CriticalAnalyzer.scan_sentences sentences claims
  = claims ++ flat_map Spec.sentence_claims (map PyStr.strip sentences).
Proof.
  unfold CriticalAnalyzer.scan_sentences.
  revert claims; induction sentences as [|s ss IH]; intros claims;
    cbn [fold_left map flat_map].
  - now rewrite app_nil_r.
  - rewrite IH. unfold Spec.sentence_claims at 2, Spec.flagged.
    rewrite scan_patterns_eq, claim_of_snippet.
    destruct (Nat.ltb_spec (length (PyStr.strip s)) 20),
             (Nat.leb_spec 20 (length (PyStr.strip s))); try lia;
      cbn [andb app].
    + reflexivity.
    + now rewrite <- app_assoc.
Qed.

Lemma identify_unsupported_claims_eq (txt : text) :
  CriticalAnalyzer.identify_unsupported_claims txt
  = firstn 5 (flat_map Spec.sentence_claims (Spec.units txt)).
Proof.
  unfold CriticalAnalyzer.identify_unsupported_claims, Spec.units.
  now rewrite scan_sentences_eq.
Qed.

(** The patterns after the first one found have no part in the outcome. *)
Lemma scan_patterns_break (pre : list Re.regex) (p : Re.regex)
  (post : list Re.regex) (s : text) (claims : list text) :
  CriticalAnalyzer.scan_patterns (pre ++ p :: post) s claims
  = if existsb (fun pattern => Re.found pattern s) (pre ++ [p])
    then CriticalAnalyzer.scan_patterns (pre ++ [p]) s claims
    else CriticalAnalyzer.scan_patterns post s claims.
Proof.
  induction pre as [|q pre IH]; simpl.
  - destruct (Re.found p s); reflexivity.
  - destruct (Re.found q s); simpl; [reflexivity|apply IH].
Qed.

(** C3. The claim detector splits the text on dots, drops the trimmed units
    shorter than 20 characters, tries the claim patterns in order on each
    other unit and, at the first one found, records the unit (cut to 150
    characters plus an ellipsis when longer) and tries no later pattern, so a
    unit yields at most one claim; the first five are returned.  The text
    "Experts say this will definitely work. " yields one entry although both
    the "experts say" and the "will definitely" patterns are found in it. *)
Theorem one_claim_per_sentence :
  (forall txt,
      CriticalAnalyzer.identify_unsupported_claims txt
      = firstn 5 (flat_map Spec.sentence_claims (Spec.units txt)))
  /\ (forall s, length (Spec.sentence_claims s) <= 1)
  /\ (forall pre p post s claims,
        CriticalAnalyzer.scan_patterns (pre ++ p :: post) s claims
        = if existsb (fun pattern => Re.found pattern s) (pre ++ [p])
          then CriticalAnalyzer.scan_patterns (pre ++ [p]) s claims
          else CriticalAnalyzer.scan_patterns post s claims)
  /\ (let sentence := str "Experts say this will definitely work" in
      Spec.units (str "Experts say this will definitely work. ")
        = [sentence; []]
      /\ map (fun pattern => Re.found pattern sentence)
             CriticalAnalyzer.CLAIM_PATTERNS
         = [true; false; false; true; false; false; false; false; false]
      /\ CriticalAnalyzer.identify_unsupported_claims
           (str "Experts say this will definitely work. ")
         = [sentence]).
Proof.
  split; [|split; [|split]].
  - apply identify_unsupported_claims_eq.
  - intros s. unfold Spec.sentence_claims.
    destruct ((20 <=? length s) && Spec.flagged s); simpl; lia.
  - apply scan_patterns_break.
  - cbv zeta. repeat split; vm_compute; reflexivity.
Qed.

(** ** The fallacy and gap detector *)

Lemma fold_left_snoc {A B : Type} (f : A -> B) (xs : list A) (acc : list B) :
  fold_left (fun acc x => acc ++ [f x]) xs acc = acc ++ map f xs.
Proof.
  revert acc; induction xs as [|x xs IH]; intros acc; simpl.
  - now rewrite app_nil_r.
  - rewrite IH. now rewrite <- app_assoc.
Qed.

Lemma context_start_eq (start : nat) :
  Z.to_nat (Z.max 0 (Z.of_nat start - 50)) = start - 50.
Proof. lia. Qed.

Lemma fallacy_finding_eq (txt name : text) (m : nat * nat) :
  CriticalAnalyzer.fallacy_finding txt name m
  = Spec.finding_of name (PyStr.strip (Spec.window txt m)).
Proof.
  unfold CriticalAnalyzer.fallacy_finding, Spec.finding_of, Spec.window.
  cbv zeta. now rewrite context_start_eq.
Qed.

Lemma scan_fallacies_eq (txt : text) (gaps : list text) :
  CriticalAnalyzer.scan_fallacies txt gaps
  = gaps ++ Spec.fallacy_findings (fun t m => PyStr.strip (Spec.window t m)) txt.
Proof.
  unfold CriticalAnalyzer.scan_fallacies, Spec.fallacy_findings.
  generalize CriticalAnalyzer.FALLACY_PATTERNS as table.
  intros table; revert gaps.
  induction table as [|[name pattern] table IH]; intros gaps; simpl.
  - now rewrite app_nil_r.
  - rewrite IH, fold_left_snoc, <- app_assoc. do 2 f_equal.
    apply map_ext. intros m. apply fallacy_finding_eq.
Qed.

Lemma collect_gaps_eq (txt : text) :
  CriticalAnalyzer.collect_gaps txt
  = Spec.fallacy_findings (fun t m => PyStr.strip (Spec.window t m)) txt
    ++ Spec.structural_findings txt.
Proof.
  unfold CriticalAnalyzer.collect_gaps, Spec.structural_findings,
    Spec.mentions_research_b.
  rewrite scan_fallacies_eq. simpl.
  destruct (_ || _); simpl;
    [destruct (Re.found CriticalAnalyzer.year_or_reference txt); simpl|];
    destruct (Re.found CriticalAnalyzer.vague_quantifier txt);
    now rewrite <- ?app_assoc, ?app_nil_r.
Qed.

(** ** Follow-up questions, related topics and the report *)

Lemma follow_up_questions_eq (txt : text) (topics : list text) :
  CriticalAnalyzer.generate_follow_up_questions txt topics
  = Some (firstn 5 (Spec.claim_question txt ++ Spec.topic_questions topics
                    ++ CriticalAnalyzer.generic_questions)).
Proof.
  unfold CriticalAnalyzer.generate_follow_up_questions, Spec.claim_question.
  destruct (CriticalAnalyzer.key_sentences txt) as [|main_claim rest];
    destruct topics as [|topic0 [|topic1 topics]]; reflexivity.
Qed.

Lemma related_lookup_eq (topics : list text) (related : list text) :
  Py.for_each topics
    (fun related topic =>
       if Py.has_key CriticalAnalyzer.topic_map topic
       then Py.bind (Py.get CriticalAnalyzer.topic_map topic)
              (fun entries => Some (related ++ entries))
       else Some related)
    related
  = Some (related ++ flat_map Spec.topic_entries topics).
Proof.
  revert related; induction topics as [|topic topics IH]; intros related;
    cbn [Py.for_each flat_map].
  - now rewrite app_nil_r.
  - unfold Py.has_key, Spec.topic_entries at 1.
    destruct (Py.get CriticalAnalyzer.topic_map topic) as [entries|];
      cbn [Py.bind]; rewrite IH.
    + now rewrite app_assoc.
    + reflexivity.
Qed.

Lemma suggest_related_topics_eq (set_to_list : list text -> list text)
  (txt : text) (topics : list text) :
  CriticalAnalyzer.suggest_related_topics set_to_list txt topics
  = Some (firstn 5 (set_to_list
            (Spec.keyword_scan txt (flat_map Spec.topic_entries topics)))).
Proof.
  unfold CriticalAnalyzer.suggest_related_topics.
  rewrite related_lookup_eq. cbn [Py.bind app].
  reflexivity.
Qed.

Lemma analyze_eq (set_to_list : list text -> list text)
  (txt : text) (topics : list text) :
  CriticalAnalyzer.analyze set_to_list txt topics
  = Some (CriticalAnalyzer.Report
            (CriticalAnalyzer.identify_unsupported_claims txt)
            (CriticalAnalyzer.identify_logical_gaps txt)
            (CriticalAnalyzer.generate_critical_summary txt
               (CriticalAnalyzer.identify_unsupported_claims txt)
               (CriticalAnalyzer.identify_logical_gaps txt))
            (firstn 5 (Spec.claim_question txt ++ Spec.topic_questions topics
                       ++ CriticalAnalyzer.generic_questions))
            (firstn 5 (set_to_list
               (Spec.keyword_scan txt (flat_map Spec.topic_entries topics))))).
Proof.
  unfold CriticalAnalyzer.analyze.
  now rewrite follow_up_questions_eq, suggest_related_topics_eq.
Qed.

Lemma NoDup_firstn {A : Type} (n : nat) (xs : list A) :
  NoDup xs -> NoDup (firstn n xs).
Proof.
  intros H; revert n; induction H as [|x xs Hx Hxs IH]; intros [|n]; simpl;
    try constructor.
  - intros Hin. apply Hx. rewrite <- (firstn_skipn n xs).
    apply in_or_app. now left.
  - apply IH.
Qed.

Lemma snippet_length (s : text) : length (Spec.snippet s) <= 153.
Proof.
  unfold Spec.snippet. destruct (Nat.leb_spec (length s) 150); [lia|].
  rewrite length_app, length_firstn.
  change (length (str "...")) with 3. lia.
Qed.

Lemma sentence_claims_bounded (sentences : list text) :
  Forall (fun claim => length claim <= 153)
         (flat_map Spec.sentence_claims sentences).
Proof.
  induction sentences as [|s ss IH]; simpl; [constructor|].
  apply Forall_app. split; [|exact IH].
  unfold Spec.sentence_claims.
  destruct (_ && _); [|constructor].
  constructor; [apply snippet_length|constructor].
Qed.

Lemma Forall_firstn {A : Type} (P : A -> Prop) (n : nat) (xs : list A) :
  Forall P xs -> Forall P (firstn n xs).
Proof.
  intros H. rewrite <- (firstn_skipn n xs) in H.
  now apply Forall_app in H.
Qed.

Lemma first_occurrence_order_ok : Spec.lists_each_once Spec.first_occurrence_order.
Proof.
  intros xs. split.
  - apply NoDup_nodup.
  - intros x. apply nodup_In.
Qed.

(** C5. In every report the unsupported claims are at most 5, each of at
    most 153 characters; the logical gaps are at most 5; the related topics
    are at most 5 and pairwise distinct. *)
Theorem report_bounds (set_to_list : list text -> list text)
  (Hset : Spec.lists_each_once set_to_list) (txt : text) (topics : list text) :
  exists r,
    CriticalAnalyzer.analyze set_to_list txt topics = Some r
    /\ length (CriticalAnalyzer.unsupported_claims r) <= 5
    /\ Forall (fun claim => length claim <= 153)
              (CriticalAnalyzer.unsupported_claims r)
    /\ length (CriticalAnalyzer.logical_gaps r) <= 5
    /\ length (CriticalAnalyzer.related_topics r) <= 5
    /\ NoDup (CriticalAnalyzer.related_topics r).
Proof.
  eexists. split; [apply analyze_eq|]. cbn [CriticalAnalyzer.unsupported_claims
    CriticalAnalyzer.logical_gaps CriticalAnalyzer.related_topics].
  repeat split.
  - apply firstn_le_length.
  - rewrite identify_unsupported_claims_eq.
    apply Forall_firstn, sentence_claims_bounded.
  - apply firstn_le_length.
  - apply firstn_le_length.
  - apply NoDup_firstn, Hset.
Qed.

(** ** The matcher finds a match exactly when there is one *)

Lemma star_matches (p : ascii -> bool) (s : text) (k : text -> option text) :
  Re.star p s k <> None
  <-> exists cs rest,
        Forall (fun c => p c = true) cs /\ s = cs ++ rest /\ k rest <> None.
Proof.
  induction s as [|c s IH]; simpl.
  - split.
    + intros H. exists [], []. auto.
    + intros (cs & rest & _ & E & H).
      symmetry in E. apply app_eq_nil in E as [_ ->]. exact H.
  - destruct (p c) eqn:Hc.
    + destruct (Re.star p s k) as [r|] eqn:Hs.
      * split; [intros _|discriminate].
        assert (Hne : Some r <> None) by discriminate.
        apply IH in Hne as (cs & rest & Hcs & -> & Hk).
        exists (c :: cs), rest. auto.
      * split.
        -- intros H. exists [], (c :: s). auto.
        -- intros ([|c' cs] & rest & Hcs & E & Hk).
           ++ simpl in E. now subst rest.
           ++ simpl in E. injection E as <- ->.
              exfalso. apply Forall_inv_tail in Hcs.
              assert (Hnone : (@None text) <> None); [|congruence].
              apply IH. exists cs, rest. auto.
    + split.
      * intros H. exists [], (c :: s). auto.
      * intros ([|c' cs] & rest & Hcs & E & Hk).
        -- simpl in E. now subst rest.
        -- simpl in E. injection E as <- ->.
           apply Forall_inv in Hcs. congruence.
Qed.

Lemma exec_matches (r : Re.regex) :
  forall (s : text) (k : text -> option text),
    Re.exec r s k <> None
    <-> exists rest, Spec.matches r s rest /\ k rest <> None.
Proof.
  induction r as [|p|r1 IH1 r2 IH2|r1 IH1 r2 IH2|p|r1 IH1]; intros s k; simpl.
  - split.
    + intros H. now exists s.
    + now intros (rest & -> & H).
  - destruct s as [|c s].
    + split; [congruence|]. intros (rest & (c & _ & E) & _). discriminate.
    + destruct (p c) eqn:Hc.
      * split.
        -- intros H. exists s. split; [now exists c|exact H].
        -- intros (rest & (c' & _ & E) & H). now injection E as _ ->.
      * split; [congruence|].
        intros (rest & (c' & Hc' & E) & _). injection E as -> _. congruence.
  - rewrite IH1. split.
    + intros (mid & H1 & H2). apply IH2 in H2 as (rest & H2 & Hk).
      exists rest. split; [now exists mid|exact Hk].
    + intros (rest & (mid & H1 & H2) & Hk).
      exists mid. split; [exact H1|]. apply IH2. now exists rest.
  - destruct (Re.exec r1 s k) as [x|] eqn:E1.
    + split; [intros _|discriminate].
      assert (Hne : Re.exec r1 s k <> None) by congruence.
      apply IH1 in Hne as (rest & H1 & Hk). exists rest. auto.
    + rewrite IH2. split.
      * intros (rest & H2 & Hk). exists rest. auto.
      * intros (rest & [H1|H2] & Hk).
        -- exfalso. assert (Hne : Re.exec r1 s k <> None); [|congruence].
           apply IH1. now exists rest.
        -- now exists rest.
  - rewrite star_matches. split.
    + intros (cs & rest & Hcs & E & Hk). exists rest. split; [now exists cs|auto].
    + intros (rest & (cs & Hcs & E) & Hk). now exists cs, rest.
  - destruct (Re.exec r1 s Some) as [x|] eqn:E1.
    + split; [congruence|]. intros (rest & (_ & Hno) & _) _.
      apply Hno. assert (Hne : Re.exec r1 s Some <> None) by congruence.
      apply IH1 in Hne as (y & Hy & _). now exists y.
    + split.
      * intros H. exists s. split; [split; [reflexivity|]|exact H].
        intros (y & Hy).
        assert (Hne : Re.exec r1 s Some <> None); [|congruence].
        apply IH1. exists y. split; [exact Hy|discriminate].
      * now intros (rest & (-> & _) & H).
Qed.

Lemma match_here_matches (r : Re.regex) (s : text) :
  Re.match_here r s <> None <-> exists rest, Spec.matches r s rest.
Proof.
  unfold Re.match_here.
  destruct (Re.exec r s Some) as [x|] eqn:E.
  - split; [intros _|discriminate].
    assert (Hne : Re.exec r s Some <> None) by congruence.
    apply exec_matches in Hne as (rest & H & _). now exists rest.
  - split; [congruence|]. intros (rest & H).
    assert (Hne : Re.exec r s Some <> None); [|congruence].
    apply exec_matches. exists rest. split; [exact H|discriminate].
Qed.

Lemma search_from_matches (r : Re.regex) (s : text) (pos : nat) :
  Re.search_from r pos s <> None <-> Spec.matches_in r s.
Proof.
  revert pos; induction s as [|c s IH]; intros pos; simpl.
  - destruct (Re.match_here r []) as [n|] eqn:E.
    + split; [intros _|discriminate].
      assert (Hne : Re.match_here r [] <> None) by congruence.
      apply match_here_matches in Hne as (rest & H). now exists [], [], rest.
    + split; [congruence|]. intros (pre & suf & rest & Eq & H).
      symmetry in Eq. apply app_eq_nil in Eq as [_ ->].
      assert (Hne : Re.match_here r [] <> None); [|congruence].
      apply match_here_matches. now exists rest.
  - destruct (Re.match_here r (c :: s)) as [n|] eqn:E.
    + split; [intros _|discriminate].
      assert (Hne : Re.match_here r (c :: s) <> None) by congruence.
      apply match_here_matches in Hne as (rest & H).
      now exists [], (c :: s), rest.
    + rewrite IH. split.
      * intros (pre & suf & rest & -> & H). now exists (c :: pre), suf, rest.
      * intros ([|c' pre] & suf & rest & Eq & H); simpl in Eq.
        -- subst suf. exfalso.
           assert (Hne : Re.match_here r (c :: s) <> None); [|congruence].
           apply match_here_matches. now exists rest.
        -- injection Eq as _ ->. now exists pre, suf, rest.
Qed.

Lemma found_true (r : Re.regex) (s : text) :
  Re.found r s = true <-> Spec.matches_in r s.
Proof.
  rewrite <- (search_from_matches r s 0). unfold Re.found, Re.search.
  destruct (Re.search_from r 0 s); split; congruence.
Qed.

Lemma found_false (r : Re.regex) (s : text) :
  Re.found r s = false <-> ~ Spec.matches_in r s.
Proof.
  rewrite <- found_true. destruct (Re.found r s); split; congruence.
Qed.

(** ** What the matcher returns is a match *)

Lemma star_sound (p : ascii -> bool) (s : text) (k : text -> option text)
  (x : text) :
  Re.star p s k = Some x ->
  exists cs rest,
    Forall (fun c => p c = true) cs /\ s = cs ++ rest /\ k rest = Some x.
Proof.
  induction s as [|c s IH]; simpl.
  - intros H. now exists [], [].
  - destruct (p c) eqn:Hc.
    + destruct (Re.star p s k) as [y|] eqn:Hs.
      * intros [= ->]. destruct (IH eq_refl) as (cs & rest & Hcs & -> & Hk).
        exists (c :: cs), rest. auto.
      * intros H. now exists [], (c :: s).
    + intros H. now exists [], (c :: s).
Qed.

Lemma exec_sound (r : Re.regex) :
  forall (s : text) (k : text -> option text) (x : text),
    Re.exec r s k = Some x ->
    exists rest, Spec.matches r s rest /\ k rest = Some x.
Proof.
  induction r as [|p|r1 IH1 r2 IH2|r1 IH1 r2 IH2|p|r1 IH1]; intros s k x;
    simpl.
  - intros H. now exists s.
  - destruct s as [|c s]; [discriminate|].
    destruct (p c) eqn:Hc; [|discriminate].
    intros H. exists s. split; [now exists c|exact H].
  - intros H. apply IH1 in H as (mid & H1 & H).
    apply IH2 in H as (rest & H2 & Hk).
    exists rest. split; [now exists mid|exact Hk].
  - destruct (Re.exec r1 s k) as [y|] eqn:E1.
    + intros [= ->]. apply IH1 in E1 as (rest & H1 & Hk). exists rest. auto.
    + intros H. apply IH2 in H as (rest & H2 & Hk). exists rest. auto.
  - intros H. apply star_sound in H as (cs & rest & Hcs & E & Hk).
    exists rest. split; [now exists cs|exact Hk].
  - destruct (Re.exec r1 s Some) as [y|] eqn:E1; [discriminate|].
    intros H. exists s. split; [split; [reflexivity|]|exact H].
    intros (y & Hy).
    assert (Hne : Re.exec r1 s Some <> None); [|congruence].
    apply exec_matches. exists y. split; [exact Hy|discriminate].
Qed.

Lemma matches_suffix (r : Re.regex) :
  forall s rest, Spec.matches r s rest -> exists pre, s = pre ++ rest.
Proof.
  induction r as [|p|r1 IH1 r2 IH2|r1 IH1 r2 IH2|p|r1 IH1]; intros s rest;
    simpl.
  - intros ->. now exists [].
  - intros (c & _ & ->). now exists [c].
  - intros (mid & H1 & H2).
    apply IH1 in H1 as (pre1 & ->). apply IH2 in H2 as (pre2 & ->).
    exists (pre1 ++ pre2). now rewrite app_assoc.
  - intros [H|H]; [now apply IH1|now apply IH2].
  - intros (cs & _ & ->). now exists cs.
  - intros (-> & _). now exists [].
Qed.

Lemma matches_consumes (r : Re.regex) :
  forall s rest,
    Spec.consumes r = true -> Spec.matches r s rest ->
    length rest < length s.
Proof.
  induction r as [|p|r1 IH1 r2 IH2|r1 IH1 r2 IH2|p|r1 IH1]; intros s rest;
    simpl; try discriminate.
  - intros _ (c & _ & ->). simpl. lia.
  - intros Hc (mid & H1 & H2).
    pose proof (matches_suffix _ _ _ H1) as (pre1 & E1).
    pose proof (matches_suffix _ _ _ H2) as (pre2 & E2).
    apply (f_equal (@length ascii)) in E1, E2. rewrite length_app in E1, E2.
    apply orb_true_iff in Hc as [Hc|Hc].
    + specialize (IH1 _ _ Hc H1). lia.
    + specialize (IH2 _ _ Hc H2). lia.
  - intros Hc [H|H]; apply andb_true_iff in Hc as [Hc1 Hc2];
      [now apply IH1|now apply IH2].
Qed.

Lemma match_here_sound (r : Re.regex) (s : text) (n : nat) :
  Re.match_here r s = Some n ->
  n <= length s /\ Spec.matches r s (skipn n s).
Proof.
  unfold Re.match_here.
  destruct (Re.exec r s Some) as [rest|] eqn:E; [|discriminate].
  intros [= <-]. apply exec_sound in E as (rest' & H & [= ->]).
  pose proof (matches_suffix _ _ _ H) as (pre & ->).
  rewrite length_app. split; [lia|].
  replace (length pre + length rest - length rest) with (length pre) by lia.
  now rewrite skipn_app, skipn_all, Nat.sub_diag.
Qed.

Lemma finditer_from_sound (r : Re.regex) (s : text) :
  forall pos skip m,
    In m (Re.finditer_from r pos skip s) ->
    pos <= fst m /\ fst m <= snd m /\ snd m <= pos + length s
    /\ Spec.matches r (skipn (fst m - pos) s) (skipn (snd m - pos) s).
Proof.
  induction s as [|c s IH]; intros pos skip m.
  - destruct skip as [|skip]; simpl; [|intros []].
    destruct (Re.match_here r []) as [n|] eqn:E; [|intros []].
    intros [<-|[]]. apply match_here_sound in E as [Hn H]. simpl in *.
    replace (pos - pos) with 0 by lia.
    replace (pos + n - pos) with n by lia. repeat split; try lia. exact H.
  - assert (Hrec : forall skip',
      In m (Re.finditer_from r (S pos) skip' s) ->
      pos <= fst m /\ fst m <= snd m /\ snd m <= pos + length (c :: s)
      /\ Spec.matches r (skipn (fst m - pos) (c :: s))
                        (skipn (snd m - pos) (c :: s))).
    { intros skip' Hin. apply IH in Hin as (H1 & H2 & H3 & H4).
      simpl length. repeat split; try lia.
      replace (fst m - pos) with (S (fst m - S pos)) by lia.
      replace (snd m - pos) with (S (snd m - S pos)) by lia. exact H4. }
    destruct skip as [|skip]; simpl Re.finditer_from; [|apply Hrec].
    destruct (Re.match_here r (c :: s)) as [n|] eqn:E; [|apply Hrec].
    intros [<-|Hin]; [|now apply Hrec in Hin].
    apply match_here_sound in E as [Hn H]. cbn [fst snd].
    replace (pos - pos) with 0 by lia.
    replace (pos + n - pos) with n by lia. repeat split; try lia. exact H.
Qed.

Lemma finditer_sound (r : Re.regex) (txt : text) (m : nat * nat) :
  In m (Re.finditer r txt) -> Spec.match_at r txt m.
Proof.
  intros H. apply finditer_from_sound in H as (_ & H1 & H2 & H3).
  rewrite !Nat.sub_0_r in H3. now repeat split.
Qed.

(** No pattern of the two tables matches the empty string. *)
Lemma patterns_consume :
  forallb Spec.consumes CriticalAnalyzer.CLAIM_PATTERNS = true
  /\ forallb (fun entry => Spec.consumes (snd entry))
             CriticalAnalyzer.FALLACY_PATTERNS = true
  /\ Spec.consumes CriticalAnalyzer.citation = true
  /\ Spec.consumes CriticalAnalyzer.year_or_reference = true
  /\ Spec.consumes CriticalAnalyzer.vague_quantifier = true.
Proof. repeat split. Qed.

(** ** The order of the findings *)

(** C4, as stated, fails: the quoted context is not the window itself. *)
Lemma context_is_not_the_raw_window :
  CriticalAnalyzer.identify_logical_gaps (str " famous man says")
  <> Spec.gaps_as_claimed (str " famous man says").
Proof. vm_compute. discriminate. Qed.

(** C4, amended. The findings come in this order: for each fallacy name in
    the declared order, at most the first two case-insensitive matches in the
    whole text, each as "Possible <Name>: '<context>...'" where the context is
    the text from 50 characters before the start of the match through 100
    characters after its end, within the text, trimmed of the whitespace at
    its two ends; then the structural findings; the result is the first five
    of these.  Each span the scan reports is a match of its pattern in the
    text. *)
Theorem logical_gaps_in_production_order (txt : text) :
  CriticalAnalyzer.identify_logical_gaps txt = Spec.gaps_trimmed txt
  /\ Forall (fun entry : text * Re.regex =>
               Forall (Spec.match_at (snd entry) txt)
                      (Re.finditer (snd entry) txt))
            CriticalAnalyzer.FALLACY_PATTERNS
  /\ length (CriticalAnalyzer.identify_logical_gaps txt) <= 5.
Proof.
  split; [|split].
  - unfold CriticalAnalyzer.identify_logical_gaps, Spec.gaps_trimmed.
    now rewrite collect_gaps_eq.
  - apply Forall_forall. intros entry _.
    apply Forall_forall. intros m. apply finditer_sound.
  - apply firstn_le_length.
Qed.

(** ** The missing-citations finding *)

Lemma starts_with_iff (sub s : text) :
  PyStr.starts_with sub s = true <-> exists post, s = sub ++ post.
Proof.
  revert s; induction sub as [|x sub IH]; intros s; simpl.
  - split; [intros _; now exists s|reflexivity].
  - destruct s as [|y s].
    + split; [discriminate|]. intros (post & E). discriminate.
    + rewrite andb_true_iff, Ascii.eqb_eq, IH. split.
      * intros (-> & post & ->). now exists post.
      * intros (post & E). injection E as -> ->. split; [reflexivity|].
        now exists post.
Qed.

Lemma contains_iff (sub s : text) :
  PyStr.contains sub s = true <-> Spec.occurs_in sub s.
Proof.
  unfold Spec.occurs_in. induction s as [|c s IH]; simpl.
  - rewrite orb_false_r, starts_with_iff. split.
    + intros (post & E). now exists [], post.
    + intros (pre & post & E). symmetry in E.
      apply app_eq_nil in E as [-> E]. now exists post.
  - rewrite orb_true_iff, starts_with_iff, IH. split.
    + intros [(post & E)|(pre & post & ->)].
      * now exists [], post.
      * now exists (c :: pre), post.
    + intros ([|c' pre] & post & E); simpl in E.
      * left. now exists post.
      * right. injection E as _ ->. now exists pre, post.
Qed.

Lemma contains_lower_iff (word txt : text) :
  PyStr.contains word (PyStr.lower txt) = true <-> Spec.mentions word txt.
Proof.
  rewrite contains_iff. unfold Spec.occurs_in, Spec.mentions, PyStr.lower.
  split.
  - intros (pre & post & E).
    apply map_eq_app in E as (a & bc & -> & <- & E).
    apply map_eq_app in E as (b & c & -> & <- & <-).
    now exists a, b, c.
  - intros (pre & mid & post & -> & <-).
    exists (map PyStr.lower_char pre), (map PyStr.lower_char post).
    now rewrite !map_app.
Qed.

Lemma mentions_research_iff (txt : text) :
  Spec.mentions_research_b txt = true <-> Spec.mentions_research txt.
Proof.
  unfold Spec.mentions_research_b, Spec.mentions_research.
  now rewrite orb_true_iff, !contains_lower_iff.
Qed.

Lemma year_or_reference_iff (txt : text) :
  Spec.matches_in CriticalAnalyzer.year_or_reference txt
  <-> Spec.has_citation txt.
Proof.
  unfold Spec.matches_in, Spec.has_citation, Spec.all_digits. split.
  - intros (pre & suf & rest & -> & H).
    cbn -[PyStr.is_digit Ascii.eqb] in H.
    destruct H as [H|H].
    + destruct H as (m & (c0 & E0 & ->) & m0 & H & (c5 & E5 & ->)).
      destruct H as (m1 & (c1 & D1 & ->) & m2 & (c2 & D2 & ->) & m3
                     & (c3 & D3 & ->) & (c4 & D4 & ->)).
      apply Ascii.eqb_eq in E0, E5. subst c0 c5.
      exists pre, [c1; c2; c3; c4], rest. split.
      * repeat constructor; assumption.
      * left. split; reflexivity.
    + destruct H as (m & (c0 & E0 & ->) & m0 & H & (c5 & E5 & ->)).
      destruct H as (m1 & (c1 & D1 & ->) & cs & Hcs & ->).
      apply Ascii.eqb_eq in E0, E5. subst c0 c5.
      exists pre, (c1 :: cs), rest. split.
      * now constructor.
      * right. split; [discriminate|reflexivity].
  - intros (pre & ds & post & Hds & [(Hlen & ->)|(Hne & ->)]).
    + destruct ds as [|c1 [|c2 [|c3 [|c4 [|c5 ds]]]]]; try discriminate.
      inversion Hds as [|? ? D1 Hds1]; subst.
      inversion Hds1 as [|? ? D2 Hds2]; subst.
      inversion Hds2 as [|? ? D3 Hds3]; subst.
      inversion Hds3 as [|? ? D4 _]; subst.
      exists pre, (str "(" ++ [c1; c2; c3; c4] ++ str ")" ++ post), post.
      split; [reflexivity|].
      cbn -[PyStr.is_digit Ascii.eqb]. left.
      eexists. split; [eexists; split; [apply Ascii.eqb_refl|reflexivity]|].
      eexists. split.
      * eexists. split; [eexists; split; [exact D1|reflexivity]|].
        eexists. split; [eexists; split; [exact D2|reflexivity]|].
        eexists. split; [eexists; split; [exact D3|reflexivity]|].
        eexists; split; [exact D4|reflexivity].
      * eexists; split; [apply Ascii.eqb_refl|reflexivity].
    + destruct ds as [|c1 ds]; [congruence|].
      inversion Hds as [|? ? D1 Hds1]; subst.
      exists pre, (str "[" ++ (c1 :: ds) ++ str "]" ++ post), post.
      split; [reflexivity|].
      cbn -[PyStr.is_digit Ascii.eqb]. right.
      eexists. split; [eexists; split; [apply Ascii.eqb_refl|reflexivity]|].
      exists (str "]" ++ post). split.
      * eexists. split; [eexists; split; [exact D1|reflexivity]|].
        exists ds. split; [exact Hds1|reflexivity].
      * eexists; split; [apply Ascii.eqb_refl|reflexivity].
Qed.

Lemma found_year_or_reference (txt : text) :
  Re.found CriticalAnalyzer.year_or_reference txt = true
  <-> Spec.has_citation txt.
Proof. now rewrite found_true, year_or_reference_iff. Qed.

Lemma fallacy_finding_starts (context : text -> nat * nat -> text)
  (txt x : text) :
  In x (Spec.fallacy_findings context txt) ->
  exists tail, x = str "Possible " ++ tail.
Proof.
  unfold Spec.fallacy_findings. intros H.
  apply in_flat_map in H as (entry & _ & H).
  apply in_map_iff in H as (m & <- & _).
  unfold Spec.finding_of. eexists. reflexivity.
Qed.

Lemma no_citations_not_fallacy (context : text -> nat * nat -> text)
  (txt : text) :
  ~ In CriticalAnalyzer.no_citations_msg (Spec.fallacy_findings context txt).
Proof.
  intros H. apply fallacy_finding_starts in H as (tail & E). discriminate.
Qed.

Lemma in_firstn_after {A : Type} (n : nat) (x : A) (before after : list A) :
  ~ In x before ->
  (In x (firstn n (before ++ x :: after)) <-> length before < n).
Proof.
  intros Hb. revert n; induction before as [|b before IH]; intros n.
  - destruct n as [|n]; simpl.
    + split; [intros []|lia].
    + split; [lia|now left].
  - destruct n as [|n]; simpl.
    + split; [intros []|lia].
    + assert (Hb' : ~ In x before) by (intros H; apply Hb; now right).
      rewrite (IH Hb' n). split.
      * intros [E|H]; [exfalso; apply Hb; now left|lia].
      * intros H. right. lia.
Qed.

Lemma not_in_firstn {A : Type} (n : nat) (x : A) (xs : list A) :
  ~ In x xs -> ~ In x (firstn n xs).
Proof.
  intros H Hin. apply H. rewrite <- (firstn_skipn n xs).
  apply in_or_app. now left.
Qed.

Lemma no_citations_in_collected (txt : text) :
  In CriticalAnalyzer.no_citations_msg (CriticalAnalyzer.collect_gaps txt)
  <-> Spec.mentions_research txt /\ ~ Spec.has_citation txt.
Proof.
  rewrite collect_gaps_eq, <- mentions_research_iff, <- found_year_or_reference.
  unfold Spec.structural_findings.
  set (F := Spec.fallacy_findings _ txt).
  assert (HF : ~ In CriticalAnalyzer.no_citations_msg F)
    by apply no_citations_not_fallacy.
  destruct (Spec.mentions_research_b txt),
           (Re.found CriticalAnalyzer.year_or_reference txt),
           (Re.found CriticalAnalyzer.vague_quantifier txt);
    cbn [andb negb app]; rewrite ?app_nil_r;
    (split; [intros H|intros [H1 H2]]); try congruence;
    try (apply in_app_or in H as [H|H]; [contradiction|]);
    try (destruct H as [H|H]; try discriminate; try contradiction);
    try (destruct H as [H|H]; try discriminate; try contradiction);
    try (exfalso; now apply H2);
    try (split; congruence);
    try (apply in_or_app; right; now left).
Qed.

Lemma no_citations_in_result (txt : text) :
  In CriticalAnalyzer.no_citations_msg (CriticalAnalyzer.identify_logical_gaps txt)
  <-> Spec.mentions_research txt /\ ~ Spec.has_citation txt
      /\ length (Spec.fallacy_findings
                   (fun t m => PyStr.strip (Spec.window t m)) txt) < 5.
Proof.
  unfold CriticalAnalyzer.identify_logical_gaps.
  rewrite collect_gaps_eq, <- mentions_research_iff, <- found_year_or_reference.
  unfold Spec.structural_findings.
  set (F := Spec.fallacy_findings _ txt).
  assert (HF : ~ In CriticalAnalyzer.no_citations_msg F)
    by apply no_citations_not_fallacy.
  destruct (Spec.mentions_research_b txt) eqn:Hm;
    [destruct (Re.found CriticalAnalyzer.year_or_reference txt) eqn:Hy|];
    cbn [andb negb app].
  - split; [|intros (_ & H & _); congruence].
    intros H. exfalso. apply not_in_firstn in H; [exact H|].
    intros Hin. apply in_app_or in Hin as [Hin|Hin]; [contradiction|].
    destruct (Re.found CriticalAnalyzer.vague_quantifier txt);
      [destruct Hin as [E|[]]; discriminate|destruct Hin].
  - rewrite in_firstn_after by exact HF.
    split; [intros H; repeat split; auto; congruence|now intros (_ & _ & H)].
  - split; [|intros (H & _); congruence].
    intros H. exfalso. apply not_in_firstn in H; [exact H|].
    intros Hin. apply in_app_or in Hin as [Hin|Hin]; [contradiction|].
    destruct (Re.found CriticalAnalyzer.vague_quantifier txt);
      [destruct Hin as [E|[]]; discriminate|destruct Hin].
Qed.

Lemma has_citation_with_year (pre post : text) :
  Spec.has_citation (pre ++ str "(2020)" ++ post).
Proof.
  exists pre, (str "2020"), post. split.
  - repeat constructor.
  - left. split; reflexivity.
Qed.

(** C6, as stated, fails: a text that mentions research and has no
    citation does not get the finding when five fallacy findings come first. *)
Lemma no_citations_finding_cut_by_cap :
  let txt := str ("all cats are all dogs are either options either options "
                  ++ "famous man says famous man says research") in
  Spec.mentions_research txt
  /\ ~ Spec.has_citation txt
  /\ ~ In CriticalAnalyzer.no_citations_msg
          (CriticalAnalyzer.identify_logical_gaps txt).
Proof.
  cbv zeta. split; [|split].
  - apply mentions_research_iff. vm_compute. reflexivity.
  - rewrite <- found_year_or_reference. vm_compute. discriminate.
  - vm_compute. intuition discriminate.
Qed.

(** C6, amended. The detector appends the "no citations" finding to its
    findings exactly when the text contains "research" or "study", whatever
    the case, and no year in parentheses or number in brackets anywhere; the
    finding is in the returned list exactly when, besides, fewer than five
    fallacy findings come before it; inserting "(2020)" anywhere in a text
    suppresses it. *)
Theorem no_citations_finding_iff :
  (forall txt,
      In CriticalAnalyzer.no_citations_msg (CriticalAnalyzer.collect_gaps txt)
      <-> Spec.mentions_research txt /\ ~ Spec.has_citation txt)
  /\ (forall txt,
        In CriticalAnalyzer.no_citations_msg
           (CriticalAnalyzer.identify_logical_gaps txt)
        <-> Spec.mentions_research txt /\ ~ Spec.has_citation txt
            /\ length (Spec.fallacy_findings
                         (fun t m => PyStr.strip (Spec.window t m)) txt) < 5)
  /\ (forall pre post,
        ~ In CriticalAnalyzer.no_citations_msg
             (CriticalAnalyzer.collect_gaps (pre ++ str "(2020)" ++ post))
        /\ ~ In CriticalAnalyzer.no_citations_msg
                (CriticalAnalyzer.identify_logical_gaps
                   (pre ++ str "(2020)" ++ post))).
Proof.
  split; [exact no_citations_in_collected|].
  split; [exact no_citations_in_result|].
  intros pre post. split.
  - rewrite no_citations_in_collected. intros (_ & H).
    apply H, has_citation_with_year.
  - rewrite no_citations_in_result. intros (_ & H & _).
    apply H, has_citation_with_year.
Qed.

(** ** The narrative synthesizer *)

Lemma finditer_from_nil (r : Re.regex) (s : text) (pos : nat) :
  Re.finditer_from r pos 0 s = [] <-> ~ Spec.matches_in r s.
Proof.
  rewrite <- (search_from_matches r s pos).
  revert pos; induction s as [|c s IH]; intros pos; simpl;
    destruct (Re.match_here r _) as [n|].
  - split; [discriminate|]. intros H. exfalso. apply H. discriminate.
  - split; [intros _ H; now apply H|reflexivity].
  - split; [discriminate|]. intros H. exfalso. apply H. discriminate.
  - apply IH.
Qed.

Lemma findall_count_zero (r : Re.regex) (s : text) :
  Re.findall_count r s = 0 <-> ~ Spec.matches_in r s.
Proof.
  unfold Re.findall_count, Re.finditer.
  rewrite <- finditer_from_nil with (pos := 0). apply length_zero_iff_nil.
Qed.

Lemma matches_lit (f : ascii -> Re.regex) (w s rest : text) :
  (forall c s0 rest0, Spec.matches (f c) s0 rest0 <-> s0 = c :: rest0) ->
  w <> [] ->
  Spec.matches (Re.seq_of f w) s rest <-> s = w ++ rest.
Proof.
  intros Hf. revert s; induction w as [|c w IH]; intros s Hw; [congruence|].
  destruct w as [|c' w].
  - simpl. apply Hf.
  - change (Re.seq_of f (c :: c' :: w))
      with (Re.Seq (f c) (Re.seq_of f (c' :: w))).
    cbn [Spec.matches]. split.
    + intros (mid & H1 & H2). apply Hf in H1. subst s.
      apply IH in H2; [|discriminate]. now subst mid.
    + intros ->. exists ((c' :: w) ++ rest). split; [now apply Hf|].
      apply IH; [discriminate|reflexivity].
Qed.

Lemma matches_ch (c : ascii) (s rest : text) :
  Spec.matches (Re.ch c) s rest <-> s = c :: rest.
Proof.
  simpl. split.
  - intros (c' & E & ->). apply Ascii.eqb_eq in E. now subst.
  - intros ->. exists c. split; [apply Ascii.eqb_refl|reflexivity].
Qed.

Lemma citation_iff (txt : text) :
  Spec.matches_in CriticalAnalyzer.citation txt <-> Spec.cites txt.
Proof.
  unfold Spec.cites. rewrite <- year_or_reference_iff.
  unfold Spec.matches_in, Spec.occurs_in.
  change CriticalAnalyzer.citation
    with (Re.Alt (Re.seqs [Re.ch "("; Re.times 4 (Re.Chr PyStr.is_digit);
                           Re.ch ")"])
            (Re.Alt (Re.seqs [Re.ch "["; Re.digits; Re.ch "]"])
                    (Re.lit "et al."))).
  change CriticalAnalyzer.year_or_reference
    with (Re.Alt (Re.seqs [Re.ch "("; Re.times 4 (Re.Chr PyStr.is_digit);
                           Re.ch ")"])
                 (Re.seqs [Re.ch "["; Re.digits; Re.ch "]"])).
  cbn [Spec.matches]. split.
  - intros (pre & suf & rest & -> & [H|[H|H]]).
    + left. exists pre, suf, rest. auto.
    + left. exists pre, suf, rest. auto.
    + right. apply matches_lit in H; [|apply matches_ch|discriminate].
      subst suf. now exists pre, rest.
  - intros [(pre & suf & rest & -> & [H|H])|(pre & post & ->)].
    + exists pre, suf, rest. auto.
    + exists pre, suf, rest. auto.
    + exists pre, (str "et al." ++ post), post. split; [reflexivity|].
      right. right. apply matches_lit; [apply matches_ch|discriminate|reflexivity].
Qed.

Lemma summary_parts_eq (txt : text) (claims gaps : list text) :
  CriticalAnalyzer.summary_parts txt claims gaps
  = Spec.summary_body txt claims gaps
    ++ Spec.citation_sentences (Re.findall_count CriticalAnalyzer.citation txt).
Proof.
  unfold CriticalAnalyzer.summary_parts, Spec.summary_body. cbv zeta.
  generalize (Re.findall_count CriticalAnalyzer.citation txt) as n. intros n.
  destruct (Py.nonempty claims), (Py.nonempty gaps),
    (negb (PyStr.contains (str "however") (PyStr.lower txt))
     && negb (PyStr.contains (str "although") (PyStr.lower txt)));
    destruct n as [|[|[|n]]]; reflexivity.
Qed.

Lemma summary_body_no_citation_sentence (txt : text) (claims gaps : list text) :
  ~ In CriticalAnalyzer.no_academic_msg (Spec.summary_body txt claims gaps)
  /\ ~ In CriticalAnalyzer.limited_msg (Spec.summary_body txt claims gaps).
Proof.
  unfold Spec.summary_body.
  split; intros H;
    repeat (apply in_app_or in H as [H|H]);
    repeat match type of H with
    | In _ (if ?b then _ else _) => destruct b
    | In _ [if ?b then _ else _] => destruct b
    end;
    repeat (destruct H as [H|H]; try discriminate H); try contradiction.
Qed.

(** C7. The synthesizer counts the occurrences of a year in parentheses, a
    number in brackets and "et al." in the whole text and ends the summary
    with the "no citations detected" sentence when the count is 0, with the
    "limited citations" sentence when it is 1 or 2, and with neither when it
    is 3 or more; the two never both appear; the summary is the sentences
    joined by single spaces. *)
Theorem citation_sentence_by_count (txt : text) (claims gaps : list text) :
  let n := Re.findall_count CriticalAnalyzer.citation txt in
  let parts := CriticalAnalyzer.summary_parts txt claims gaps in
  (n = 0 <-> ~ Spec.cites txt)
  /\ parts = Spec.summary_body txt claims gaps ++ Spec.citation_sentences n
  /\ (In CriticalAnalyzer.no_academic_msg parts <-> n = 0)
  /\ (In CriticalAnalyzer.limited_msg parts <-> 1 <= n <= 2)
  /\ ~ (In CriticalAnalyzer.no_academic_msg parts
        /\ In CriticalAnalyzer.limited_msg parts)
  /\ CriticalAnalyzer.generate_critical_summary txt claims gaps
     = PyStr.join (str " ") parts.
Proof.
  intros n parts.
  assert (Hparts : parts
    = Spec.summary_body txt claims gaps ++ Spec.citation_sentences n)
    by apply summary_parts_eq.
  destruct (summary_body_no_citation_sentence txt claims gaps) as [Hno Hlim].
  assert (Ha : In CriticalAnalyzer.no_academic_msg parts <-> n = 0).
  { rewrite Hparts, in_app_iff.
    destruct n as [|[|[|n]]]; simpl; split; intros H; try lia; auto;
      destruct H as [H|H]; try contradiction;
      try (destruct H as [H|[]]; discriminate). }
  assert (Hl : In CriticalAnalyzer.limited_msg parts <-> 1 <= n <= 2).
  { rewrite Hparts, in_app_iff.
    destruct n as [|[|[|n]]]; simpl; split; intros H; try lia; auto;
      destruct H as [H|H]; try contradiction;
      try (destruct H as [H|[]]; discriminate). }
  repeat split; try tauto.
  - intros H. apply findall_count_zero in H. now rewrite <- citation_iff.
  - intros H. apply findall_count_zero. now rewrite citation_iff.
  - rewrite Ha, Hl. lia.
Qed.

(** ** Five follow-up questions *)

Lemma key_sentences_nonempty (txt s : text) :
  In s (PyStr.split_on "."%char txt) -> 30 < length (PyStr.strip s) ->
  CriticalAnalyzer.key_sentences txt <> [].
Proof.
  intros Hin Hlen E. unfold CriticalAnalyzer.key_sentences in E.
  apply map_eq_nil in E.
  assert (H : In s (filter (fun s => 30 <? length (PyStr.strip s))
                           (PyStr.split_on "."%char txt))).
  { apply filter_In. split; [exact Hin|]. now apply Nat.ltb_lt. }
  rewrite E in H. destruct H.
Qed.

Lemma topic_questions_length (topics : list text) :
  length (Spec.topic_questions topics) <= 2.
Proof. destruct topics as [|t0 [|t1 topics]]; simpl; lia. Qed.

(** C8. When some segment between dots is longer than 30 characters once
    trimmed, the follow-up questions are exactly five, whatever the topics. *)
Theorem follow_up_questions_are_five (txt : text) (topics : list text)
  (Hlong : exists s, In s (PyStr.split_on "."%char txt)
                     /\ 30 < length (PyStr.strip s)) :
  exists questions,
    CriticalAnalyzer.generate_follow_up_questions txt topics = Some questions
    /\ length questions = 5.
Proof.
  destruct Hlong as (s & Hin & Hlen).
  eexists. split; [apply follow_up_questions_eq|].
  rewrite length_firstn, !length_app.
  pose proof (key_sentences_nonempty txt s Hin Hlen) as Hne.
  unfold Spec.claim_question.
  destruct (CriticalAnalyzer.key_sentences txt) as [|main_claim rest];
    [congruence|].
  change (length CriticalAnalyzer.generic_questions) with 4.
  cbn [length]. lia.
Qed.

(** ** Totality *)

Lemma avg_word_length_total (words : list text) :
  DocumentAnalyzer.avg_word_length words <> None.
Proof.
  unfold DocumentAnalyzer.avg_word_length.
  destruct words as [|w ws]; cbn [Py.nonempty]; [discriminate|].
  rewrite div_pos by (simpl; lia). discriminate.
Qed.

Lemma avg_sentence_length_total (words sentences : list text) :
  DocumentAnalyzer.avg_sentence_length words sentences <> None.
Proof.
  unfold DocumentAnalyzer.avg_sentence_length.
  destruct sentences as [|s ss]; cbn [Py.nonempty]; [discriminate|].
  rewrite div_pos by (simpl; lia). discriminate.
Qed.

Lemma assess_difficulty_total (txt : text) :
  exists level,
    DocumentAnalyzer.assess_difficulty txt = Some level
    /\ In level Spec.LEVELS.
Proof.
  unfold DocumentAnalyzer.assess_difficulty.
  rewrite count_indicators_eq. cbn [Py.bind].
  rewrite avg_word_length_eq, avg_sentence_length_eq. cbn [Py.bind].
  generalize (Spec.indicator_tally Spec.beginner txt) as x.
  generalize (Spec.indicator_tally Spec.intermediate txt) as y.
  generalize (Spec.indicator_tally Spec.advanced txt) as z.
  intros z y x.
  destruct (_ || _); [|destruct (_ || _)].
  - change (Py.add_to _ (str "advanced") 3)
      with (Some [(Spec.beginner, x); (Spec.intermediate, y);
                  (Spec.advanced, (z + 3)%Z)]).
    cbn [Py.bind]. rewrite max_by_three. eexists. split; [reflexivity|].
    destruct (x <? y)%Z, (y <? (z + 3))%Z, (x <? (z + 3))%Z; simpl; auto.
  - change (Py.add_to _ (str "intermediate") 2)
      with (Some [(Spec.beginner, x); (Spec.intermediate, (y + 2)%Z);
                  (Spec.advanced, z)]).
    cbn [Py.bind]. rewrite max_by_three. eexists. split; [reflexivity|].
    destruct (x <? y + 2)%Z, (y + 2 <? z)%Z, (x <? z)%Z; simpl; auto.
  - change (Py.add_to _ (str "beginner") 2)
      with (Some [(Spec.beginner, (x + 2)%Z); (Spec.intermediate, y);
                  (Spec.advanced, z)]).
    cbn [Py.bind]. rewrite max_by_three. eexists. split; [reflexivity|].
    destruct (x + 2 <? y)%Z, (y <? z)%Z, (x + 2 <? z)%Z; simpl; auto.
Qed.

Lemma set_of_nothing (set_to_list : list text -> list text) :
  Spec.lists_each_once set_to_list -> set_to_list [] = [].
Proof.
  intros H. destruct (H []) as [_ Hin].
  destruct (set_to_list []) as [|x xs]; [reflexivity|].
  exfalso. apply (Hin x). now left.
Qed.

(** C9. No operation of the engine raises: the report and each of its parts
    are returned for every text and topic list, the two averages are defined
    (0 when there is nothing to divide by), and the difficulty is one of the
    three levels.  On the empty text with no topics the claims, the gaps and
    the related topics are empty, the questions are the four generic ones,
    and the difficulty is "beginner"; a text in which no unit holds a claim
    pattern has no claims. *)
Theorem engine_is_total (set_to_list : list text -> list text)
  (Hset : Spec.lists_each_once set_to_list) :
  (forall txt topics, exists r,
      CriticalAnalyzer.analyze set_to_list txt topics = Some r)
  /\ (forall txt topics, exists questions,
        CriticalAnalyzer.generate_follow_up_questions txt topics
        = Some questions)
  /\ (forall txt topics, exists related,
        CriticalAnalyzer.suggest_related_topics set_to_list txt topics
        = Some related)
  /\ (forall txt, exists level,
        DocumentAnalyzer.assess_difficulty txt = Some level
        /\ In level Spec.LEVELS)
  /\ (forall words, DocumentAnalyzer.avg_word_length words <> None)
  /\ (forall words sentences,
        DocumentAnalyzer.avg_sentence_length words sentences <> None)
  /\ DocumentAnalyzer.avg_word_length [] = Some 0%Q
  /\ (forall words, DocumentAnalyzer.avg_sentence_length words [] = Some 0%Q)
  /\ DocumentAnalyzer.assess_difficulty [] = Some Spec.beginner
  /\ CriticalAnalyzer.analyze set_to_list [] []
     = Some (CriticalAnalyzer.Report [] []
               (PyStr.join (str " ")
                  [CriticalAnalyzer.well_reasoned_msg;
                   CriticalAnalyzer.balance_msg;
                   CriticalAnalyzer.no_academic_msg])
               CriticalAnalyzer.generic_questions [])
  /\ (forall txt,
        forallb (fun s => negb (Spec.flagged s)) (Spec.units txt) = true ->
        CriticalAnalyzer.identify_unsupported_claims txt = []).
Proof.
  repeat split.
  - intros txt topics. eexists. apply analyze_eq.
  - intros txt topics. eexists. apply follow_up_questions_eq.
  - intros txt topics. eexists. apply suggest_related_topics_eq.
  - apply assess_difficulty_total.
  - apply avg_word_length_total.
  - apply avg_sentence_length_total.
  - rewrite analyze_eq.
    change (Spec.keyword_scan [] (flat_map Spec.topic_entries [])) with (@nil text).
    rewrite (set_of_nothing _ Hset). reflexivity.
  - intros txt H. rewrite identify_unsupported_claims_eq.
    induction (Spec.units txt) as [|s ss IH]; [reflexivity|].
    cbn [forallb] in H. apply andb_true_iff in H as [Hs Hss].
    cbn [flat_map]. unfold Spec.sentence_claims at 1.
    apply negb_true_iff in Hs. rewrite Hs, andb_false_r. now apply IH.
Qed.

(** ** The counts in the summary *)

Lemma to_uint_not_nil (n : nat) : Nat.to_uint n <> Decimal.Nil.
Proof.
  intros E. pose proof (DecimalNat.Unsigned.of_to n) as H.
  rewrite E in H. simpl in H. subst n. discriminate.
Qed.

Lemma of_nat_inj (n m : nat) : PyStr.of_nat n = PyStr.of_nat m -> n = m.
Proof.
  unfold PyStr.of_nat, str. intros H.
  apply (f_equal string_of_list_ascii) in H.
  rewrite !string_of_list_ascii_of_string in H.
  apply (f_equal DecimalString.NilZero.uint_of_string) in H.
  rewrite !DecimalString.NilZero.usu in H by apply to_uint_not_nil.
  injection H as H. now apply DecimalNat.Unsigned.to_uint_inj.
Qed.

Lemma claims_msg_inj (n m : nat) :
  CriticalAnalyzer.claims_msg n = CriticalAnalyzer.claims_msg m -> n = m.
Proof.
  unfold CriticalAnalyzer.claims_msg. intros H.
  apply app_inv_head in H. rewrite !app_assoc in H.
  apply app_inv_tail in H. apply app_inv_tail in H. now apply of_nat_inj.
Qed.

Lemma gaps_msg_inj (n m : nat) :
  CriticalAnalyzer.gaps_msg n = CriticalAnalyzer.gaps_msg m -> n = m.
Proof.
  unfold CriticalAnalyzer.gaps_msg. intros H.
  apply app_inv_head in H. rewrite !app_assoc in H.
  apply app_inv_tail in H. apply app_inv_tail in H. now apply of_nat_inj.
Qed.

Lemma in_join (sep x : text) (parts : list text) :
  In x parts -> Spec.occurs_in x (PyStr.join sep parts).
Proof.
  unfold Spec.occurs_in. induction parts as [|p ps IH]; [intros []|].
  intros [->|H].
  - destruct ps as [|q ps].
    + exists [], []. simpl. now rewrite app_nil_r.
    + exists [], (sep ++ PyStr.join sep (q :: ps)). reflexivity.
  - destruct ps as [|q ps]; [destruct H|].
    destruct (IH H) as (pre & post & E).
    exists (p ++ sep ++ pre), post.
    change (PyStr.join sep (p :: q :: ps))
      with (p ++ sep ++ PyStr.join sep (q :: ps)).
    rewrite E. now rewrite <- !app_assoc.
Qed.

Lemma claims_msg_in_parts (txt : text) (claims gaps : list text) (n : nat) :
  In (CriticalAnalyzer.claims_msg n)
     (CriticalAnalyzer.summary_parts txt claims gaps)
  <-> claims <> [] /\ n = length claims.
Proof.
  rewrite summary_parts_eq. unfold Spec.summary_body.
  rewrite !in_app_iff. split.
  - intros [[[H|[]]|[H|[H|H]]]|H].
    + destruct (_ || _); discriminate.
    + destruct claims as [|c cs]; [destruct H|].
      destruct H as [H|[]]. apply claims_msg_inj in H.
      split; [discriminate|congruence].
    + destruct (Py.nonempty gaps); [destruct H as [H|[]]; discriminate|destruct H].
    + destruct (_ && _); [destruct H as [H|[]]; discriminate|destruct H].
    + destruct (Re.findall_count CriticalAnalyzer.citation txt) as [|[|[|k]]];
        simpl in H; try (destruct H as [H|[]]; discriminate); destruct H.
  - intros (Hne & ->). left. right. left.
    destruct claims as [|c cs]; [congruence|]. now left.
Qed.

Lemma gaps_msg_in_parts (txt : text) (claims gaps : list text) (n : nat) :
  In (CriticalAnalyzer.gaps_msg n)
     (CriticalAnalyzer.summary_parts txt claims gaps)
  <-> gaps <> [] /\ n = length gaps.
Proof.
  rewrite summary_parts_eq. unfold Spec.summary_body.
  rewrite !in_app_iff. split.
  - intros [[[H|[]]|[H|[H|H]]]|H].
    + destruct (_ || _); discriminate.
    + destruct (Py.nonempty claims); [destruct H as [H|[]]; discriminate|destruct H].
    + destruct gaps as [|g gs]; [destruct H|].
      destruct H as [H|[]]. apply gaps_msg_inj in H.
      split; [discriminate|congruence].
    + destruct (_ && _); [destruct H as [H|[]]; discriminate|destruct H].
    + destruct (Re.findall_count CriticalAnalyzer.citation txt) as [|[|[|k]]];
        simpl in H; try (destruct H as [H|[]]; discriminate); destruct H.
  - intros (Hne & ->). left. right. right. left.
    destruct gaps as [|g gs]; [congruence|]. now left.
Qed.

(** C10. In a report the summary is built from the very lists of claims and
    gaps the report holds: a sentence of the summary states a number of
    unsupported claims (of logical issues) exactly when that list is not
    empty and the number is its length, and then the sentence is part of the
    summary string. *)
Theorem summary_counts_are_list_lengths (set_to_list : list text -> list text)
  (txt : text) (topics : list text) (r : CriticalAnalyzer.report)
  (Hr : CriticalAnalyzer.analyze set_to_list txt topics = Some r) :
  let claims := CriticalAnalyzer.unsupported_claims r in
  let gaps := CriticalAnalyzer.logical_gaps r in
  let parts := CriticalAnalyzer.summary_parts txt claims gaps in
  CriticalAnalyzer.critical_summary r = PyStr.join (str " ") parts
  /\ (forall n, In (CriticalAnalyzer.claims_msg n) parts
                <-> claims <> [] /\ n = length claims)
  /\ (forall n, In (CriticalAnalyzer.gaps_msg n) parts
                <-> gaps <> [] /\ n = length gaps)
  /\ (claims <> [] ->
      Spec.occurs_in (CriticalAnalyzer.claims_msg (length claims))
                     (CriticalAnalyzer.critical_summary r))
  /\ (gaps <> [] ->
      Spec.occurs_in (CriticalAnalyzer.gaps_msg (length gaps))
                     (CriticalAnalyzer.critical_summary r)).
Proof.
  rewrite analyze_eq in Hr. injection Hr as <-.
  cbn [CriticalAnalyzer.unsupported_claims CriticalAnalyzer.logical_gaps
       CriticalAnalyzer.critical_summary].
  split; [reflexivity|].
  split; [intros n; apply claims_msg_in_parts|].
  split; [intros n; apply gaps_msg_in_parts|].
  split; intros Hne; apply in_join.
  - apply claims_msg_in_parts. auto.
  - apply gaps_msg_in_parts. auto.
Qed.

(** ** The theorems with hypotheses, at concrete inputs *)

Lemma report_bounds_witness :
  Spec.lists_each_once Spec.first_occurrence_order
  /\ exists r,
       CriticalAnalyzer.analyze Spec.first_occurrence_order
         (str "Studies show that AI research always wins. Some data")
         [str "Science"; str "Technology"] = Some r
       /\ length (CriticalAnalyzer.unsupported_claims r) <= 5
       /\ Forall (fun claim => length claim <= 153)
                 (CriticalAnalyzer.unsupported_claims r)
       /\ length (CriticalAnalyzer.logical_gaps r) <= 5
       /\ length (CriticalAnalyzer.related_topics r) <= 5
       /\ NoDup (CriticalAnalyzer.related_topics r).
Proof.
  split; [exact first_occurrence_order_ok|].
  exact (report_bounds Spec.first_occurrence_order first_occurrence_order_ok
           (str "Studies show that AI research always wins. Some data")
           [str "Science"; str "Technology"]).
Defined.

Lemma follow_up_questions_are_five_witness :
  (exists s,
      In s (PyStr.split_on "."%char
              (str "This sentence is clearly longer than thirty characters. Ok"))
      /\ 30 < length (PyStr.strip s))
  /\ exists questions,
       CriticalAnalyzer.generate_follow_up_questions
         (str "This sentence is clearly longer than thirty characters. Ok")
         [str "Technology"; str "Science"] = Some questions
       /\ length questions = 5.
Proof.
  assert (Hlong : exists s,
    In s (PyStr.split_on "."%char
            (str "This sentence is clearly longer than thirty characters. Ok"))
    /\ 30 < length (PyStr.strip s)).
  { exists (str "This sentence is clearly longer than thirty characters").
    split; [left; reflexivity|]. apply Nat.ltb_lt. reflexivity. }
  split; [exact Hlong|].
  exact (follow_up_questions_are_five _ [str "Technology"; str "Science"] Hlong).
Defined.

Lemma engine_is_total_witness :
  Spec.lists_each_once Spec.first_occurrence_order
  /\ CriticalAnalyzer.analyze Spec.first_occurrence_order [] []
     = Some (CriticalAnalyzer.Report [] []
               (str ("This article appears well-reasoned with supported arguments. "
                     ++ "The article may lack counterarguments or alternative perspectives. "
                     ++ "No academic citations were detected in the text."))
               CriticalAnalyzer.generic_questions []).
Proof.
  split; [exact first_occurrence_order_ok|].
  apply (engine_is_total Spec.first_occurrence_order first_occurrence_order_ok).
Defined.

Lemma summary_counts_are_list_lengths_witness :
  let txt := str "Experts say this will definitely work. " in
  exists r,
    CriticalAnalyzer.analyze Spec.first_occurrence_order txt [] = Some r
    /\ CriticalAnalyzer.unsupported_claims r
       = [str "Experts say this will definitely work"]
    /\ Spec.occurs_in (CriticalAnalyzer.claims_msg 1)
                      (CriticalAnalyzer.critical_summary r).
Proof.
  cbv zeta. eexists. split; [vm_compute; reflexivity|].
  split; [reflexivity|].
  apply (summary_counts_are_list_lengths Spec.first_occurrence_order
           (str "Experts say this will definitely work. ") [] _ eq_refl).
  discriminate.
Defined.

(** ** Splitting on whitespace and joining with spaces *)

Lemma split_ws_from_trailing (cur a : text) (w : ascii) :
  PyStr.is_space w = true ->
  PyStr.split_ws_from cur (a ++ [w]) = PyStr.split_ws_from cur a.
Proof.
  intros Hw. revert cur; induction a as [|c a IH]; intros cur; simpl.
  - rewrite Hw. now destruct cur.
  - destruct (PyStr.is_space c); [|apply IH].
    destruct cur; now rewrite IH.
Qed.

Lemma split_ws_from_app_space (cur a b : text) (w : ascii) :
  PyStr.is_space w = true ->
  PyStr.split_ws_from cur (a ++ w :: b)
  = PyStr.split_ws_from cur a ++ PyStr.split_ws b.
Proof.
  intros Hw. revert cur; induction a as [|c a IH]; intros cur; simpl.
  - rewrite Hw. now destruct cur.
  - destruct (PyStr.is_space c); [|apply IH].
    destruct cur; now rewrite IH.
Qed.

Lemma split_ws_app_space (a b : text) (w : ascii) :
  PyStr.is_space w = true ->
  PyStr.split_ws (a ++ w :: b) = PyStr.split_ws a ++ PyStr.split_ws b.
Proof. apply split_ws_from_app_space. Qed.

Lemma split_ws_from_word (cur w s : text) :
  Forall (fun c => PyStr.is_space c = false) w ->
  PyStr.split_ws_from cur (w ++ s) = PyStr.split_ws_from (rev w ++ cur) s.
Proof.
  intros Hw. revert cur; induction Hw as [|c w Hc Hw IH]; intros cur; simpl.
  - reflexivity.
  - rewrite Hc, IH. now rewrite <- app_assoc.
Qed.

Lemma split_ws_token (w : text) :
  TextSpec.is_token w -> PyStr.split_ws w = [w].
Proof.
  intros [Hne Hw]. unfold PyStr.split_ws.
  rewrite <- (app_nil_r w) at 1. rewrite split_ws_from_word by exact Hw.
  rewrite app_nil_r. simpl.
  destruct (rev w) eqn:E.
  - apply (f_equal (@rev ascii)) in E. rewrite rev_involutive in E. contradiction.
  - now rewrite <- E, rev_involutive.
Qed.

Lemma split_ws_from_tokens (s : text) :
  forall cur,
    Forall (fun c => PyStr.is_space c = false) cur ->
    Forall TextSpec.is_token (PyStr.split_ws_from cur s).
Proof.
  induction s as [|c s IH]; intros cur Hcur; simpl.
  - destruct cur as [|x cur]; constructor; [|constructor].
    split.
    + intros E. apply (f_equal (@length ascii)) in E.
      rewrite length_rev in E. discriminate.
    + now apply Forall_rev.
  - destruct (PyStr.is_space c) eqn:Hc.
    + destruct cur as [|x cur]; [now apply IH|].
      constructor; [|now apply IH]. split.
      * intros E. apply (f_equal (@length ascii)) in E.
        rewrite length_rev in E. discriminate.
      * now apply Forall_rev.
    + apply IH. now constructor.
Qed.

Lemma split_ws_tokens (s : text) : Forall TextSpec.is_token (PyStr.split_ws s).
Proof. apply split_ws_from_tokens. constructor. Qed.

Lemma split_ws_join (ws : list text) :
  Forall TextSpec.is_token ws ->
  PyStr.split_ws (PyStr.join (str " ") ws) = ws.
Proof.
  induction 1 as [|w ws Hw Hws IH]; [reflexivity|].
  destruct ws as [|w2 ws].
  - now apply split_ws_token.
  - change (PyStr.join (str " ") (w :: w2 :: ws))
      with (w ++ " "%char :: PyStr.join (str " ") (w2 :: ws)).
    rewrite split_ws_app_space by reflexivity.
    now rewrite IH, split_ws_token.
Qed.

Lemma join_snoc (sep : text) (xs : list text) (w : text) :
  xs <> [] ->
  PyStr.join sep (xs ++ [w]) = PyStr.join sep xs ++ sep ++ w.
Proof.
  induction xs as [|x xs IH]; [congruence|]. intros _.
  destruct xs as [|y xs].
  - reflexivity.
  - change (PyStr.join sep ((x :: y :: xs) ++ [w]))
      with (x ++ sep ++ PyStr.join sep ((y :: xs) ++ [w])).
    rewrite IH by discriminate.
    change (PyStr.join sep (x :: y :: xs))
      with (x ++ sep ++ PyStr.join sep (y :: xs)).
    now rewrite <- !app_assoc.
Qed.

Lemma join_app (sep : text) (xs ys : list text) :
  xs <> [] -> ys <> [] ->
  PyStr.join sep (xs ++ ys) = PyStr.join sep xs ++ sep ++ PyStr.join sep ys.
Proof.
  intros Hx Hy. revert xs Hx. induction ys as [|y ys IH]; [congruence|].
  intros xs Hx. destruct ys as [|z ys].
  - now apply join_snoc.
  - change (xs ++ y :: z :: ys) with (xs ++ [y] ++ z :: ys).
    rewrite app_assoc, IH; [|discriminate|now destruct xs].
    rewrite join_snoc by exact Hx.
    change (PyStr.join sep (y :: z :: ys))
      with (y ++ sep ++ PyStr.join sep (z :: ys)).
    now rewrite <- !app_assoc.
Qed.

Lemma rev_join (sep : text) (xs : list text) :
  rev (PyStr.join sep xs) = PyStr.join (rev sep) (map (@rev ascii) (rev xs)).
Proof.
  induction xs as [|x xs IH]; [reflexivity|].
  destruct xs as [|y xs].
  - reflexivity.
  - change (PyStr.join sep (x :: y :: xs))
      with (x ++ sep ++ PyStr.join sep (y :: xs)).
    rewrite !rev_app_distr, IH.
    change (rev (x :: y :: xs)) with (rev (y :: xs) ++ [x]).
    rewrite map_app. cbn [map].
    rewrite join_snoc; [now rewrite <- app_assoc|].
    intros E. apply map_eq_nil in E.
    apply (f_equal (@length text)) in E. rewrite length_rev in E. discriminate.
Qed.

Lemma join_starts_clean (sep : text) (ws : list text) :
  Forall TextSpec.is_token ws -> TextSpec.starts_clean (PyStr.join sep ws).
Proof.
  intros H. destruct H as [|w ws [Hne Hw] Hws]; [exact I|].
  destruct Hw as [|c w Hc Hw]; [congruence|].
  destruct ws; exact Hc.
Qed.

Lemma token_rev (w : text) : TextSpec.is_token w -> TextSpec.is_token (rev w).
Proof.
  intros [Hne Hw]. split.
  - intros E. apply (f_equal (@rev ascii)) in E.
    rewrite rev_involutive in E. contradiction.
  - now apply Forall_rev.
Qed.

Lemma join_tokens_trimmed (sep : text) (ws : list text) :
  Forall TextSpec.is_token ws -> TextSpec.trimmed (PyStr.join sep ws).
Proof.
  intros H. split; [now apply join_starts_clean|].
  rewrite rev_join. apply join_starts_clean.
  apply Forall_map, Forall_rev.
  eapply Forall_impl; [|exact H]. apply token_rev.
Qed.

(** ** Trimming *)

Lemma lstrip_clean (s : text) : TextSpec.starts_clean s -> PyStr.lstrip s = s.
Proof. destruct s as [|c s]; simpl; [reflexivity|]. now intros ->. Qed.

Lemma lstrip_starts_clean (s : text) : TextSpec.starts_clean (PyStr.lstrip s).
Proof.
  induction s as [|c s IH]; simpl; [exact I|].
  destruct (PyStr.is_space c) eqn:Hc; [exact IH|exact Hc].
Qed.

Lemma lstrip_suffix (s : text) :
  exists sp, s = sp ++ PyStr.lstrip s
             /\ Forall (fun c => PyStr.is_space c = true) sp.
Proof.
  induction s as [|c s (sp & E & Hsp)]; simpl.
  - now exists [].
  - destruct (PyStr.is_space c) eqn:Hc.
    + exists (c :: sp). split; [now rewrite E at 1|now constructor].
    + now exists [].
Qed.

Lemma strip_trimmed_id (s : text) : TextSpec.trimmed s -> PyStr.strip s = s.
Proof.
  intros [H1 H2]. unfold PyStr.strip, PyStr.rstrip.
  rewrite (lstrip_clean s H1), (lstrip_clean (rev s) H2).
  apply rev_involutive.
Qed.

Lemma rstrip_starts_clean (s : text) :
  TextSpec.starts_clean s -> TextSpec.starts_clean (PyStr.rstrip s).
Proof.
  intros Hs. unfold PyStr.rstrip.
  destruct (lstrip_suffix (rev s)) as (sp & E & Hsp).
  apply (f_equal (@rev ascii)) in E.
  rewrite rev_involutive, rev_app_distr in E.
  destruct (rev (PyStr.lstrip (rev s))) as [|c r]; [exact I|].
  rewrite E in Hs. exact Hs.
Qed.

Lemma strip_is_trimmed (s : text) : TextSpec.trimmed (PyStr.strip s).
Proof.
  unfold PyStr.strip. split.
  - apply rstrip_starts_clean, lstrip_starts_clean.
  - unfold PyStr.rstrip. rewrite rev_involutive. apply lstrip_starts_clean.
Qed.

Lemma strip_idempotent (s : text) : PyStr.strip (PyStr.strip s) = PyStr.strip s.
Proof. apply strip_trimmed_id, strip_is_trimmed. Qed.

Lemma Forall_lstrip (P : ascii -> Prop) (s : text) :
  Forall P s -> Forall P (PyStr.lstrip s).
Proof.
  intros H. destruct (lstrip_suffix s) as (sp & E & _).
  rewrite E in H. now apply Forall_app in H.
Qed.

Lemma Forall_strip (P : ascii -> Prop) (s : text) :
  Forall P s -> Forall P (PyStr.strip s).
Proof.
  intros H. unfold PyStr.strip, PyStr.rstrip.
  now apply Forall_rev, Forall_lstrip, Forall_rev, Forall_lstrip.
Qed.

Lemma lstrip_length (s : text) : length (PyStr.lstrip s) <= length s.
Proof.
  destruct (lstrip_suffix s) as (sp & E & _).
  rewrite E at 2. rewrite length_app. lia.
Qed.

Lemma strip_length (s : text) : length (PyStr.strip s) <= length s.
Proof.
  unfold PyStr.strip, PyStr.rstrip. rewrite length_rev.
  pose proof (lstrip_length (rev (PyStr.lstrip s))) as H.
  rewrite length_rev in H. pose proof (lstrip_length s). lia.
Qed.

(** ** Whitespace normalisation *)

Lemma Forall_join (P : ascii -> Prop) (sep : text) (ws : list text) :
  Forall P sep -> Forall (Forall P) ws -> Forall P (PyStr.join sep ws).
Proof.
  intros Hsep H. induction H as [|w ws Hw Hws IH]; [constructor|].
  destruct ws as [|w2 ws]; [exact Hw|].
  change (PyStr.join sep (w :: w2 :: ws))
    with (w ++ sep ++ PyStr.join sep (w2 :: ws)).
  apply Forall_app. split; [exact Hw|]. apply Forall_app. now split.
Qed.

Lemma Forall_split_ws_from (P : ascii -> Prop) (s : text) :
  forall cur,
    Forall P cur -> Forall P s -> Forall (Forall P) (PyStr.split_ws_from cur s).
Proof.
  induction s as [|c s IH]; intros cur Hcur Hs; simpl.
  - destruct cur; constructor; [now apply Forall_rev|constructor].
  - inversion Hs as [|? ? Hc Hs']; subst.
    destruct (PyStr.is_space c).
    + destruct cur as [|x cur]; [now apply IH|].
      constructor; [now apply Forall_rev|]. apply IH; [constructor|exact Hs'].
    + apply IH; [now constructor|exact Hs'].
Qed.

Lemma Forall_normalize_ws (P : ascii -> Prop) (s : text) :
  P " "%char -> Forall P s -> Forall P (TextProcessing.normalize_ws s).
Proof.
  intros Hsp Hs. apply Forall_join.
  - now constructor.
  - apply Forall_split_ws_from; [constructor|exact Hs].
Qed.

Lemma join_space_length (ws : list text) :
  length (PyStr.join (str " ") ws)
  + (match ws with [] => 0 | _ => 1 end)
  = list_sum (map (fun w : text => S (length w)) ws).
Proof.
  induction ws as [|w ws IH]; [reflexivity|].
  destruct ws as [|w2 ws].
  - simpl. lia.
  - change (PyStr.join (str " ") (w :: w2 :: ws))
      with (w ++ " "%char :: PyStr.join (str " ") (w2 :: ws)).
    set (rest := PyStr.join (str " ") (w2 :: ws)) in *.
    rewrite length_app. simpl in *. lia.
Qed.

Lemma split_ws_from_cost (s : text) :
  forall cur,
    list_sum (map (fun w : text => S (length w)) (PyStr.split_ws_from cur s))
    <= length s + length cur + 1.
Proof.
  induction s as [|c s IH]; intros cur; simpl.
  - destruct cur; simpl; [lia|]. rewrite length_app, length_rev. simpl. lia.
  - destruct (PyStr.is_space c).
    + destruct cur as [|x cur].
      * specialize (IH []). simpl in IH. lia.
      * specialize (IH []). cbn [map list_sum]. simpl in *.
        rewrite length_app, length_rev. simpl. lia.
    + specialize (IH (c :: cur)). simpl in IH. lia.
Qed.

Lemma normalize_ws_length (s : text) :
  length (TextProcessing.normalize_ws s) <= length s.
Proof.
  unfold TextProcessing.normalize_ws, PyStr.split_ws.
  pose proof (join_space_length (PyStr.split_ws_from [] s)) as Hj.
  pose proof (split_ws_from_cost s []) as Hc. simpl in Hc.
  destruct (PyStr.split_ws_from [] s); simpl in *; lia.
Qed.

Lemma token_no_space_plain (w : text) :
  TextSpec.is_token w -> TextSpec.plain_spaces w.
Proof.
  intros [_ Hw]. eapply Forall_impl; [|exact Hw].
  intros c Hc Hs. congruence.
Qed.

Lemma normalize_ws_tokens (txt : text) :
  PyStr.split_ws (TextProcessing.normalize_ws txt) = PyStr.split_ws txt.
Proof. apply split_ws_join, split_ws_tokens. Qed.

Lemma normalize_ws_trimmed (txt : text) :
  PyStr.strip (TextProcessing.normalize_ws txt) = TextProcessing.normalize_ws txt.
Proof. apply strip_trimmed_id, join_tokens_trimmed, split_ws_tokens. Qed.

Lemma normalize_ws_plain (txt : text) :
  TextSpec.plain_spaces (TextProcessing.normalize_ws txt).
Proof.
  apply Forall_join.
  - constructor; [reflexivity|constructor].
  - eapply Forall_impl; [|apply split_ws_tokens]. apply token_no_space_plain.
Qed.

(** X1. The whitespace normalisation [' '.join(text.split())] keeps the
    tokens of the text and their order, leaves no whitespace at either end
    and no whitespace but single plain spaces, never lengthens the text, and
    changes nothing when applied again. *)
Theorem normalize_ws_canonical (txt : text) :
  let out := TextProcessing.normalize_ws txt in
  PyStr.split_ws out = PyStr.split_ws txt
  /\ TextProcessing.normalize_ws out = out
  /\ PyStr.strip out = out
  /\ TextSpec.plain_spaces out
  /\ length out <= length txt.
Proof.
  cbv zeta. split; [apply normalize_ws_tokens|].
  split.
  - unfold TextProcessing.normalize_ws at 1 3.
    f_equal. apply normalize_ws_tokens.
  - split; [apply normalize_ws_trimmed|].
    split; [apply normalize_ws_plain|apply normalize_ws_length].
Qed.

(** ** [clean_text] *)

Lemma filter_all {A : Type} (f : A -> bool) (xs : list A) :
  Forall (fun x => f x = true) xs -> filter f xs = xs.
Proof.
  induction 1 as [|x xs Hx Hxs IH]; simpl; [reflexivity|].
  now rewrite Hx, IH.
Qed.

Lemma filter_Forall {A : Type} (f : A -> bool) (xs : list A) :
  Forall (fun x => f x = true) (filter f xs).
Proof.
  apply Forall_forall. intros x H. now apply filter_In in H.
Qed.

Lemma Forall_filter_keep {A : Type} (P : A -> Prop) (f : A -> bool)
  (xs : list A) : Forall P xs -> Forall P (filter f xs).
Proof.
  rewrite !Forall_forall. intros H x Hx. apply filter_In in Hx. now apply H.
Qed.

Lemma clean_text_kept (txt : text) :
  Forall (fun c => TextProcessing.kept_char c = true)
         (TextProcessing.clean_text txt).
Proof. apply Forall_strip, filter_Forall. Qed.

(** X2. The cleaned text holds only characters of the kept class (word
    characters, whitespace and the listed punctuation), its only whitespace
    is the plain space, it neither begins nor ends with whitespace, and it is
    never longer than the input. *)
Theorem clean_text_invariants (txt : text) :
  let out := TextProcessing.clean_text txt in
  Forall (fun c => TextProcessing.kept_char c = true) out
  /\ TextSpec.plain_spaces out
  /\ TextSpec.trimmed out
  /\ length out <= length txt.
Proof.
  cbv zeta. repeat split.
  - apply clean_text_kept.
  - apply Forall_strip, Forall_filter_keep.
    apply normalize_ws_plain.
  - apply strip_is_trimmed.
  - apply strip_is_trimmed.
  - unfold TextProcessing.clean_text.
    etransitivity; [apply strip_length|].
    etransitivity; [apply filter_length_le|]. apply normalize_ws_length.
Qed.

(** X3. Cleaning is not idempotent: deleting a character that stood alone
    between two spaces leaves a double space, as in "a @ b", which a second
    cleaning collapses.  A second cleaning only normalises the whitespace of
    the first, and a third changes nothing more. *)
Theorem clean_text_twice (txt : text) :
  let once := TextProcessing.clean_text txt in
  let twice := TextProcessing.clean_text once in
  twice = TextProcessing.normalize_ws once
  /\ TextProcessing.clean_text twice = twice
  /\ TextProcessing.clean_text (str "a @ b") = str "a  b"
  /\ TextProcessing.clean_text (str "a  b") = str "a b".
Proof.
  cbv zeta.
  assert (Htwice : forall u,
    Forall (fun c => TextProcessing.kept_char c = true) u ->
    TextProcessing.clean_text u = TextProcessing.normalize_ws u).
  { intros u Hu. unfold TextProcessing.clean_text.
    rewrite filter_all by (now apply Forall_normalize_ws).
    apply normalize_ws_trimmed. }
  split; [apply Htwice, clean_text_kept|].
  split; [|split; reflexivity].
  rewrite (Htwice (TextProcessing.clean_text txt)) by apply clean_text_kept.
  rewrite Htwice.
  - unfold TextProcessing.normalize_ws at 1 3.
    f_equal. apply normalize_ws_tokens.
  - apply Forall_normalize_ws; [reflexivity|apply clean_text_kept].
Qed.

(** ** [truncate_text] *)

(** X4. When the suffix fits in [max_length], the truncated text is never
    longer than [max_length]; a text that was too long comes back with
    exactly [max_length] characters: its first [max_length - len(suffix)]
    ones followed by the suffix. *)
Theorem truncate_text_within_bound (txt suffix : text) (max_length : Z)
  (Hfit : (Z.of_nat (length suffix) <= max_length)%Z) :
  let out := TextProcessing.truncate_text txt max_length suffix in
  (Z.of_nat (length out) <= max_length)%Z
  /\ ((Z.of_nat (length txt) <= max_length)%Z -> out = txt)
  /\ ((max_length < Z.of_nat (length txt))%Z ->
      Z.of_nat (length out) = max_length
      /\ out = firstn (Z.to_nat max_length - length suffix) txt ++ suffix).
Proof.
  cbv zeta. unfold TextProcessing.truncate_text, PySeq.slice_to.
  destruct (Z.leb_spec (Z.of_nat (length txt)) max_length) as [Hle|Hgt].
  - split; [exact Hle|]. split; [reflexivity|lia].
  - destruct (Z.leb_spec 0 (max_length - Z.of_nat (length suffix))) as [_|H];
      [|lia].
    replace (Z.to_nat (max_length - Z.of_nat (length suffix)))
      with (Z.to_nat max_length - length suffix) by lia.
    assert (Hlen : length (firstn (Z.to_nat max_length - length suffix) txt
                           ++ suffix) = Z.to_nat max_length).
    { rewrite length_app, length_firstn. lia. }
    split; [lia|]. split; [lia|]. intros _. split; [lia|reflexivity].
Qed.

(** X5. When [max_length] is smaller than the length of the suffix, a text
    longer than [max_length] is not cut to [max_length]: the negative slice
    bound only takes [len(suffix) - max_length] characters off its end before
    the suffix is added, so the result is longer than [max_length]. *)
Theorem truncate_text_short_bound (txt suffix : text) (max_length : Z)
  (Hshort : (max_length < Z.of_nat (length suffix))%Z)
  (Hlong : (max_length < Z.of_nat (length txt))%Z) :
  let out := TextProcessing.truncate_text txt max_length suffix in
  out = firstn (length txt - Z.to_nat (Z.of_nat (length suffix) - max_length))
               txt ++ suffix
  /\ (max_length < Z.of_nat (length out))%Z.
Proof.
  cbv zeta. unfold TextProcessing.truncate_text, PySeq.slice_to.
  destruct (Z.leb_spec (Z.of_nat (length txt)) max_length) as [Hle|_]; [lia|].
  destruct (Z.leb_spec 0 (max_length - Z.of_nat (length suffix))) as [H|_];
    [lia|].
  replace (Z.to_nat (Z.of_nat (length txt)
                     + (max_length - Z.of_nat (length suffix))))
    with (length txt - Z.to_nat (Z.of_nat (length suffix) - max_length))
    by lia.
  split; [reflexivity|]. rewrite length_app. lia.
Qed.

(** ** [extract_sentences] *)

Lemma split_runs_from_nonempty (delim : ascii -> bool) (s : text) (r : bool) :
  TextProcessing.split_runs_from delim r s <> [].
Proof.
  revert r; induction s as [|c s IH]; intros r; simpl; [discriminate|].
  destruct (delim c).
  - destruct r; [apply IH|discriminate].
  - destruct (TextProcessing.split_runs_from delim false s); discriminate.
Qed.

Lemma split_runs_from_free (delim : ascii -> bool) (s : text) (r : bool) :
  Forall (Forall (fun c => delim c = false))
         (TextProcessing.split_runs_from delim r s).
Proof.
  revert r; induction s as [|c s IH]; intros r; simpl.
  - repeat constructor.
  - destruct (delim c) eqn:Hc.
    + destruct r; [apply IH|constructor; [constructor|apply IH]].
    + specialize (IH false).
      destruct (TextProcessing.split_runs_from delim false s) as [|cur rest].
      * repeat constructor. exact Hc.
      * inversion IH; subst. constructor; [now constructor|assumption].
Qed.

Lemma sentences_of_app (xs ys : list text) :
  SentenceSpec.sentences_of (xs ++ ys)
  = SentenceSpec.sentences_of xs ++ SentenceSpec.sentences_of ys.
Proof. unfold SentenceSpec.sentences_of. now rewrite filter_app, map_app. Qed.

Lemma sentences_of_cons (x : text) (xs : list text) :
  SentenceSpec.sentences_of (x :: xs)
  = SentenceSpec.sentences_of [x] ++ SentenceSpec.sentences_of xs.
Proof. apply (sentences_of_app [x] xs). Qed.

Lemma sentences_of_in_run (delim : ascii -> bool) (s : text) :
  SentenceSpec.sentences_of (TextProcessing.split_runs_from delim true s)
  = SentenceSpec.sentences_of (TextProcessing.split_runs_from delim false s).
Proof. destruct s as [|c s]; simpl; [reflexivity|]. now destruct (delim c). Qed.

Lemma split_runs_from_across (delim : ascii -> bool) (d : ascii) (b : text) :
  delim d = true ->
  forall a,
    (exists h t1 t2,
        TextProcessing.split_runs_from delim false (a ++ d :: b) = h :: t1
        /\ TextProcessing.split_runs_from delim false a = h :: t2
        /\ SentenceSpec.sentences_of t1
           = SentenceSpec.sentences_of t2
             ++ SentenceSpec.sentences_of
                  (TextProcessing.split_runs_from delim true b))
    /\ SentenceSpec.sentences_of
         (TextProcessing.split_runs_from delim true (a ++ d :: b))
       = SentenceSpec.sentences_of (TextProcessing.split_runs_from delim true a)
         ++ SentenceSpec.sentences_of
              (TextProcessing.split_runs_from delim true b).
Proof.
  intros Hd. induction a as [|c a [(h & t1 & t2 & E1 & E2 & Ht) IHtrue]].
  - simpl. rewrite Hd. split; [|reflexivity].
    exists [], (TextProcessing.split_runs_from delim true b), []. auto.
  - cbn [app TextProcessing.split_runs_from]. destruct (delim c) eqn:Hc.
    + split; [|exact IHtrue].
      exists [], (TextProcessing.split_runs_from delim true (a ++ d :: b)),
        (TextProcessing.split_runs_from delim true a). auto.
    + rewrite E1, E2. cbv iota beta. split.
      * exists (c :: h), t1, t2. auto.
      * etransitivity; [apply (sentences_of_cons (c :: h) t1)|].
        rewrite Ht, app_assoc. f_equal. symmetry.
        apply (sentences_of_cons (c :: h) t2).
Qed.

Lemma Forall_slice_to {A : Type} (P : A -> Prop) (xs : list A) (k : Z) :
  Forall P xs -> Forall P (PySeq.slice_to xs k).
Proof. intros H. unfold PySeq.slice_to. destruct (0 <=? k)%Z; now apply Forall_firstn. Qed.

Lemma sentences_of_wellformed (delim : ascii -> bool) (pieces : list text) :
  Forall (Forall (fun c => delim c = false)) pieces ->
  Forall (fun s => s <> [] /\ TextSpec.trimmed s
                   /\ Forall (fun c => delim c = false) s)
         (SentenceSpec.sentences_of pieces).
Proof.
  intros H. unfold SentenceSpec.sentences_of.
  apply Forall_forall. intros s Hs.
  apply in_map_iff in Hs as (p & <- & Hp).
  apply filter_In in Hp as [Hp Hne].
  rewrite Forall_forall in H. repeat split.
  - intros E. rewrite E in Hne. discriminate.
  - apply strip_is_trimmed.
  - apply strip_is_trimmed.
  - apply Forall_strip. now apply H.
Qed.

(** X6. Every sentence [extract_sentences] returns is not empty, neither
    begins nor ends with whitespace and holds none of the marks . ! ?.  A
    limit of 0 is taken for no limit and returns all the sentences; a
    positive limit [n] returns the first [n] of them. *)
Theorem extract_sentences_wellformed (txt : text) (max_sentences : option Z) :
  let every := TextProcessing.extract_sentences txt None in
  Forall (fun s => s <> [] /\ TextSpec.trimmed s
                   /\ Forall (fun c => TextProcessing.sentence_end c = false) s)
         (TextProcessing.extract_sentences txt max_sentences)
  /\ TextProcessing.extract_sentences txt (Some 0%Z) = every
  /\ (forall n, (0 < n)%Z ->
        TextProcessing.extract_sentences txt (Some n)
        = firstn (Z.to_nat n) every
        /\ length (TextProcessing.extract_sentences txt (Some n))
           = Nat.min (Z.to_nat n) (length every)).
Proof.
  cbv zeta.
  assert (Hall : Forall (fun s => s <> [] /\ TextSpec.trimmed s
      /\ Forall (fun c => TextProcessing.sentence_end c = false) s)
      (TextProcessing.extract_sentences txt None)).
  { apply (sentences_of_wellformed TextProcessing.sentence_end).
    apply split_runs_from_free. }
  split; [|split].
  - destruct max_sentences as [n|]; [|exact Hall].
    unfold TextProcessing.extract_sentences.
    destruct (n =? 0)%Z; [exact Hall|]. now apply Forall_slice_to.
  - reflexivity.
  - intros n Hn. unfold TextProcessing.extract_sentences, PySeq.slice_to.
    destruct (Z.eqb_spec n 0) as [E|_]; [lia|].
    destruct (Z.leb_spec 0 n) as [_|H]; [|lia].
    split; [reflexivity|apply length_firstn].
Qed.

(** X7. The sentences of two texts joined by one of the marks . ! ? are
    the sentences of the first followed by those of the second. *)
Theorem extract_sentences_across_mark (a b : text) (d : ascii)
  (Hd : TextProcessing.sentence_end d = true) :
  TextProcessing.extract_sentences (a ++ d :: b) None
  = TextProcessing.extract_sentences a None
    ++ TextProcessing.extract_sentences b None.
Proof.
  unfold TextProcessing.extract_sentences, TextProcessing.split_runs.
  fold (SentenceSpec.sentences_of
          (TextProcessing.split_runs_from TextProcessing.sentence_end false
             (a ++ d :: b))).
  fold (SentenceSpec.sentences_of
          (TextProcessing.split_runs_from TextProcessing.sentence_end false a)).
  fold (SentenceSpec.sentences_of
          (TextProcessing.split_runs_from TextProcessing.sentence_end false b)).
  destruct (split_runs_from_across TextProcessing.sentence_end d b Hd a)
    as [(h & t1 & t2 & E1 & E2 & Ht) _].
  rewrite E1, E2.
  etransitivity; [apply (sentences_of_cons h t1)|].
  rewrite Ht, sentences_of_in_run, app_assoc. f_equal. symmetry.
  apply (sentences_of_cons h t2).
Qed.

(** ** [count_words] *)

Lemma split_ws_from_nil (s cur : text) :
  PyStr.split_ws_from cur s = []
  <-> cur = [] /\ Forall (fun c => PyStr.is_space c = true) s.
Proof.
  revert cur; induction s as [|c s IH]; intros cur; simpl.
  - destruct cur; split; try discriminate; auto.
    + intros [E _]. discriminate.
  - destruct (PyStr.is_space c) eqn:Hc.
    + destruct cur as [|x cur].
      * rewrite IH. split; intros [E H]; split; auto.
        now inversion H.
      * split; [discriminate|]. intros [E _]. discriminate.
    + rewrite IH. split; [intros [E _]; discriminate|].
      intros [_ H]. inversion H; congruence.
Qed.

(** X8. The word count of two texts joined by a whitespace character is
    the sum of their word counts; whitespace normalisation keeps the word
    count; and the count is 0 exactly for a text of whitespace only. *)
Theorem count_words_additive :
  (forall a b w, PyStr.is_space w = true ->
      TextProcessing.count_words (a ++ w :: b)
      = TextProcessing.count_words a + TextProcessing.count_words b)
  /\ (forall txt,
        TextProcessing.count_words (TextProcessing.normalize_ws txt)
        = TextProcessing.count_words txt)
  /\ (forall txt,
        TextProcessing.count_words txt = 0
        <-> Forall (fun c => PyStr.is_space c = true) txt).
Proof.
  unfold TextProcessing.count_words. split; [|split].
  - intros a b w Hw. now rewrite split_ws_app_space, length_app.
  - intros txt. f_equal. apply normalize_ws_tokens.
  - intros txt. rewrite length_zero_iff_nil. unfold PyStr.split_ws.
    rewrite split_ws_from_nil. tauto.
Qed.

(** ** Splitting on a character and joining again *)

Lemma join_cons_head (sep w : text) (c : ascii) (ws : list text) :
  PyStr.join sep ((c :: w) :: ws) = c :: PyStr.join sep (w :: ws).
Proof. destruct ws; reflexivity. Qed.

Lemma join_split_on (sep : ascii) (s : text) :
  PyStr.join [sep] (PyStr.split_on sep s) = s.
Proof.
  induction s as [|c s IH]; [reflexivity|]. simpl PyStr.split_on.
  destruct (Ascii.eqb_spec c sep) as [->|_].
  - pose proof (split_on_nonempty sep s) as Hne.
    destruct (PyStr.split_on sep s) as [|p ps]; [congruence|].
    change (PyStr.join [sep] ([] :: p :: ps))
      with (sep :: PyStr.join [sep] (p :: ps)).
    now rewrite IH.
  - pose proof (split_on_nonempty sep s) as Hne.
    destruct (PyStr.split_on sep s) as [|p ps]; [congruence|].
    now rewrite join_cons_head, IH.
Qed.

Lemma split_on_free (sep : ascii) (s : text) :
  Forall (Forall (fun c => c <> sep)) (PyStr.split_on sep s).
Proof.
  induction s as [|c s IH]; simpl; [repeat constructor|].
  destruct (Ascii.eqb_spec c sep) as [->|Hc].
  - constructor; [constructor|exact IH].
  - destruct (PyStr.split_on sep s) as [|p ps]; [repeat constructor; exact Hc|].
    inversion IH; subst. constructor; [now constructor|assumption].
Qed.

(** ** [DocumentAnalyzer.summarize] *)

(** X9. When the summarisation model fails, the summary is made from the
    text, cut to [max_text_length] when longer: a text with at most two dots
    comes back whole with one more dot added, also when it already ends in
    one; a text with three dots or more comes back cut just after its third
    dot. *)
Theorem summarize_fallback (max_text_length : Z)
  (summarizer : text -> option text) (txt : text)
  (Hfail : summarizer
             (if (max_text_length <? Z.of_nat (length txt))%Z
              then PySeq.slice_to txt max_text_length else txt) = None) :
  let u := if (max_text_length <? Z.of_nat (length txt))%Z
           then PySeq.slice_to txt max_text_length else txt in
  let out := DocumentAnalyzerML.summarize max_text_length summarizer txt in
  (length (PyStr.split_on "."%char u) <= 3 -> out = u ++ str ".")
  /\ (3 < length (PyStr.split_on "."%char u) ->
      exists p1 p2 p3 rest,
        Forall (Forall (fun c => c <> "."%char)) [p1; p2; p3]
        /\ out = p1 ++ str "." ++ p2 ++ str "." ++ p3 ++ str "."
        /\ u = out ++ rest).
Proof.
  unfold DocumentAnalyzerML.summarize. cbv zeta.
  match goal with
  | |- context [summarizer ?x] => set (u := x) in *
  end.
  change (summarizer u = None) in Hfail. rewrite Hfail.
  change (if (max_text_length <? Z.of_nat (length txt))%Z
          then PySeq.slice_to txt max_text_length else txt) with u.
  change (PySeq.slice_to (PyStr.split_on "."%char u) 3)
    with (firstn 3 (PyStr.split_on "."%char u)).
  pose proof (join_split_on "."%char u) as Hjoin.
  pose proof (split_on_free "."%char u) as Hfree.
  destruct (PyStr.split_on "."%char u) as [|p1 [|p2 [|p3 [|p4 more]]]];
    cbn [length firstn]; (split; [intros Hle|intros Hgt]); try lia.
  - discriminate Hjoin || (now rewrite <- Hjoin).
  - change (str ".") with ["."%char]. now rewrite Hjoin.
  - change (str ".") with ["."%char]. now rewrite Hjoin.
  - change (str ".") with ["."%char]. now rewrite Hjoin.
  - exists p1, p2, p3, (PyStr.join ["."%char] (p4 :: more)). split; [|split].
    + inversion Hfree as [|? ? H1 Hf1]; subst.
      inversion Hf1 as [|? ? H2 Hf2]; subst.
      inversion Hf2 as [|? ? H3 _]; subst. repeat constructor; assumption.
    + change (str ".") with ["."%char]. simpl.
      repeat (rewrite <- app_assoc; simpl). reflexivity.
    + rewrite <- Hjoin at 1.
      change (p1 :: p2 :: p3 :: p4 :: more)
        with ([p1; p2; p3] ++ p4 :: more).
      rewrite join_app by discriminate.
      change (str ".") with ["."%char]. now rewrite <- !app_assoc.
Qed.

(** ** Letter case and the difficulty *)

Lemma lower_char_space (c : ascii) :
  PyStr.is_space (PyStr.lower_char c) = PyStr.is_space c.
Proof. destruct c as [[] [] [] [] [] [] [] []]; reflexivity. Qed.

Lemma lower_char_dot (c : ascii) :
  Ascii.eqb (PyStr.lower_char c) "."%char = Ascii.eqb c "."%char.
Proof. destruct c as [[] [] [] [] [] [] [] []]; reflexivity. Qed.

Lemma lower_char_idempotent (c : ascii) :
  PyStr.lower_char (PyStr.lower_char c) = PyStr.lower_char c.
Proof. destruct c as [[] [] [] [] [] [] [] []]; reflexivity. Qed.

Lemma lower_idempotent (s : text) : PyStr.lower (PyStr.lower s) = PyStr.lower s.
Proof.
  unfold PyStr.lower. rewrite map_map. apply map_ext.
  apply lower_char_idempotent.
Qed.

Lemma split_ws_from_map (f : ascii -> ascii) (s : text) :
  (forall c, PyStr.is_space (f c) = PyStr.is_space c) ->
  forall cur,
    PyStr.split_ws_from (map f cur) (map f s)
    = map (map f) (PyStr.split_ws_from cur s).
Proof.
  intros Hf. induction s as [|c s IH]; intros cur;
    cbn [PyStr.split_ws_from map].
  - destruct cur as [|x cur]; [reflexivity|].
    change (rev (map f (x :: cur)) :: [] = [map f (rev (x :: cur))]).
    now rewrite map_rev.
  - rewrite Hf. destruct (PyStr.is_space c).
    + destruct cur as [|x cur].
      * apply (IH []).
      * change (rev (map f (x :: cur)) :: PyStr.split_ws_from [] (map f s)
                = map f (rev (x :: cur))
                  :: map (map f) (PyStr.split_ws_from [] s)).
        rewrite map_rev. f_equal. apply (IH []).
    + apply (IH (c :: cur)).
Qed.

Lemma split_on_map (f : ascii -> ascii) (sep : ascii) (s : text) :
  (forall c, Ascii.eqb (f c) sep = Ascii.eqb c sep) ->
  PyStr.split_on sep (map f s) = map (map f) (PyStr.split_on sep s).
Proof.
  intros Hf. induction s as [|c s IH]; simpl; [reflexivity|].
  rewrite Hf, IH. destruct (Ascii.eqb c sep); [reflexivity|].
  now destruct (PyStr.split_on sep s).
Qed.

Lemma sum_len_map (f : ascii -> ascii) (ws : list text) :
  DocumentAnalyzer.sum_len (map (map f) ws) = DocumentAnalyzer.sum_len ws.
Proof.
  rewrite !sum_len_list_sum, map_map. f_equal. apply map_ext.
  intros w. apply length_map.
Qed.

Lemma split_ws_lower (txt : text) :
  PyStr.split_ws (PyStr.lower txt) = map PyStr.lower (PyStr.split_ws txt).
Proof. apply (split_ws_from_map PyStr.lower_char txt lower_char_space []). Qed.

Lemma split_on_dot_lower (txt : text) :
  PyStr.split_on "."%char (PyStr.lower txt)
  = map PyStr.lower (PyStr.split_on "."%char txt).
Proof. apply (split_on_map PyStr.lower_char "."%char txt lower_char_dot). Qed.

Lemma assess_difficulty_lower (txt : text) :
  DocumentAnalyzer.assess_difficulty (PyStr.lower txt)
  = DocumentAnalyzer.assess_difficulty txt.
Proof.
  unfold DocumentAnalyzer.assess_difficulty. cbv zeta.
  rewrite lower_idempotent, split_ws_lower, split_on_dot_lower.
  unfold DocumentAnalyzer.avg_word_length, DocumentAnalyzer.avg_sentence_length.
  unfold PyStr.lower at 2 3 4 5. rewrite sum_len_map, !length_map.
  destruct (PyStr.split_ws txt), (PyStr.split_on "."%char txt); reflexivity.
Qed.


(** ** [DocumentAnalyzer.analyze] *)

Lemma slice_to_length {A : Type} (xs : list A) (k : Z) :
  (0 <= k)%Z -> length (PySeq.slice_to xs k) <= Z.to_nat k.
Proof.
  intros Hk. unfold PySeq.slice_to.
  destruct (Z.leb_spec 0 k); [|lia]. rewrite length_firstn. lia.
Qed.

(** X11. The analysis never fails, whatever the three models do: it
    returns a record whose difficulty is one of the three levels and whose
    topics are at most three; when the classifier fails the topics are
    ["General"], when the sentiment model fails the sentiment is "neutral"
    with confidence 0.5, and the label of a sentiment that was computed is
    lowercased. *)
Theorem analyze_survives_models (score : Type) (half : score)
  (max_text_length : Z) (summarizer : text -> option text)
  (classifier : text -> option (list text))
  (sentiment_model : text -> option (text * score)) (txt : text) :
  exists r,
    DocumentAnalyzerML.analyze score half max_text_length summarizer
      classifier sentiment_model txt = Some r
    /\ In (DocumentAnalyzerML.difficulty r) Spec.LEVELS
    /\ length (DocumentAnalyzerML.topics r) <= 3
    /\ (classifier (PySeq.slice_to txt 1000) = None ->
        DocumentAnalyzerML.topics r = [str "General"])
    /\ (sentiment_model (PySeq.slice_to txt 2000) = None ->
        DocumentAnalyzerML.sentiment r = (str "neutral", half))
    /\ (forall label confidence,
          sentiment_model (PySeq.slice_to txt 2000) = Some (label, confidence) ->
          DocumentAnalyzerML.sentiment r = (PyStr.lower label, confidence)).
Proof.
  unfold DocumentAnalyzerML.analyze.
  destruct (assess_difficulty_total txt) as (level & -> & Hlevel).
  cbn [Py.bind]. eexists. split; [reflexivity|].
  cbn [DocumentAnalyzerML.difficulty DocumentAnalyzerML.topics
       DocumentAnalyzerML.sentiment].
  split; [exact Hlevel|].
  unfold DocumentAnalyzerML.classify_topics, DocumentAnalyzerML.analyze_sentiment.
  split; [|split; [|split]].
  - destruct (classifier _) as [labels|]; [|simpl; lia].
    apply (slice_to_length labels 3). lia.
  - now intros ->.
  - now intros ->.
  - now intros label confidence ->.
Qed.

(** ** [PDFParser.parse] *)

Lemma text_parts_from (pages : list (option text)) (parts : list text) :
  fold_left
    (fun parts page =>
       match page with
       | Some t => if Py.nonempty t then parts ++ [t] else parts
       | None => parts
       end) pages parts
  = parts ++ flat_map (fun page => match page with
                                   | Some (c :: t) => [c :: t]
                                   | _ => []
                                   end) pages.
Proof.
  revert parts; induction pages as [|page pages IH]; intros parts; simpl.
  - symmetry. apply app_nil_r.
  - rewrite IH. destruct page as [[|c t]|]; simpl; try reflexivity.
    now rewrite <- app_assoc.
Qed.

Lemma text_parts_eq (r : PDFParser.reader) :
  PDFParser.text_parts r
  = flat_map (fun page => match page with
                          | Some (c :: t) => [c :: t]
                          | _ => []
                          end) (PDFParser.pages r).
Proof. apply (text_parts_from (PDFParser.pages r) []). Qed.

Lemma split_ws_join_newline (parts : list text) :
  PyStr.split_ws (PyStr.join [ascii_of_nat 10] parts)
  = flat_map PyStr.split_ws parts.
Proof.
  induction parts as [|p ps IH]; [reflexivity|].
  destruct ps as [|q ps].
  - simpl. now rewrite app_nil_r.
  - change (PyStr.join [ascii_of_nat 10] (p :: q :: ps))
      with (p ++ ascii_of_nat 10 :: PyStr.join [ascii_of_nat 10] (q :: ps)).
    rewrite split_ws_app_space by reflexivity. now rewrite IH.
Qed.

Lemma words_of_pages (pages : list (option text)) :
  flat_map PyStr.split_ws
    (flat_map (fun page => match page with
                           | Some (c :: t) => [c :: t]
                           | _ => []
                           end) pages)
  = flat_map (fun page => match page with
                          | Some t => PyStr.split_ws t
                          | None => []
                          end) pages.
Proof.
  induction pages as [|page pages IH]; [reflexivity|].
  cbn [flat_map]. rewrite flat_map_app. f_equal; [|exact IH].
  destruct page as [[|c t]|]; try reflexivity.
  cbn [flat_map]. apply app_nil_r.
Qed.


(** ** More on the gap detector *)

Lemma matches_liti (w s rest : text) :
  w <> [] ->
  Spec.matches (Re.seq_of Re.chi w) s rest
  <-> exists mid, s = mid ++ rest /\ PyStr.lower mid = PyStr.lower w.
Proof.
  revert s; induction w as [|c w IH]; intros s Hw; [congruence|].
  destruct w as [|c' w].
  - simpl. split.
    + intros (x & E & ->). apply Ascii.eqb_eq in E. exists [x]. simpl.
      now rewrite E.
    + intros ([|x [|y mid]] & -> & E); try discriminate.
      injection E as E. exists x. split; [|reflexivity].
      rewrite E. apply Ascii.eqb_refl.
  - change (Re.seq_of Re.chi (c :: c' :: w))
      with (Re.Seq (Re.chi c) (Re.seq_of Re.chi (c' :: w))).
    cbn [Spec.matches]. split.
    + intros (mid & (x & E & ->) & H). apply Ascii.eqb_eq in E.
      apply IH in H as (m & -> & Hm); [|discriminate].
      exists (x :: m). split; [reflexivity|].
      unfold PyStr.lower in *. cbn [map]. rewrite E. f_equal. exact Hm.
    + intros ([|x m] & -> & E); [discriminate|].
      unfold PyStr.lower in E. cbn [map] in E. injection E as Ex Em.
      exists (m ++ rest). split.
      * exists x. split; [|reflexivity]. rewrite Ex. apply Ascii.eqb_refl.
      * apply IH; [discriminate|]. now exists m.
Qed.

Lemma liti_matches_in (w : string) (txt : text) :
  str w <> [] ->
  Spec.matches_in (Re.liti w) txt <-> Spec.mentions (PyStr.lower (str w)) txt.
Proof.
  intros Hw. unfold Spec.matches_in, Spec.mentions, Re.liti. split.
  - intros (pre & suf & rest & -> & H).
    apply matches_liti in H as (mid & -> & Hm); [|exact Hw].
    now exists pre, mid, rest.
  - intros (pre & mid & post & -> & Hm).
    exists pre, (mid ++ post), post. split; [reflexivity|].
    apply matches_liti; [exact Hw|]. now exists mid.
Qed.

Lemma vague_quantifier_iff (txt : text) :
  Re.found CriticalAnalyzer.vague_quantifier txt = true
  <-> Spec.mentions (str "many") txt \/ Spec.mentions (str "some") txt
      \/ Spec.mentions (str "few") txt \/ Spec.mentions (str "several") txt.
Proof.
  rewrite found_true.
  rewrite <- (liti_matches_in "many"), <- (liti_matches_in "some"),
    <- (liti_matches_in "few"), <- (liti_matches_in "several")
    by discriminate.
  unfold Spec.matches_in. split.
  - intros (pre & suf & rest & -> & [H|[H|[H|H]]]);
      [left|right; left|right; right; left|right; right; right];
      now exists pre, suf, rest.
  - intros [H|[H|[H|H]]]; destruct H as (pre & suf & rest & -> & H);
      exists pre, suf, rest; (split; [reflexivity|]); simpl; tauto.
Qed.

Lemma vague_not_fallacy (context : text -> nat * nat -> text) (txt : text) :
  ~ In CriticalAnalyzer.vague_msg (Spec.fallacy_findings context txt).
Proof.
  intros H. apply fallacy_finding_starts in H as (tail & E). discriminate.
Qed.

Lemma in_firstn_last {A : Type} (n : nat) (x : A) (before : list A) :
  ~ In x before ->
  (In x (firstn n (before ++ [x])) <-> length before < n).
Proof. apply in_firstn_after. Qed.

(** X13. The "vague quantifiers" finding is produced exactly when "many",
    "some", "few" or "several" occurs somewhere in the text, whatever the
    case and also inside a longer word; it is produced last, so it is in the
    returned list exactly when, besides, at most five findings were produced
    in all. *)
Theorem vague_finding_iff (txt : text) :
  let vague :=
    Spec.mentions (str "many") txt \/ Spec.mentions (str "some") txt
    \/ Spec.mentions (str "few") txt \/ Spec.mentions (str "several") txt in
  (In CriticalAnalyzer.vague_msg (CriticalAnalyzer.collect_gaps txt) <-> vague)
  /\ (In CriticalAnalyzer.vague_msg (CriticalAnalyzer.identify_logical_gaps txt)
      <-> vague /\ length (CriticalAnalyzer.collect_gaps txt) <= 5)
  /\ Spec.mentions (str "some") (str "Awesome results")
  /\ In CriticalAnalyzer.vague_msg
        (CriticalAnalyzer.identify_logical_gaps (str "Awesome results")).
Proof.
  cbv zeta. rewrite <- vague_quantifier_iff.
  unfold CriticalAnalyzer.identify_logical_gaps.
  rewrite collect_gaps_eq. unfold Spec.structural_findings.
  set (F := Spec.fallacy_findings _ txt).
  assert (HF : ~ In CriticalAnalyzer.vague_msg F) by apply vague_not_fallacy.
  set (R := if Spec.mentions_research_b txt
               && negb (Re.found CriticalAnalyzer.year_or_reference txt)
            then [CriticalAnalyzer.no_citations_msg] else []).
  assert (HR : ~ In CriticalAnalyzer.vague_msg (F ++ R)).
  { intros H. apply in_app_or in H as [H|H]; [contradiction|].
    subst R. destruct (_ && _); [destruct H as [H|[]]; discriminate|destruct H]. }
  split; [|split; [|split]].
  - destruct (Re.found CriticalAnalyzer.vague_quantifier txt).
    + split; [reflexivity|]. intros _. rewrite app_assoc.
      apply in_or_app. right. now left.
    + rewrite app_nil_r. split; [contradiction|discriminate].
  - destruct (Re.found CriticalAnalyzer.vague_quantifier txt).
    + rewrite app_assoc, in_firstn_last by exact HR.
      rewrite !length_app. cbn [length]. split; [intros H; split; [reflexivity|lia]|].
      intros [_ H]. lia.
    + rewrite app_nil_r. split; [|intros [H _]; discriminate].
      intros H. exfalso. apply not_in_firstn in H; [exact H|exact HR].
  - exists (str "Awe"), (str "some"), (str " results"). split; reflexivity.
  - vm_compute. auto.
Qed.

Lemma filter_firstn_length {A : Type} (f : A -> bool) (n : nat) (xs : list A) :
  length (filter f (firstn n xs)) <= length (filter f xs).
Proof.
  rewrite <- (firstn_skipn n xs) at 2. rewrite filter_app, length_app. lia.
Qed.

Lemma filter_map_none {A B : Type} (f : B -> bool) (g : A -> B) (xs : list A) :
  (forall x, f (g x) = false) -> filter f (map g xs) = [].
Proof.
  intros H. induction xs as [|x xs IH]; simpl; [reflexivity|].
  now rewrite H.
Qed.

Lemma filter_map_two {A B : Type} (f : B -> bool) (g : A -> B) (xs : list A) :
  length (filter f (map g (firstn 2 xs))) <= 2.
Proof.
  etransitivity; [apply filter_length_le|].
  rewrite length_map, length_firstn. lia.
Qed.

Ltac count_block :=
  first [ rewrite filter_map_none by (intros; reflexivity); cbn [length]
        | match goal with
          | |- context [length (filter ?f (map ?g (firstn 2 ?xs)))] =>
              pose proof (filter_map_two f g xs);
              generalize dependent (length (filter f (map g (firstn 2 xs))));
              intros
          end ].

(** X14. At most two of the returned findings name the same fallacy. *)
Theorem at_most_two_per_fallacy (txt : text) :
  Forall (fun fallacy_name =>
            length (filter (CriticSpec.names_fallacy fallacy_name)
                           (CriticalAnalyzer.identify_logical_gaps txt)) <= 2)
         (Py.keys CriticalAnalyzer.FALLACY_PATTERNS).
Proof.
  unfold CriticalAnalyzer.identify_logical_gaps. rewrite collect_gaps_eq.
  assert (Hstruct : forall name,
    filter (CriticSpec.names_fallacy name) (Spec.structural_findings txt) = []).
  { intros name. unfold Spec.structural_findings.
    destruct (_ && _), (Re.found CriticalAnalyzer.vague_quantifier txt);
      reflexivity. }
  unfold Py.keys. cbn [map fst CriticalAnalyzer.FALLACY_PATTERNS].
  repeat (apply Forall_cons;
    [ (etransitivity; [apply filter_firstn_length|]);
      rewrite filter_app, Hstruct, app_nil_r;
      unfold Spec.fallacy_findings, CriticalAnalyzer.FALLACY_PATTERNS;
      cbn [flat_map fst snd]; rewrite !filter_app, !length_app;
      change (length (filter _ (@nil text))) with 0;
      repeat count_block; lia | ]).
  apply Forall_nil.
Qed.

(** ** More on the questions and the related topics *)

(** X15. The follow-up questions are five, except for a text without a
    trimmed segment longer than 30 characters and no topics, which gets the
    four generic questions only.  The last generic question is returned
    exactly when at most one question about the text or the topics comes
    before the generic ones: with no topics, or with one topic and no long
    segment. *)
Theorem follow_up_questions_count (txt : text) (topics : list text) :
  exists questions,
    CriticalAnalyzer.generate_follow_up_questions txt topics = Some questions
    /\ ((CriticalAnalyzer.key_sentences txt = [] /\ topics = []
         /\ questions = CriticalAnalyzer.generic_questions)
        \/ ((CriticalAnalyzer.key_sentences txt <> [] \/ topics <> [])
            /\ length questions = 5))
    /\ (In (str "What further research would strengthen these conclusions?")
           questions
        <-> topics = []
            \/ (CriticalAnalyzer.key_sentences txt = [] /\ length topics <= 1)).
Proof.
  eexists. split; [apply follow_up_questions_eq|].
  unfold Spec.claim_question.
  destruct (CriticalAnalyzer.key_sentences txt) as [|main_claim rest],
    topics as [|topic0 [|topic1 topics]];
    cbn [Spec.topic_questions app firstn CriticalAnalyzer.generic_questions map
         length].
  - split; [left; auto|]. split; [auto|]. intros _. cbn [In]. auto.
  - split; [right; split; [right; discriminate|reflexivity]|].
    split; [intros _; right; split; [reflexivity|lia]|].
    intros _. cbn [In]. auto 6.
  - split; [right; split; [right; discriminate|reflexivity]|].
    split; [|intros [H|[_ H]]; [discriminate H|simpl in H; lia]].
    intros H. exfalso. cbn in H. intuition discriminate.
  - split; [right; split; [left; discriminate|reflexivity]|].
    split; [auto|]. intros _. cbn [In]. auto 6.
  - split; [right; split; [left; discriminate|reflexivity]|].
    split; [|intros [H|[H _]]; discriminate H].
    intros H. exfalso. cbn in H. intuition discriminate.
  - split; [right; split; [left; discriminate|reflexivity]|].
    split; [|intros [H|[H _]]; discriminate H].
    intros H. exfalso. cbn in H. intuition discriminate.
Qed.

Lemma mem_In (x : text) (xs : list text) : PyStr.mem x xs = true <-> In x xs.
Proof.
  unfold PyStr.mem. rewrite existsb_exists. split.
  - intros (y & Hy & E). apply text_eqb_eq in E. now subst.
  - intros H. exists x. split; [exact H|apply text_eqb_refl].
Qed.

Lemma keyword_scan_from (words : list text) (table : list (text * text)) :
  forall related x,
    In x (fold_left
            (fun related (entry : text * text) =>
               if PyStr.mem (fst entry) words
                  && negb (PyStr.mem (snd entry) related)
               then related ++ [snd entry]
               else related)
            table related)
    <-> In x related
        \/ exists keyword, In (keyword, x) table /\ In keyword words.
Proof.
  induction table as [|[keyword name] table IH]; intros related x;
    cbn [fold_left fst snd].
  - split; [auto|]. intros [H|(k & [] & _)]. exact H.
  - rewrite IH. split.
    + intros [H|(k & Hk & Hw)].
      * destruct (PyStr.mem keyword words) eqn:Hmem;
          [destruct (PyStr.mem name related) eqn:Hrel|]; cbn [andb negb] in H;
          auto.
        apply in_app_or in H as [H|[<-|[]]]; [auto|].
        right. exists keyword. split; [now left|now apply mem_In].
      * right. exists k. split; [now right|exact Hw].
    + intros [H|(k & [E|Hk] & Hw)].
      * left. destruct (_ && _); [apply in_or_app|]; auto.
      * injection E as -> ->. left. apply mem_In in Hw. rewrite Hw.
        destruct (PyStr.mem x related) eqn:Hrel; cbn [andb negb].
        -- now apply mem_In.
        -- apply in_or_app. right. now left.
      * right. now exists k.
Qed.

Lemma related_candidates_iff (txt : text) (topics : list text) (x : text) :
  In x (Spec.keyword_scan txt (flat_map Spec.topic_entries topics))
  <-> CriticSpec.suggested_by txt topics x.
Proof.
  unfold Spec.keyword_scan, CriticSpec.suggested_by.
  rewrite keyword_scan_from, in_flat_map. reflexivity.
Qed.

(** X16. Every related topic returned comes from the table entry of one
    of the given topics or from a keyword that is a whole word of the
    lowercased text; when no more than five distinct topics qualify, each of
    them is returned. *)
Theorem related_topics_sound (set_to_list : list text -> list text)
  (Hset : Spec.lists_each_once set_to_list) (txt : text) (topics : list text) :
  exists related,
    CriticalAnalyzer.suggest_related_topics set_to_list txt topics
    = Some related
    /\ Forall (CriticSpec.suggested_by txt topics) related
    /\ (length (set_to_list
                  (Spec.keyword_scan txt (flat_map Spec.topic_entries topics)))
        <= 5 ->
        forall x, CriticSpec.suggested_by txt topics x -> In x related).
Proof.
  eexists. split; [apply suggest_related_topics_eq|].
  set (candidates := Spec.keyword_scan txt (flat_map Spec.topic_entries topics)).
  destruct (Hset candidates) as [_ Hin]. split.
  - apply Forall_firstn, Forall_forall. intros x Hx.
    apply related_candidates_iff, Hin, Hx.
  - intros Hlen x Hx. rewrite firstn_all2 by exact Hlen.
    apply Hin, related_candidates_iff, Hx.
Qed.

(** ** More on the summary and the claims *)

(** X17. The summary opens with the "warrant scrutiny" sentence exactly
    when a claim or a gap was found and with the "well-reasoned" sentence
    otherwise; it holds the "may lack counterarguments" sentence exactly when
    neither "however" nor "although" occurs in the text, whatever the case;
    and it has between one and five sentences. *)
Theorem summary_opening_and_balance (txt : text) (claims gaps : list text) :
  let parts := CriticalAnalyzer.summary_parts txt claims gaps in
  (exists rest,
      parts = (if Py.nonempty claims || Py.nonempty gaps
               then CriticalAnalyzer.scrutiny_msg
               else CriticalAnalyzer.well_reasoned_msg) :: rest)
  /\ (In CriticalAnalyzer.balance_msg parts
      <-> ~ Spec.mentions (str "however") txt
          /\ ~ Spec.mentions (str "although") txt)
  /\ 1 <= length parts <= 5.
Proof.
  cbv zeta. rewrite summary_parts_eq. unfold Spec.summary_body.
  rewrite <- !contains_lower_iff.
  destruct (PyStr.contains (str "however") (PyStr.lower txt)),
    (PyStr.contains (str "although") (PyStr.lower txt)),
    (Py.nonempty claims), (Py.nonempty gaps),
    (Re.findall_count CriticalAnalyzer.citation txt) as [|[|[|n]]];
    cbn [negb andb orb app Spec.citation_sentences length];
    (split; [eexists; reflexivity|]);
    (split; [|lia]);
    (split; [intros H|intros [H1 H2]]);
    try (exfalso; now (apply H1 || apply H2));
    try (split; discriminate);
    try (cbn [In]; tauto);
    repeat (destruct H as [H|H]; [discriminate H|]); destruct H.
Qed.

Lemma units_free (txt : text) :
  Forall (Forall (fun c => c <> "."%char)) (Spec.units txt).
Proof.
  unfold Spec.units. apply Forall_map.
  eapply Forall_impl; [|apply split_on_free].
  intros s. apply Forall_strip.
Qed.

(** X18. Every unsupported claim returned has between 20 and 153
    characters and is a trimmed segment of the text between two dots, whole
    when it has at most 150 characters and else cut to 150 with "..." added;
    the segment itself holds no dot. *)
Theorem claims_are_segments (txt : text) :
  Forall (fun claim =>
            20 <= length claim <= 153
            /\ exists segment,
                 In segment (Spec.units txt)
                 /\ Forall (fun c => c <> "."%char) segment
                 /\ claim = Spec.snippet segment)
         (CriticalAnalyzer.identify_unsupported_claims txt).
Proof.
  rewrite identify_unsupported_claims_eq. apply Forall_firstn.
  pose proof (units_free txt) as Hfree.
  apply Forall_forall. intros claim Hclaim.
  apply in_flat_map in Hclaim as (s & Hs & Hc).
  unfold Spec.sentence_claims in Hc.
  destruct (Nat.leb_spec 20 (length s)) as [Hlen|_]; [|destruct Hc].
  destruct (Spec.flagged s); cbn [andb] in Hc; [|destruct Hc].
  destruct Hc as [<-|[]]. split.
  - split; [|apply snippet_length].
    unfold Spec.snippet. destruct (Nat.leb_spec (length s) 150); [exact Hlen|].
    rewrite length_app, length_firstn. lia.
  - exists s. split; [exact Hs|]. split; [|reflexivity].
    rewrite Forall_forall in Hfree. now apply Hfree.
Qed.

(** ** Letter case and the claim detector *)

Lemma matches_respects (f : ascii -> ascii) (r : Re.regex) :
  CriticSpec.respects f r ->
  forall s,
    (forall rest, Spec.matches r s rest ->
                  Spec.matches r (map f s) (map f rest))
    /\ (forall rest', Spec.matches r (map f s) rest' ->
                      exists rest, rest' = map f rest /\ Spec.matches r s rest).
Proof.
  induction r as [|p|r1 IH1 r2 IH2|r1 IH1 r2 IH2|p|r1 IH1]; simpl; intros Hr s.
  - split; [now intros rest ->|]. intros rest' ->. now exists s.
  - split.
    + intros rest (c & Hc & ->). exists (f c). now rewrite Hr.
    + intros rest' (c' & Hc' & E). destruct s as [|c s]; [discriminate|].
      injection E as <- <-. exists s. split; [reflexivity|].
      exists c. now rewrite <- Hr.
  - destruct Hr as [H1 H2]. split.
    + intros rest (mid & Ha & Hb). exists (map f mid). split.
      * now apply (IH1 H1 s).
      * now apply (IH2 H2 mid).
    + intros rest' (mid' & Ha & Hb).
      apply (IH1 H1 s) in Ha as (mid & -> & Ha).
      apply (IH2 H2 mid) in Hb as (rest & -> & Hb).
      exists rest. split; [reflexivity|now exists mid].
  - destruct Hr as [H1 H2]. split.
    + intros rest [H|H]; [left; now apply (IH1 H1 s)|right; now apply (IH2 H2 s)].
    + intros rest' [H|H].
      * apply (IH1 H1 s) in H as (rest & -> & H). exists rest. auto.
      * apply (IH2 H2 s) in H as (rest & -> & H). exists rest. auto.
  - split.
    + intros rest (cs & Hcs & ->). exists (map f cs). split.
      * apply Forall_map. eapply Forall_impl; [|exact Hcs].
        intros c Hc. now rewrite Hr.
      * apply map_app.
    + intros rest' (cs' & Hcs & E).
      apply map_eq_app in E as (cs & rest & -> & <- & <-).
      exists rest. split; [reflexivity|]. exists cs. split; [|reflexivity].
      apply Forall_map in Hcs. eapply Forall_impl; [|exact Hcs].
      intros c Hc. now rewrite <- Hr.
  - split.
    + intros rest (-> & Hno). split; [reflexivity|].
      intros (x' & Hx). apply (IH1 Hr s) in Hx as (x & _ & Hx).
      apply Hno. now exists x.
    + intros rest' (-> & Hno). exists s. split; [reflexivity|].
      split; [reflexivity|]. intros (x & Hx). apply Hno.
      exists (map f x). now apply (IH1 Hr s).
Qed.

Lemma matches_in_map (f : ascii -> ascii) (r : Re.regex) (s : text) :
  CriticSpec.respects f r ->
  Spec.matches_in r (map f s) <-> Spec.matches_in r s.
Proof.
  intros Hr. unfold Spec.matches_in. split.
  - intros (pre' & suf' & rest' & E & H).
    apply map_eq_app in E as (pre & suf & -> & <- & <-).
    apply (matches_respects f r Hr suf) in H as (rest & _ & H).
    now exists pre, suf, rest.
  - intros (pre & suf & rest & -> & H).
    exists (map f pre), (map f suf), (map f rest).
    split; [apply map_app|]. now apply (matches_respects f r Hr suf).
Qed.

Lemma found_map (f : ascii -> ascii) (r : Re.regex) (s : text) :
  CriticSpec.respects f r -> Re.found r (map f s) = Re.found r s.
Proof.
  intros Hr. pose proof (matches_in_map f r s Hr) as H.
  rewrite <- !found_true in H.
  destruct (Re.found r (map f s)), (Re.found r s); try reflexivity.
  - symmetry. now apply H.
  - now apply H.
Qed.

Lemma lower_char_word (c : ascii) :
  PyStr.is_word (PyStr.lower_char c) = PyStr.is_word c.
Proof. destruct c as [[] [] [] [] [] [] [] []]; reflexivity. Qed.

Lemma lower_char_digit (c : ascii) :
  PyStr.is_digit (PyStr.lower_char c) = PyStr.is_digit c.
Proof. destruct c as [[] [] [] [] [] [] [] []]; reflexivity. Qed.

Lemma lower_char_paren (c : ascii) :
  Ascii.eqb "("%char (PyStr.lower_char c) = Ascii.eqb "("%char c.
Proof. destruct c as [[] [] [] [] [] [] [] []]; reflexivity. Qed.

Lemma lower_char_percent (c : ascii) :
  Ascii.eqb "%"%char (PyStr.lower_char c) = Ascii.eqb "%"%char c.
Proof. destruct c as [[] [] [] [] [] [] [] []]; reflexivity. Qed.

Lemma chi_respects_lower (c : ascii) :
  CriticSpec.respects PyStr.lower_char (Re.chi c).
Proof. intros x. simpl. now rewrite lower_char_idempotent. Qed.

Lemma liti_respects_lower (w : string) :
  CriticSpec.respects PyStr.lower_char (Re.liti w).
Proof.
  unfold Re.liti. induction (str w) as [|c s IH]; [exact I|].
  destruct s as [|c' s]; [apply chi_respects_lower|].
  split; [apply chi_respects_lower|exact IH].
Qed.

Lemma claim_patterns_respect_lower :
  Forall (CriticSpec.respects PyStr.lower_char) CriticalAnalyzer.CLAIM_PATTERNS.
Proof.
  unfold CriticalAnalyzer.CLAIM_PATTERNS, CriticalAnalyzer.no_paren_ahead,
    Re.spaces, Re.word, Re.digits, Re.plus, Re.opt.
  repeat (apply Forall_cons || apply Forall_nil);
    cbn [Re.seqs Re.alts CriticSpec.respects];
    repeat split;
    first [ apply liti_respects_lower
          | apply chi_respects_lower
          | exact lower_char_space
          | exact lower_char_word
          | exact lower_char_digit
          | exact lower_char_paren
          | exact lower_char_percent
          | exact I ].
Qed.

Lemma lstrip_map (f : ascii -> ascii) (s : text) :
  (forall c, PyStr.is_space (f c) = PyStr.is_space c) ->
  PyStr.lstrip (map f s) = map f (PyStr.lstrip s).
Proof.
  intros Hf. induction s as [|c s IH]; simpl; [reflexivity|].
  rewrite Hf. now destruct (PyStr.is_space c).
Qed.

Lemma strip_map (f : ascii -> ascii) (s : text) :
  (forall c, PyStr.is_space (f c) = PyStr.is_space c) ->
  PyStr.strip (map f s) = map f (PyStr.strip s).
Proof.
  intros Hf. unfold PyStr.strip, PyStr.rstrip.
  now rewrite (lstrip_map f s Hf), <- map_rev, (lstrip_map f _ Hf), map_rev.
Qed.

Lemma units_lower (txt : text) :
  Spec.units (PyStr.lower txt) = map PyStr.lower (Spec.units txt).
Proof.
  unfold Spec.units. rewrite split_on_dot_lower, !map_map.
  apply map_ext. intros s. apply (strip_map PyStr.lower_char s lower_char_space).
Qed.

Lemma flagged_lower (s : text) : Spec.flagged (PyStr.lower s) = Spec.flagged s.
Proof.
  unfold Spec.flagged.
  pose proof claim_patterns_respect_lower as H.
  induction H as [|p ps Hp Hps IH]; [reflexivity|].
  cbn [existsb]. rewrite IH. f_equal. now apply found_map.
Qed.

Lemma snippet_lower (s : text) :
  Spec.snippet (PyStr.lower s) = PyStr.lower (Spec.snippet s).
Proof.
  unfold Spec.snippet, PyStr.lower. rewrite length_map.
  destruct (length s <=? 150); [reflexivity|].
  now rewrite map_app, firstn_map.
Qed.

Lemma sentence_claims_lower (s : text) :
  Spec.sentence_claims (PyStr.lower s)
  = map PyStr.lower (Spec.sentence_claims s).
Proof.
  unfold Spec.sentence_claims. rewrite flagged_lower, snippet_lower.
  unfold PyStr.lower at 1. rewrite length_map.
  now destruct (_ && _).
Qed.


(** ** Every finding has a cause *)

Lemma window_length (txt : text) (m : nat * nat) :
  fst m <= snd m ->
  length (PyStr.strip (Spec.window txt m)) <= snd m - fst m + 150.
Proof.
  intros Hm. etransitivity; [apply strip_length|].
  unfold Spec.window, PyStr.slice. rewrite length_firstn. lia.
Qed.

(** X20. Every finding returned is one of the two fixed structural
    messages or quotes a match of one of the fallacy patterns in the text,
    under the name of that pattern; the quoted context is at most 150
    characters longer than the match. *)
Theorem findings_have_a_cause (txt : text) :
  Forall (fun finding =>
            finding = CriticalAnalyzer.no_citations_msg
            \/ finding = CriticalAnalyzer.vague_msg
            \/ exists fallacy_name pattern m,
                 In (fallacy_name, pattern) CriticalAnalyzer.FALLACY_PATTERNS
                 /\ Spec.match_at pattern txt m
                 /\ finding
                    = Spec.finding_of fallacy_name
                        (PyStr.strip (Spec.window txt m))
                 /\ length (PyStr.strip (Spec.window txt m))
                    <= snd m - fst m + 150)
         (CriticalAnalyzer.identify_logical_gaps txt).
Proof.
  unfold CriticalAnalyzer.identify_logical_gaps. rewrite collect_gaps_eq.
  apply Forall_firstn, Forall_app. split.
  - apply Forall_forall. intros finding H. right. right.
    unfold Spec.fallacy_findings in H.
    apply in_flat_map in H as ([name pattern] & Hentry & H).
    apply in_map_iff in H as (m & <- & Hm). cbn [fst snd] in *.
    assert (Hmatch : Spec.match_at pattern txt m).
    { apply finditer_sound. rewrite <- (firstn_skipn 2 (Re.finditer pattern txt)).
      apply in_or_app. now left. }
    exists name, pattern, m. repeat split; try assumption; try apply Hmatch.
    apply window_length, Hmatch.
  - unfold Spec.structural_findings.
    destruct (_ && _), (Re.found CriticalAnalyzer.vague_quantifier txt);
      cbn [app];
      repeat (apply Forall_cons; [auto|]); apply Forall_nil.
Qed.

(** ** [ModelManager] *)

Lemma access_slots (Pipeline : Type)
  (pipeline : ModelManager.property -> option Pipeline)
  (which : ModelManager.property) (m m' : ModelManager.manager Pipeline)
  (p : Pipeline) :
  ModelManager.access Pipeline pipeline which m = Some (m', p) ->
  ModelManager.slot Pipeline which m' = Some p
  /\ (forall other, other <> which ->
        ModelManager.slot Pipeline other m' = ModelManager.slot Pipeline other m).
Proof.
  unfold ModelManager.access.
  destruct (ModelManager.slot Pipeline which m) as [q|] eqn:E.
  - intros [= <- <-]. split; [exact E|reflexivity].
  - destruct (pipeline which) as [q|]; [|discriminate].
    cbn [Py.bind]. intros [= <- <-]. split.
    + now destruct which.
    + intros other Hne. destruct which, other; try reflexivity; congruence.
Qed.

Lemma run_slots (Pipeline : Type)
  (pipeline : ModelManager.property -> option Pipeline)
  (reads : list ModelManager.property) :
  forall (m m' : ModelManager.manager Pipeline) (which : ModelManager.property),
    ModelManager.run Pipeline pipeline reads m = Some m' ->
    (ModelManager.is_not_none (ModelManager.slot Pipeline which m') = true
     <-> ModelManager.is_not_none (ModelManager.slot Pipeline which m) = true
         \/ In which reads).
Proof.
  induction reads as [|r reads IH]; intros m m' which; cbn [ModelManager.run].
  - intros [= <-]. cbn [In]. tauto.
  - destruct (ModelManager.access Pipeline pipeline r m) as [[m1 p]|] eqn:E;
      [|discriminate].
    cbn [Py.bind fst]. intros Hrun. rewrite (IH m1 m' which Hrun).
    destruct (access_slots Pipeline pipeline r m m1 p E) as (Hr & Hother).
    cbn [In].
    assert (Hcase : which = r \/ which <> r)
      by (destruct which, r; auto; right; discriminate).
    destruct Hcase as [->|Hne].
    + rewrite Hr. cbn. tauto.
    + rewrite (Hother which Hne).
      split; [intros [H|H]; auto|intros [H|[H|H]]; auto; congruence].
Qed.


(** ** The further theorems with hypotheses, at concrete inputs *)

Lemma truncate_text_within_bound_witness :
  (Z.of_nat (length (str "...")) <= 20)%Z
  /\ Z.of_nat (length (TextProcessing.truncate_text
                         (str "This is a long text that needs truncation")
                         20 (str "..."))) = 20%Z.
Proof.
  assert (Hfit : (Z.of_nat (length (str "...")) <= 20)%Z) by (simpl; lia).
  split; [exact Hfit|].
  apply (truncate_text_within_bound
           (str "This is a long text that needs truncation") (str "...") 20
           Hfit).
  simpl. lia.
Defined.

Lemma truncate_text_short_bound_witness :
  (1 < Z.of_nat (length (str "...")))%Z
  /\ (1 < Z.of_nat (length (str "abcdefgh")))%Z
  /\ (1 < Z.of_nat (length (TextProcessing.truncate_text
                             (str "abcdefgh") 1 (str "..."))))%Z.
Proof.
  assert (Hshort : (1 < Z.of_nat (length (str "...")))%Z) by (simpl; lia).
  assert (Hlong : (1 < Z.of_nat (length (str "abcdefgh")))%Z) by (simpl; lia).
  split; [exact Hshort|]. split; [exact Hlong|].
  apply (truncate_text_short_bound (str "abcdefgh") (str "...") 1 Hshort Hlong).
Defined.

Lemma extract_sentences_across_mark_witness :
  TextProcessing.sentence_end "!"%char = true
  /\ TextProcessing.extract_sentences (str "One. Two" ++ "!"%char :: str " Three?")
       None
     = TextProcessing.extract_sentences (str "One. Two") None
       ++ TextProcessing.extract_sentences (str " Three?") None.
Proof.
  split; [reflexivity|].
  apply (extract_sentences_across_mark (str "One. Two") (str " Three?")
           "!"%char eq_refl).
Defined.

Lemma summarize_fallback_witness :
  let out := DocumentAnalyzerML.summarize 10000 (fun _ => None) (str "A. B.") in
  length (PyStr.split_on "."%char (str "A. B.")) <= 3
  /\ out = str "A. B..".
Proof.
  cbv zeta. split; [simpl; lia|].
  apply (summarize_fallback 10000 (fun _ => None) (str "A. B.") eq_refl).
  simpl. lia.
Defined.


Lemma related_topics_sound_witness :
  Spec.lists_each_once Spec.first_occurrence_order
  /\ exists related,
       CriticalAnalyzer.suggest_related_topics Spec.first_occurrence_order
         (str "Climate policy and data") [str "Science"] = Some related
       /\ Forall (CriticSpec.suggested_by (str "Climate policy and data")
                    [str "Science"]) related.
Proof.
  split; [exact first_occurrence_order_ok|].
  destruct (related_topics_sound Spec.first_occurrence_order
              first_occurrence_order_ok (str "Climate policy and data")
              [str "Science"]) as (related & E & H & _).
  now exists related.
Defined.

